(** * Campaign manager: status reconciler, roster validation, date boundary format

    Shallow embedding of the TypeScript sources
      - [utils]         store access, [formatDate], [parseDate] and
                        [updateCampaignStatuses] (src/utils/index.ts, 1-66)
      - [HomePage]      the reconciler run by the periodic query
                        (src/components/HomePage.tsx)
      - [CampaignForm]  the create/edit form: date checks, [addPerson],
                        [handleSubmit] (src/utils/index.ts, 68-491)
      - [CampaignList]  the cards: finish, delete, add and remove person
                        (src/utils/index.ts, 493-829)
      - [types]         [CampaignStatus], [Person], [Campaign]

    JavaScript strings are sequences of UTF-16 code units, so they are modelled
    as [list N]; a [Date] is its time value in milliseconds, [None] standing
    for an Invalid Date (time value NaN). The calls into date-fns and the
    [Date] methods behind them are modelled for the one pattern the program
    uses, on a host whose time zone keeps a fixed offset. *)

From Stdlib Require Import ZArith NArith List Bool Lia String Ascii DecimalPos.
Import ListNotations.
Open Scope Z_scope.

(* ------------------------------------------------------------------ *)
(** ** JavaScript strings *)

Module JS.

Definition jsstring := list N.

(** An ASCII literal as a sequence of code units. *)
Definition lit (s : string) : jsstring :=
  map N_of_ascii (list_ascii_of_string s).
Arguments lit s%_string.

Definition eqb (a b : jsstring) : bool :=
  if list_eq_dec N.eq_dec a b then true else false.

(** [\d] : the ten ASCII digits. *)
Definition isDigit (c : N) : bool := ((48 <=? c) && (c <=? 57))%N.

(** [\s] : WhiteSpace and LineTerminator code points of ECMA-262. *)
Definition isWhiteSpace (c : N) : bool :=
  (((9 <=? c) && (c <=? 13)) || (c =? 32) || (c =? 160) || (c =? 5760)
   || ((8192 <=? c) && (c <=? 8202)) || (c =? 8232) || (c =? 8233)
   || (c =? 8239) || (c =? 8287) || (c =? 12288) || (c =? 65279))%N.

(** [s.replace(/\D/g, e)] and [s.replace(/[^\d]/g, e)] for the empty
    string [e]. *)
Definition stripNonDigits (s : jsstring) : jsstring := filter isDigit s.

(** [s.slice(a, b)] and [s.slice(a)] for [0 <= a <= b]. *)
Definition slice (a b : nat) (s : jsstring) : jsstring :=
  firstn (b - a) (skipn a s).
Definition sliceFrom (a : nat) (s : jsstring) : jsstring := skipn a s.

(** [!s.trim()] : the string is empty once leading and trailing white space
    is removed, i.e. it holds white space only. *)
Definition trimIsEmpty (s : jsstring) : bool := forallb isWhiteSpace s.

Definition dropWhile (p : N -> bool) : jsstring -> jsstring :=
  fix go (s : jsstring) : jsstring :=
    match s with
    | c :: r => if p c then go r else s
    | [] => []
    end.

(** [s.trim()]. *)
Definition trim (s : jsstring) : jsstring :=
  rev (dropWhile isWhiteSpace (rev (dropWhile isWhiteSpace s))).

(** [Number.prototype.toString()] of a non-negative integer. *)
Fixpoint uintCodes (u : Decimal.uint) : jsstring :=
  match u with
  | Decimal.Nil => []
  | Decimal.D0 r => 48%N :: uintCodes r
  | Decimal.D1 r => 49%N :: uintCodes r
  | Decimal.D2 r => 50%N :: uintCodes r
  | Decimal.D3 r => 51%N :: uintCodes r
  | Decimal.D4 r => 52%N :: uintCodes r
  | Decimal.D5 r => 53%N :: uintCodes r
  | Decimal.D6 r => 54%N :: uintCodes r
  | Decimal.D7 r => 55%N :: uintCodes r
  | Decimal.D8 r => 56%N :: uintCodes r
  | Decimal.D9 r => 57%N :: uintCodes r
  end.

Definition toString (n : Z) : jsstring := uintCodes (N.to_uint (Z.to_N n)).

(** [/^[...]+$/.test(s)] for one character class: the items of the class, and
    the match of a non-empty run of class characters that reaches the end of
    the input. *)
Inductive ClassItem :=
| CRange (lo hi : N)
| CChar (c : N)
| CWhiteSpace.

Definition inClass (cls : list ClassItem) (c : N) : bool :=
  existsb (fun i => match i with
                    | CRange lo hi => ((lo <=? c) && (c <=? hi))%N
                    | CChar c' => (c =? c')%N
                    | CWhiteSpace => isWhiteSpace c
                    end) cls.

Fixpoint skipClass (cls : list ClassItem) (s : jsstring) : jsstring :=
  match s with
  | c :: r => if inClass cls c then skipClass cls r else s
  | [] => []
  end.

Definition testClassPlus (cls : list ClassItem) (s : jsstring) : bool :=
  match s with
  | c :: r => inClass cls c
              && match skipClass cls r with [] => true | _ :: _ => false end
  | [] => false
  end.

(** Value of a run of decimal digits. *)
Definition digitValue (c : N) : Z := Z.of_N c - 48.
Definition parseInt (ds : jsstring) : Z :=
  fold_left (fun acc c => acc * 10 + digitValue c) ds 0.

End JS.

Import JS.

(* ------------------------------------------------------------------ *)
(** ** ECMAScript time values (proleptic Gregorian calendar)

    [Date.prototype.getFullYear] and friends, and [setFullYear]/[setHours],
    which date-fns calls, are the day-number arithmetic of ECMA-262. *)

Module Time.

Definition msPerMinute : Z := 60000.
Definition msPerHour : Z := 3600000.
Definition msPerDay : Z := 86400000.
Definition maxTime : Z := 8640000000000000.

(** Days since 1970-01-01 of year [y], month [m] (1..12), day [d]. *)
Definition daysFromCivil (y m d : Z) : Z :=
  let y' := if m <=? 2 then y - 1 else y in
  let era := y' / 400 in
  let yoe := y' - era * 400 in
  let mp := if m <=? 2 then m + 9 else m - 3 in
  let doy := (153 * mp + 2) / 5 + d - 1 in
  let doe := yoe * 365 + yoe / 4 - yoe / 100 + doy in
  era * 146097 + doe - 719468.

(** Year, month (1..12) and day of the month of a day number. *)
Definition civilFromDays (z : Z) : Z * Z * Z :=
  let z' := z + 719468 in
  let era := z' / 146097 in
  let doe := z' - era * 146097 in
  let yoe := (doe - doe / 1460 + doe / 36524 - doe / 146096) / 365 in
  let doy := doe - (365 * yoe + yoe / 4 - yoe / 100) in
  let mp := (5 * doy + 2) / 153 in
  let d := doy - (153 * mp + 2) / 5 + 1 in
  let m := if mp <? 10 then mp + 3 else mp - 9 in
  let y := yoe + era * 400 in
  (if m <=? 2 then y + 1 else y, m, d).

Definition isLeapYear (y : Z) : bool :=
  ((y mod 4 =? 0) && negb (y mod 100 =? 0)) || (y mod 400 =? 0).

(** Number of days of month index [m0] (0..11). *)
Definition daysInMonth (y m0 : Z) : Z :=
  if m0 =? 1 then (if isLeapYear y then 29 else 28)
  else if (m0 =? 3) || (m0 =? 5) || (m0 =? 8) || (m0 =? 10) then 30
  else 31.

(** A valid time value, clipped as ECMA-262 TimeClip does. *)
Definition timeClip (t : Z) : option Z :=
  if Z.abs t <=? maxTime then Some t else None.

Section LocalTime.

(** [Date.prototype.getTimezoneOffset()], in minutes, of a host whose zone
    keeps one offset all year: local time is [t - timezoneOffset * 60000]. *)
Variable timezoneOffset : Z.

Definition localTime (t : Z) : Z := t - timezoneOffset * msPerMinute.

Definition getFullYear (t : Z) : Z :=
  let '(y, _, _) := civilFromDays (localTime t / msPerDay) in y.
(** Month index, 0..11. *)
Definition getMonth (t : Z) : Z :=
  let '(_, m, _) := civilFromDays (localTime t / msPerDay) in m - 1.
Definition getDate (t : Z) : Z :=
  let '(_, _, d) := civilFromDays (localTime t / msPerDay) in d.
Definition getHours (t : Z) : Z := (localTime t mod msPerDay) / msPerHour.
Definition getMinutes (t : Z) : Z := (localTime t mod msPerHour) / msPerMinute.

(** [new Date(0)], then [setFullYear(y, m0, d)] and [setHours(h, mi, 0, 0)]. *)
Definition makeLocal (y m0 d h mi : Z) : option Z :=
  timeClip (daysFromCivil y (m0 + 1) d * msPerDay + h * msPerHour
            + mi * msPerMinute + timezoneOffset * msPerMinute).

End LocalTime.

(** A host zone whose offset changes once: [getTimezoneOffset()] is
    [offsetBefore] for instants before [transition] and [offsetAfter] from
    it on (minutes, positive west of UTC). A zone of one offset has both
    equal. *)
Record Zone := mkZone {
  offsetBefore : Z;
  offsetAfter : Z;
  transition : Z
}.

Definition fixedZone (timezoneOffset : Z) : Zone :=
  mkZone timezoneOffset timezoneOffset 0.

Definition offsetAt (z : Zone) (t : Z) : Z :=
  if t <? transition z then offsetBefore z else offsetAfter z.

(** The instant of a local time (ECMA-262, UTC(t)): the offset in force at
    that instant; a local time that occurs twice, or not at all, around the
    transition is read with the offset before the transition. *)
Definition utcOfLocal (z : Zone) (l : Z) : Z :=
  let early := l + offsetBefore z * msPerMinute in
  let late := l + offsetAfter z * msPerMinute in
  if early <? transition z then early
  else if transition z <=? late then late
  else early.

End Time.

(* ------------------------------------------------------------------ *)
(** ** The types of [src/types] *)

Inductive CampaignStatus := Activa | Finalizada | EnEspera.

Definition CampaignStatus_eqb (a b : CampaignStatus) : bool :=
  match a, b with
  | Activa, Activa | Finalizada, Finalizada | EnEspera, EnEspera => true
  | _, _ => false
  end.

Module Person.
Record t := mk {
  id : jsstring;
  name : jsstring;
  lastName : jsstring;
  phone : jsstring
}.
End Person.

Module Campaign.
Record t := mk {
  id : jsstring;
  name : jsstring;
  createdAt : jsstring;
  startDate : jsstring;
  endDate : jsstring;
  recordingStatus : bool;
  status : CampaignStatus;
  people : list Person.t
}.

(** [{ ...campaign, status: s }] *)
Definition withStatus (c : t) (s : CampaignStatus) : t :=
  mk (id c) (name c) (createdAt c) (startDate c) (endDate c)
     (recordingStatus c) s (people c).

(** [{ ...campaign, people: ps }] *)
Definition withPeople (c : t) (ps : list Person.t) : t :=
  mk (id c) (name c) (createdAt c) (startDate c) (endDate c)
     (recordingStatus c) (status c) ps.
End Campaign.

(* ------------------------------------------------------------------ *)
(** ** date-fns [format] and [parse] at the pattern [dd/MM/yyyy HH:mm]

    The two library calls of [src/utils/index.ts], specialised to the one
    pattern the program passes: the tokens [dd], [MM], [yyyy], [HH], [mm]
    separated by the literals [/], [/], space and [:]. *)

Module DateFns.

Notation "'do' x <- a ; b" :=
  (match a with Some x => b | None => None end)
  (at level 10, x pattern, a at level 100, b at level 200).

(** [addLeadingZeros(number, targetLength)] *)
Definition addLeadingZeros (number : Z) (targetLength : nat) : jsstring :=
  let output := toString (Z.abs number) in
  (if number <? 0 then lit "-" else [])
    ++ repeat 48%N (targetLength - List.length output) ++ output.

(** A numeric token of width [n]: the regular expression [^\d{1,n}]. *)
Fixpoint takeDigits (n : nat) (s : jsstring) : jsstring * jsstring :=
  match n, s with
  | S k, c :: r =>
      if isDigit c
      then let '(ds, rest) := takeDigits k r in (c :: ds, rest)
      else ([], s)
  | _, _ => ([], s)
  end.

Definition parseNDigits (n : nat) (s : jsstring) : option (Z * jsstring) :=
  match takeDigits n s with
  | ([], _) => None
  | (ds, rest) => Some (parseInt ds, rest)
  end.

(** A literal character of the pattern. *)
Definition expect (c : N) (s : jsstring) : option jsstring :=
  match s with
  | c' :: r => if (c' =? c)%N then Some r else None
  | [] => None
  end.

Section Host.

Variable timezoneOffset : Z.

(** [format(date, "dd/MM/yyyy HH:mm")]; [None] is the RangeError thrown on an
    Invalid Date. The [y] tokens print the year of the era: 1 - y for y <= 0. *)
Definition format (date : option Z) : option jsstring :=
  match date with
  | None => None
  | Some t =>
      let signedYear := Time.getFullYear timezoneOffset t in
      let year := if signedYear >? 0 then signedYear else 1 - signedYear in
      Some (addLeadingZeros (Time.getDate timezoneOffset t) 2 ++ lit "/"
            ++ addLeadingZeros (Time.getMonth timezoneOffset t + 1) 2 ++ lit "/"
            ++ addLeadingZeros year 4 ++ lit " "
            ++ addLeadingZeros (Time.getHours timezoneOffset t) 2 ++ lit ":"
            ++ addLeadingZeros (Time.getMinutes timezoneOffset t) 2)
  end.

(** [parse(dateString, "dd/MM/yyyy HH:mm", new Date())]; [None] is Invalid
    Date. Every token is read first, what is left over may only be white
    space, then the values are validated and set from the year down. *)
Definition parse (dateString : jsstring) : option Z :=
  do (dd, s1) <- parseNDigits 2 dateString;
  do s2 <- expect 47%N s1;
  do (MM, s3) <- parseNDigits 2 s2;
  do s4 <- expect 47%N s3;
  do (yyyy, s5) <- parseNDigits 4 s4;
  do s6 <- expect 32%N s5;
  do (HH, s7) <- parseNDigits 2 s6;
  do s8 <- expect 58%N s7;
  do (mm, rest) <- parseNDigits 2 s8;
  if negb (forallb isWhiteSpace rest) then None
  else if negb (yyyy >? 0) then None
  else if negb ((0 <=? MM - 1) && (MM - 1 <=? 11)) then None
  else if negb ((1 <=? dd) && (dd <=? Time.daysInMonth yyyy (MM - 1))) then None
  else if negb ((0 <=? HH) && (HH <=? 23)) then None
  else if negb ((0 <=? mm) && (mm <=? 59)) then None
  else Time.makeLocal timezoneOffset yyyy (MM - 1) dd HH mm.

End Host.

(** The same two calls on a host in the zone [z]: [format] reads the local
    fields of the instant with the offset in force at it; [parse] builds the
    date from the fields read and hands it to the host as a local time. *)
Definition formatIn (z : Time.Zone) (date : option Z) : option jsstring :=
  match date with
  | Some t => format (Time.offsetAt z t) date
  | None => None
  end.

Definition parseIn (z : Time.Zone) (dateString : jsstring) : option Z :=
  match parse 0 dateString with
  | Some l => Time.timeClip (Time.utcOfLocal z l)
  | None => None
  end.

End DateFns.

(* ------------------------------------------------------------------ *)
(** ** [src/utils/index.ts] *)

Module Utils.

(** The [localStorage] item ["campaigns"]; [None] when it was never set. *)
Definition Store := option (list Campaign.t).

Definition saveCampaigns (campaigns : list Campaign.t) (_ : Store) : Store :=
  Some campaigns.

Definition getCampaigns (store : Store) : list Campaign.t :=
  match store with
  | Some campaigns => campaigns
  | None => []
  end.

(** [hasCampaigns()] *)
Definition hasCampaigns (store : Store) : bool :=
  (0 <? List.length (getCampaigns store))%nat.

(** [isDateInFuture(date)] and [isDateInPast(date)], that is date-fns
    [isAfter] and [isBefore] against [new Date()]: comparisons of time
    values, false when the date is invalid. *)
Definition isDateInFuture (now : Z) (date : option Z) : bool :=
  match date with
  | Some t => now <? t
  | None => false
  end.

Definition isDateInPast (now : Z) (date : option Z) : bool :=
  match date with
  | Some t => t <? now
  | None => false
  end.

(** [now >= x] on numbers, where [x] may be NaN. *)
Definition geTime (now : Z) (x : option Z) : bool :=
  match x with
  | Some v => v <=? now
  | None => false
  end.

Section Host.

Variable timezoneOffset : Z.

Definition formatDate (date : option Z) : option jsstring :=
  DateFns.format timezoneOffset date.

Definition parseDate (dateString : jsstring) : option Z :=
  DateFns.parse timezoneOffset dateString.

(** The callback passed to [campaigns.map]: the new record, and whether it
    assigned [updated = true]. *)
Definition statusStep (now : Z) (campaign : Campaign.t) : Campaign.t * bool :=
  let startDate := parseDate (Campaign.startDate campaign) in
  let endDate := parseDate (Campaign.endDate campaign) in
  match Campaign.status campaign with
  | EnEspera =>
      if geTime now startDate
      then (Campaign.withStatus campaign Activa, true)
      else (Campaign.withStatus campaign EnEspera, false)
  | Activa =>
      if geTime now endDate
      then (Campaign.withStatus campaign Finalizada, true)
      else (Campaign.withStatus campaign Activa, false)
  | Finalizada => (Campaign.withStatus campaign Finalizada, false)
  end.

(** [updateCampaignStatuses()]: the list returned, the [updated] flag and
    the store afterwards. *)
Definition updateCampaignStatuses (now : Z) (store : Store)
  : list Campaign.t * bool * Store :=
  let campaigns := getCampaigns store in
  let results := map (statusStep now) campaigns in
  let updatedCampaigns := map fst results in
  let updated := existsb snd results in
  (updatedCampaigns, updated,
   if updated then saveCampaigns updatedCampaigns store else store).

End Host.

End Utils.

(* ------------------------------------------------------------------ *)
(** ** [src/components/HomePage.tsx] *)

Module HomePage.

Section Host.

Variable timezoneOffset : Z.

(** The [campaigns.map] callback of the query function: an unchanged
    campaign is returned as it is. *)
Definition statusStep (now : Z) (campaign : Campaign.t) : Campaign.t * bool :=
  let startDate := Utils.parseDate timezoneOffset (Campaign.startDate campaign) in
  let endDate := Utils.parseDate timezoneOffset (Campaign.endDate campaign) in
  let '(newStatus, updated) :=
    match Campaign.status campaign with
    | EnEspera =>
        if Utils.geTime now startDate then (Activa, true) else (EnEspera, false)
    | Activa =>
        if Utils.geTime now endDate then (Finalizada, true) else (Activa, false)
    | Finalizada => (Finalizada, false)
    end in
  (if CampaignStatus_eqb newStatus (Campaign.status campaign)
   then campaign else Campaign.withStatus campaign newStatus,
   updated).

(** The local [updateCampaignStatuses(campaigns)]. *)
Definition updateCampaignStatuses (now : Z) (campaigns : list Campaign.t)
  (store : Utils.Store) : list Campaign.t * bool * Utils.Store :=
  let results := map (statusStep now) campaigns in
  let updatedCampaigns := map fst results in
  let updated := existsb snd results in
  (updatedCampaigns, updated,
   if updated then Utils.saveCampaigns updatedCampaigns store else store).

(** The query function: fetch, reconcile, return. *)
Definition queryFn (now : Z) (store : Utils.Store)
  : list Campaign.t * bool * Utils.Store :=
  updateCampaignStatuses now (Utils.getCampaigns store) store.

End Host.

(** [campaignStats]: the four counters of the summary. *)
Record CampaignStats := mkStats {
  totalPeople : nat;
  activeCampaigns : nat;
  finishedCampaigns : nat;
  waitingCampaigns : nat
}.

Definition countStatus (s : CampaignStatus) (campaigns : list Campaign.t)
  : nat :=
  List.length
    (filter (fun c => CampaignStatus_eqb (Campaign.status c) s) campaigns).

Definition campaignStats (campaigns : list Campaign.t) : CampaignStats :=
  mkStats
    (fold_left (fun sum campaign =>
                  (sum + List.length (Campaign.people campaign))%nat)
               campaigns 0%nat)
    (countStatus Activa campaigns)
    (countStatus Finalizada campaigns)
    (countStatus EnEspera campaigns).

End HomePage.

(* ------------------------------------------------------------------ *)
(** ** Person input checks shared by the two forms

    [isValidPhoneNumber] and [formatPhoneNumber] are declared, with the same
    text, in [CampaignForm.tsx] and in [CampaignList.tsx]; so is the regular
    expression [/^[a-zA-ZáéíóúñÁÉÍÓÚÑ\s]+$/] for names. *)

Module PersonInput.

Definition isValidPhoneNumber (phone : jsstring) : bool :=
  let digitsOnly := stripNonDigits phone in
  (7 <=? List.length digitsOnly)%nat && (List.length digitsOnly <=? 15)%nat.

Definition formatPhoneNumber (value : jsstring) : jsstring :=
  match value with
  | [] => value
  | _ :: _ =>
      let phoneNumber := stripNonDigits value in
      let phoneNumberLength := List.length phoneNumber in
      if (phoneNumberLength <? 4)%nat then phoneNumber
      else if (phoneNumberLength <? 7)%nat
      then lit "(" ++ slice 0 3 phoneNumber ++ lit ") " ++ sliceFrom 3 phoneNumber
      else lit "(" ++ slice 0 3 phoneNumber ++ lit ") "
           ++ slice 3 6 phoneNumber ++ lit "-" ++ slice 6 10 phoneNumber
  end.

(** [a-zA-ZáéíóúñÁÉÍÓÚÑ\s] *)
Definition nameClass : list ClassItem :=
  [ CRange 97 122; CRange 65 90;
    CChar 225; CChar 233; CChar 237; CChar 243; CChar 250; CChar 241;
    CChar 193; CChar 201; CChar 205; CChar 211; CChar 218; CChar 209;
    CWhiteSpace ].

Definition nameRegExpTest (s : jsstring) : bool := testClassPlus nameClass s.

(** The three field checks that open [addPerson] and [handleAddPerson]: the
    error flags for name, last name and phone, each set on its own. *)
Record FieldErrors := mkErrors {
  nameError : bool;       (* "El nombre solo debe contener letras y espacios" *)
  lastNameError : bool;   (* "El apellido solo debe contener letras y espacios" *)
  phoneError : bool       (* "El número de teléfono debe tener entre 7 y 15 dígitos" *)
}.

Definition checkFields (name lastName phone : jsstring) : FieldErrors :=
  mkErrors (negb (nameRegExpTest name))
           (negb (nameRegExpTest lastName))
           (negb (isValidPhoneNumber phone)).

Definition isValid (e : FieldErrors) : bool :=
  negb (nameError e) && negb (lastNameError e) && negb (phoneError e).

(** [people.some((p) => p.phone === phone)] *)
Definition somePhone (people : list Person.t) (phone : jsstring) : bool :=
  existsb (fun p => JS.eqb (Person.phone p) phone) people.

End PersonInput.

(** Messages shown through [toast]. *)
Inductive Toast :=
| CampanaCreada            (* success "Campaña creada" *)
| CampanaActualizada       (* success "Campaña actualizada" *)
| CampanaFinalizada        (* success "Campaña finalizada" *)
| CampanaEliminada         (* success "Campaña eliminada" *)
| PersonaAgregada          (* success "Persona agregada a la campaña" *)
| TelefonoDuplicado        (* error "Ya existe una persona con este número de teléfono en la campaña." *)
| SoloFinalizarActivas     (* error "Solo se pueden finalizar campañas activas" *)
| SoloEliminarEnEspera     (* error "Solo se pueden eliminar campañas en espera" *)
| PersonasDeFinalizada     (* error "No se pueden eliminar personas de una campaña finalizada." *)
| UltimaPersona.           (* error "No se puede eliminar la última persona asociada a la campaña." *)

(* ------------------------------------------------------------------ *)
(** ** The [CampaignForm] component *)

Module CampaignForm.

Import PersonInput.

(** The component state. A date field is [None] for [null]; the date inside
    is a time value, [None] for an Invalid Date. *)
Record State := mkState {
  name : jsstring;
  startDate : option (option Z);
  endDate : option (option Z);
  recordingStatus : bool;
  status : CampaignStatus;
  people : list Person.t;
  personName : jsstring;
  personLastName : jsstring;
  personPhone : jsstring;
  startDateError : bool;
  endDateError : bool;
  personNameError : bool;
  personLastNameError : bool;
  personPhoneError : bool
}.

Definition setStartDate (v : option (option Z)) (st : State) : State :=
  mkState (name st) v (endDate st) (recordingStatus st) (status st)
    (people st) (personName st) (personLastName st) (personPhone st)
    (startDateError st) (endDateError st) (personNameError st)
    (personLastNameError st) (personPhoneError st).

Definition setDateErrors (s e : bool) (st : State) : State :=
  mkState (name st) (startDate st) (endDate st) (recordingStatus st)
    (status st) (people st) (personName st) (personLastName st)
    (personPhone st) s e (personNameError st) (personLastNameError st)
    (personPhoneError st).

Definition setPersonErrors (e : FieldErrors) (st : State) : State :=
  mkState (name st) (startDate st) (endDate st) (recordingStatus st)
    (status st) (people st) (personName st) (personLastName st)
    (personPhone st) (startDateError st) (endDateError st)
    (nameError e) (lastNameError e) (phoneError e).

Definition setPersonName (v : jsstring) (err : bool) (st : State) : State :=
  mkState (name st) (startDate st) (endDate st) (recordingStatus st)
    (status st) (people st) v (personLastName st) (personPhone st)
    (startDateError st) (endDateError st) err (personLastNameError st)
    (personPhoneError st).

Definition setPersonLastName (v : jsstring) (err : bool) (st : State) : State :=
  mkState (name st) (startDate st) (endDate st) (recordingStatus st)
    (status st) (people st) (personName st) v (personPhone st)
    (startDateError st) (endDateError st) (personNameError st) err
    (personPhoneError st).

Definition setPersonPhone (v : jsstring) (err : bool) (st : State) : State :=
  mkState (name st) (startDate st) (endDate st) (recordingStatus st)
    (status st) (people st) (personName st) (personLastName st) v
    (startDateError st) (endDateError st) (personNameError st)
    (personLastNameError st) err.

(** [setPeople(ps)] followed by the three calls that empty the person
    inputs. *)
Definition setPeopleAndClear (ps : list Person.t) (st : State) : State :=
  mkState (name st) (startDate st) (endDate st) (recordingStatus st)
    (status st) ps [] [] [] (startDateError st) (endDateError st)
    (personNameError st) (personLastNameError st) (personPhoneError st).

Definition setEndDate (v : option (option Z)) (st : State) : State :=
  mkState (name st) (startDate st) v (recordingStatus st) (status st)
    (people st) (personName st) (personLastName st) (personPhone st)
    (startDateError st) (endDateError st) (personNameError st)
    (personLastNameError st) (personPhoneError st).

Definition setStatus (v : CampaignStatus) (st : State) : State :=
  mkState (name st) (startDate st) (endDate st) (recordingStatus st) v
    (people st) (personName st) (personLastName st) (personPhone st)
    (startDateError st) (endDateError st) (personNameError st)
    (personLastNameError st) (personPhoneError st).

(** [a < b] and [a <= b] on dates: false as soon as one is invalid. *)
Definition ltDate (a b : option Z) : bool :=
  match a, b with Some x, Some y => x <? y | _, _ => false end.
Definition leDate (a b : option Z) : bool :=
  match a, b with Some x, Some y => x <=? y | _, _ => false end.

(** [d || now] for a nullable date. *)
Definition orNow (d : option (option Z)) (now : Z) : option Z :=
  match d with Some v => v | None => Some now end.

(** [validateDates]: the two error flags; [isValid] is that none is set. *)
Definition validateDates (now : Z) (status : CampaignStatus)
  (startDate endDate : option (option Z)) : bool * bool :=
  let startDateError :=
    match status, startDate with
    | EnEspera, Some d => ltDate d (Some now)
    | _, _ => false
    end in
  let endDateError :=
    match endDate with
    | Some e =>
        leDate e (match status with
                  | EnEspera => orNow startDate now
                  | _ => Some now
                  end)
    | None => false
    end in
  (startDateError, endDateError).

Definition datesValid (now : Z) (status : CampaignStatus)
  (startDate endDate : option (option Z)) : bool :=
  let '(s, e) := validateDates now status startDate endDate in negb s && negb e.

(** [updateStartDate] *)
Definition updateStartDate (now : Z) (newStatus : CampaignStatus)
  (currentStartDate : option (option Z)) : option (option Z) :=
  match newStatus with
  | Activa => Some (Some now)
  | _ => currentStartDate
  end.

Section Host.

Variable timezoneOffset : Z.

(** The [useState] initial values for the optional [campaign] prop. A stored
    date that is the empty string is falsy and gives [null]. *)
Definition initialState (campaign : option Campaign.t) : State :=
  let parseField (s : jsstring) : option (option Z) :=
    match s with
    | [] => None
    | _ :: _ => Some (DateFns.parse timezoneOffset s)
    end in
  match campaign with
  | Some c =>
      mkState (Campaign.name c) (parseField (Campaign.startDate c))
        (parseField (Campaign.endDate c)) (Campaign.recordingStatus c)
        (Campaign.status c) (Campaign.people c) [] [] []
        false false false false false
  | None =>
      mkState [] None None false EnEspera [] [] [] []
        false false false false false
  end.

(** The two effects, run after a render at time [now]. *)
Definition runEffects (now : Z) (st : State) : State :=
  let st1 := setStartDate (updateStartDate now (status st) (startDate st)) st in
  let '(s, e) := validateDates now (status st) (startDate st) (endDate st) in
  setDateErrors s e st1.

Definition isFormValid (now : Z) (st : State) : bool :=
  if trimIsEmpty (name st) || (List.length (people st) =? 0)%nat then false
  else datesValid now (status st) (startDate st) (endDate st).

(** The [onChange] handlers of the three person inputs. *)
Definition onPersonNameChange (value : jsstring) (st : State) : State :=
  setPersonName value (negb (nameRegExpTest value)) st.

Definition onPersonLastNameChange (value : jsstring) (st : State) : State :=
  setPersonLastName value (negb (nameRegExpTest value)) st.

Definition onPersonPhoneChange (value : jsstring) (st : State) : State :=
  let formattedNumber := formatPhoneNumber value in
  setPersonPhone formattedNumber (negb (isValidPhoneNumber formattedNumber)) st.

(** [addPerson]; [newId] is the value [uuidv4()] returns. *)
Definition addPerson (newId : jsstring) (st : State) : State * option Toast :=
  let errs := checkFields (personName st) (personLastName st) (personPhone st) in
  let st1 := setPersonErrors errs st in
  if negb (isValid errs) then (st1, None)
  else if somePhone (people st) (personPhone st) then (st1, Some TelefonoDuplicado)
  else
    let newPerson :=
      Person.mk newId (personName st) (personLastName st) (personPhone st) in
    (setPeopleAndClear (people st ++ [newPerson]) st1, Some PersonaAgregada).

(** [isSubmitDisabled], a [useMemo] over the form state: [renderedAt] is the
    clock value at the render that followed the last change of that state,
    not the clock value of a later click. *)
Definition isSubmitDisabled (renderedAt : Z) (st : State) : bool :=
  trimIsEmpty (name st)
  || match endDate st with None => true | Some _ => false end
  || (List.length (people st) =? 0)%nat
  || (CampaignStatus_eqb (status st) EnEspera
      && match startDate st with None => true | Some _ => false end)
  || negb (isFormValid renderedAt st).

(** [new Date(date.getTime() + 60 * 60 * 1000)] *)
Definition plusOneHour (date : option Z) : option Z :=
  match date with
  | Some t => Time.timeClip (t + 60 * 60 * 1000)
  | None => None
  end.

(** The [onChange] handlers of the two date pickers: a new start date moves
    an end date that is missing or not after it to one hour later. *)
Definition onStartDateChange (date : option (option Z)) (st : State) : State :=
  let st1 := setStartDate date st in
  match date with
  | Some d =>
      if match endDate st with
         | None => true
         | Some e => leDate e d
         end
      then setEndDate (Some (plusOneHour d)) st1
      else st1
  | None => st1
  end.

Definition onEndDateChange (date : option (option Z)) (st : State) : State :=
  setEndDate date st.

(** The [onChange] handler of the status select. *)
Definition onStatusChange (value : CampaignStatus) (st : State) : State :=
  setStatus value st.

(** The list [renderAssociatedPeople] shows. *)
Definition allPeople (campaign : option Campaign.t) (st : State)
  : list Person.t :=
  match campaign with Some c => Campaign.people c | None => [] end
  ++ people st.

Inductive SubmitResult :=
| NotSubmitted                      (* the form is not valid: plain return *)
| Threw                             (* RangeError out of [formatDate] *)
| Submitted (newCampaign : Campaign.t) (store : Utils.Store) (toast : Toast).

(** The mutation function: replace by id when editing, append otherwise. *)
Definition mutationFn (campaign : option Campaign.t) (newCampaign : Campaign.t)
  (store : Utils.Store) : Utils.Store :=
  let campaigns := Utils.getCampaigns store in
  let updatedCampaigns :=
    match campaign with
    | Some c0 =>
        map (fun c => if JS.eqb (Campaign.id c) (Campaign.id c0)
                      then newCampaign else c) campaigns
    | None => campaigns ++ [newCampaign]
    end in
  Utils.saveCampaigns updatedCampaigns store.

(** [x || y] on strings: the empty string is falsy. *)
Definition orString (x y : jsstring) : jsstring :=
  match x with [] => y | _ :: _ => x end.

(** [handleSubmit], with the mutation it starts. The clock is read twice:
    by [validateDates] inside [isFormValid] ([checkedAt]), then by the
    handler itself ([now]). [endDate!] passes a [null] on to [formatDate],
    where date-fns 4 turns it into [new Date(null)], the epoch. *)
Definition handleSubmit (checkedAt now : Z) (newId : jsstring)
  (campaign : option Campaign.t) (st : State) (store : Utils.Store)
  : SubmitResult :=
  if negb (isFormValid checkedAt st) then NotSubmitted
  else
    let actualStartDate :=
      match status st with
      | Activa => Some now
      | _ => orNow (startDate st) now
      end in
    let id := match campaign with
              | Some c => orString (Campaign.id c) newId
              | None => newId
              end in
    let createdAt :=
      match match campaign with
            | Some c => Campaign.createdAt c
            | None => []
            end with
      | [] => Utils.formatDate timezoneOffset (Some now)
      | created => Some created
      end in
    match createdAt,
          Utils.formatDate timezoneOffset actualStartDate,
          Utils.formatDate timezoneOffset
            (match endDate st with Some e => e | None => Some 0 end) with
    | Some created, Some start, Some finish =>
        let newCampaign :=
          Campaign.mk id (name st) created start finish (recordingStatus st)
            (status st)
            (match campaign with Some c => Campaign.people c | None => [] end
             ++ people st) in
        Submitted newCampaign (mutationFn campaign newCampaign store)
          (match campaign with
           | Some _ => CampanaActualizada
           | None => CampanaCreada
           end)
    | _, _, _ => Threw
    end.

End Host.

End CampaignForm.

(* ------------------------------------------------------------------ *)
(** ** The [CampaignList] component *)

Module CampaignList.

Import PersonInput.

Record State := mkState {
  deletingCampaign : option Campaign.t;
  addingPersonToCampaign : option Campaign.t;
  newPersonName : jsstring;
  newPersonLastName : jsstring;
  newPersonPhone : jsstring;
  nameError : bool;
  lastNameError : bool;
  phoneError : bool
}.

(** What a handler can touch: the component state, the persisted campaigns
    and the toasts shown so far (latest first). *)
Record World := mkWorld {
  state : State;
  store : Utils.Store;
  toasts : list Toast
}.

Definition withState (st : State) (w : World) : World :=
  mkWorld st (store w) (toasts w).

Definition withToast (t : Toast) (w : World) : World :=
  mkWorld (state w) (store w) (t :: toasts w).

(** [await saveCampaigns(cs)] and the [onSuccess] toast of a mutation. *)
Definition saved (cs : list Campaign.t) (t : Toast) (w : World) : World :=
  mkWorld (state w) (Utils.saveCampaigns cs (store w)) (t :: toasts w).

Definition setDeletingCampaign (d : option Campaign.t) (st : State) : State :=
  mkState d (addingPersonToCampaign st) (newPersonName st)
    (newPersonLastName st) (newPersonPhone st) (nameError st)
    (lastNameError st) (phoneError st).

Definition setAddingPersonToCampaign (a : option Campaign.t) (st : State)
  : State :=
  mkState (deletingCampaign st) a (newPersonName st) (newPersonLastName st)
    (newPersonPhone st) (nameError st) (lastNameError st) (phoneError st).

Definition setErrors (e : FieldErrors) (st : State) : State :=
  mkState (deletingCampaign st) (addingPersonToCampaign st) (newPersonName st)
    (newPersonLastName st) (newPersonPhone st) (PersonInput.nameError e)
    (PersonInput.lastNameError e) (PersonInput.phoneError e).

Definition setNewPersonName (v : jsstring) (st : State) : State :=
  mkState (deletingCampaign st) (addingPersonToCampaign st) v
    (newPersonLastName st) (newPersonPhone st) (nameError st)
    (lastNameError st) (phoneError st).

Definition setNewPersonLastName (v : jsstring) (st : State) : State :=
  mkState (deletingCampaign st) (addingPersonToCampaign st) (newPersonName st)
    v (newPersonPhone st) (nameError st) (lastNameError st) (phoneError st).

Definition setNewPersonPhone (v : jsstring) (err : bool) (st : State) : State :=
  mkState (deletingCampaign st) (addingPersonToCampaign st) (newPersonName st)
    (newPersonLastName st) v (nameError st) (lastNameError st) err.

(** The four setters that close the add-person overlay after an addition. *)
Definition clearNewPerson (st : State) : State :=
  mkState (deletingCampaign st) None [] [] [] (nameError st)
    (lastNameError st) (phoneError st).

(** [campaigns.find((c) => c.id === id)] *)
Definition findCampaign (campaigns : list Campaign.t) (id : jsstring)
  : option Campaign.t :=
  find (fun c => JS.eqb (Campaign.id c) id) campaigns.

(** The three mutations, each over the [campaigns] prop. *)
Definition finishCampaign (campaigns : list Campaign.t) (id : jsstring)
  (w : World) : World :=
  saved (map (fun c => if JS.eqb (Campaign.id c) id
                       then Campaign.withStatus c Finalizada else c) campaigns)
        CampanaFinalizada w.

Definition deleteCampaign (campaigns : list Campaign.t) (id : jsstring)
  (w : World) : World :=
  let w' := saved (filter (fun c => negb (JS.eqb (Campaign.id c) id)) campaigns)
                  CampanaEliminada w in
  withState (setDeletingCampaign None (state w')) w'.

Definition updateCampaign (campaigns : list Campaign.t)
  (updatedCampaign : Campaign.t) (w : World) : World :=
  saved (map (fun c => if JS.eqb (Campaign.id c) (Campaign.id updatedCampaign)
                       then updatedCampaign else c) campaigns)
        CampanaActualizada w.

Definition handleFinish (campaigns : list Campaign.t) (id : jsstring)
  (w : World) : World :=
  match findCampaign campaigns id with
  | Some (Campaign.mk _ _ _ _ _ _ Activa _) => finishCampaign campaigns id w
  | _ => withToast SoloFinalizarActivas w
  end.

Definition handleDelete (campaign : Campaign.t) (w : World) : World :=
  match Campaign.status campaign with
  | EnEspera => withState (setDeletingCampaign (Some campaign) (state w)) w
  | _ => withToast SoloEliminarEnEspera w
  end.

Definition confirmDelete (campaigns : list Campaign.t) (w : World) : World :=
  match deletingCampaign (state w) with
  | Some d => deleteCampaign campaigns (Campaign.id d) w
  | None => w
  end.

Definition handleDeletePerson (campaigns : list Campaign.t)
  (campaignId personId : jsstring) (w : World) : World :=
  match findCampaign campaigns campaignId with
  | Some campaign =>
      match Campaign.status campaign with
      | Finalizada => withToast PersonasDeFinalizada w
      | _ =>
          if (List.length (Campaign.people campaign) <=? 1)%nat
          then withToast UltimaPersona w
          else
            let updatedPeople :=
              filter (fun p => negb (JS.eqb (Person.id p) personId))
                     (Campaign.people campaign) in
            updateCampaign campaigns
              (Campaign.withPeople campaign updatedPeople) w
      end
  | None => w
  end.

(** The [onChange] handlers of the overlay inputs. *)
Definition onNewPersonNameChange (value : jsstring) (w : World) : World :=
  withState (setNewPersonName value (state w)) w.

Definition onNewPersonLastNameChange (value : jsstring) (w : World) : World :=
  withState (setNewPersonLastName value (state w)) w.

Definition onNewPersonPhoneChange (value : jsstring) (w : World) : World :=
  let formattedNumber := formatPhoneNumber value in
  withState (setNewPersonPhone formattedNumber
               (negb (isValidPhoneNumber formattedNumber)) (state w)) w.

(** The "Agregar Persona" button: rendered for a campaign only when
    [campaign.status !== "Finalizada"]; a click opens the overlay. *)
Definition addPersonButtonRendered (campaign : Campaign.t) : bool :=
  negb (CampaignStatus_eqb (Campaign.status campaign) Finalizada).

Definition onAddPersonClick (campaign : Campaign.t) (w : World) : World :=
  withState (setAddingPersonToCampaign (Some campaign) (state w)) w.

(** The overlay with the "Agregar" button is rendered over the card of a
    campaign when [addingPersonToCampaign?.id === campaign.id]. *)
Definition overlayRendered (campaign : Campaign.t) (w : World) : bool :=
  match addingPersonToCampaign (state w) with
  | Some a => JS.eqb (Campaign.id a) (Campaign.id campaign)
  | None => false
  end.

(** The [disabled] attributes of the "Eliminar" (person), "Finalizar" and
    "Eliminar" (campaign) buttons. *)
Definition deletePersonDisabled (campaign : Campaign.t) : bool :=
  CampaignStatus_eqb (Campaign.status campaign) Finalizada.

Definition finishDisabled (campaign : Campaign.t) : bool :=
  negb (CampaignStatus_eqb (Campaign.status campaign) Activa).

Definition deleteDisabled (campaign : Campaign.t) : bool :=
  negb (CampaignStatus_eqb (Campaign.status campaign) EnEspera).

(** [handleAddPerson]; [newId] is the value [uuidv4()] returns. *)
Definition handleAddPerson (campaigns : list Campaign.t)
  (campaignId newId : jsstring) (w : World) : World :=
  let st := state w in
  let errs := checkFields (newPersonName st) (newPersonLastName st)
                          (newPersonPhone st) in
  let w1 := withState (setErrors errs st) w in
  if negb (isValid errs) then w1
  else
    match findCampaign campaigns campaignId with
    | Some campaign =>
        if somePhone (Campaign.people campaign) (newPersonPhone st)
        then withToast TelefonoDuplicado w1
        else
          let newPerson :=
            Person.mk newId (newPersonName st) (newPersonLastName st)
                      (newPersonPhone st) in
          let updatedPeople := Campaign.people campaign ++ [newPerson] in
          let w2 := updateCampaign campaigns
                      (Campaign.withPeople campaign updatedPeople) w1 in
          withState (clearNewPerson (state w2)) w2
    | None => w1
    end.

End CampaignList.

(* ================================================================== *)
(** * Vocabulary of the properties *)

(* ------------------------------------------------------------------ *)
(** ** The status reconciler *)

Module Reconciler.

(** Order of the lifecycle: En espera, then Activa, then Finalizada. *)
Definition statusRank (s : CampaignStatus) : nat :=
  match s with
  | EnEspera => 0
  | Activa => 1
  | Finalizada => 2
  end.

(** A waiting campaign whose start and end are both at or before [now]. *)
Definition overdueWaiting (tz now : Z) (c : Campaign.t) : bool :=
  CampaignStatus_eqb (Campaign.status c) EnEspera
  && Utils.geTime now (Utils.parseDate tz (Campaign.startDate c))
  && Utils.geTime now (Utils.parseDate tz (Campaign.endDate c)).

(** A reconciliation call: the exported one of [utils], or the query
    function of [HomePage], at the clock value read by [Date.now()]. *)
Inductive Call :=
| UtilsCall (now : Z)
| HomePageCall (now : Z).

Definition runCall (tz : Z) (call : Call) (store : Utils.Store) : Utils.Store :=
  match call with
  | UtilsCall now => snd (Utils.updateCampaignStatuses tz now store)
  | HomePageCall now => snd (HomePage.queryFn tz now store)
  end.

Definition runCalls (tz : Z) (calls : list Call) (store : Utils.Store)
  : Utils.Store :=
  fold_left (fun st call => runCall tz call st) calls store.

(** The same campaign, its status not before where it was. *)
Definition advanced (c c' : Campaign.t) : Prop :=
  Campaign.id c' = Campaign.id c
  /\ (statusRank (Campaign.status c) <= statusRank (Campaign.status c'))%nat.

End Reconciler.

(** Concrete campaigns and people used to evaluate the code. *)
Module Samples.

Definition ana : Person.t :=
  Person.mk (lit "p1") (lit "Ana") (lit "Gomez") (lit "(555) 123-4567").

(** Waiting, window 01/01/2024 10:00 to 11:00. *)
Definition q1 : Campaign.t :=
  Campaign.mk (lit "c1") (lit "Q1 Outreach") (lit "01/01/2024 09:00")
    (lit "01/01/2024 10:00") (lit "01/01/2024 11:00") false EnEspera [ana].

(** 2024-01-01T12:00:00Z, after the whole window of [q1]. *)
Definition noon : Z := 1704110400000.

End Samples.

(* ------------------------------------------------------------------ *)
(** ** Dates *)

Module DateVocab.

(** The code unit of the decimal digit [k]. *)
Definition digitCode (k : Z) : N := Z.to_N (48 + k).

(** 10000-01-01T00:00:00Z, the first instant of a five-digit year. *)
Definition year10000 : Z := 253402300800000.

(** 0000-12-31T23:59:59.999Z, the last instant of the year before year 1. *)
Definition endOfYear0 : Z := -62135596800001.

(** Central European time around the end of summer time in 2024: two hours
    east of UTC until 2024-10-27T01:00:00Z, one hour east from then on. *)
Definition europe2024 : Time.Zone := Time.mkZone (-120) (-60) 1729990800000.

(** 2024-10-27T01:30:00Z, local 02:30 for the second time that night. *)
Definition secondHalfPastTwo : Z := 1729992600000.

End DateVocab.

(* ------------------------------------------------------------------ *)
(** ** Roster and person input *)

Module Roster.

Import PersonInput.

(** The letters (general category L) among the code points below U+0100:
    A-Z, a-z, U+00AA, U+00B5, U+00BA, U+00C0-U+00D6, U+00D8-U+00F6 and
    U+00F8-U+00FF. Any Unicode-aware letter class holds them all. *)
Definition latin1Letter (c : N) : bool :=
  (((65 <=? c) && (c <=? 90)) || ((97 <=? c) && (c <=? 122))
   || (c =? 170) || (c =? 181) || (c =? 186)
   || ((192 <=? c) && (c <=? 214)) || ((216 <=? c) && (c <=? 246))
   || ((248 <=? c) && (c <=? 255)))%N.

(** The rule as the specification words it, over a letter class [letter]:
    the trimmed string is one or more letters or spaces. *)
Definition lettersOrSpaces (letter : N -> bool) (s : jsstring) : bool :=
  match trim s with
  | [] => false
  | t => forallb (fun c => letter c || (c =? 32)%N) t
  end.

(** The characters of the class the code tests: the 52 ASCII letters, the
    twelve accented letters it lists, and white space. *)
Definition asciiLetter (c : N) : bool :=
  (((97 <=? c) && (c <=? 122)) || ((65 <=? c) && (c <=? 90)))%N.

Definition listedAccents : list N :=
  [225; 233; 237; 243; 250; 241; 193; 201; 205; 211; 218; 209]%N.

Definition nameChar (c : N) : bool :=
  asciiLetter c || existsb (N.eqb c) listedAccents || isWhiteSpace c.

(** The digits of a phone laid out as the code groups them. *)
Definition layout (digits : jsstring) : jsstring :=
  if (List.length digits <? 4)%nat then digits
  else if (List.length digits <? 7)%nat
  then lit "(" ++ slice 0 3 digits ++ lit ") " ++ sliceFrom 3 digits
  else lit "(" ++ slice 0 3 digits ++ lit ") "
       ++ slice 3 6 digits ++ lit "-" ++ slice 6 10 digits.

(** A phone as a phone input leaves it: a value [formatPhoneNumber] maps to
    itself. *)
Definition asFormatted (phone : jsstring) : Prop :=
  formatPhoneNumber phone = phone.

(** Phones of a roster, as stored and digit-normalized. *)
Definition phones (people : list Person.t) : list jsstring :=
  map Person.phone people.

Definition normalizedPhones (people : list Person.t) : list jsstring :=
  map (fun p => stripNonDigits (Person.phone p)) people.

(** The handler turned the request down as a duplicate phone: that toast was
    shown and nothing was saved. *)
Definition rejectedAsDuplicate (w w' : CampaignList.World) : Prop :=
  CampaignList.toasts w' = TelefonoDuplicado :: CampaignList.toasts w
  /\ CampaignList.store w' = CampaignList.store w.

(** A world of [CampaignList] whose overlay inputs hold the given values. *)
Definition typing (name lastName phone : jsstring) (store : Utils.Store)
  : CampaignList.World :=
  CampaignList.mkWorld
    (CampaignList.mkState None None name lastName phone false false false)
    store [].

End Roster.

Module RosterSamples.

Import Samples.

(** [Samples.q1] once finished. *)
Definition q1Finished : Campaign.t := Campaign.withStatus q1 Finalizada.

(** [Samples.q1] with a phone stored as ["555 123 4567"]. *)
Definition q1Raw : Campaign.t :=
  Campaign.withPeople q1
    [Person.mk (lit "p1") (lit "Ana") (lit "Gomez") (lit "555 123 4567")].

Definition luis : Person.t :=
  Person.mk (lit "p2") (lit "Luis") (lit "Perez") (lit "(555) 765-4321").

(** [Samples.q1] as an unchanged edit sends it back. *)
Definition q1Twice : Campaign.t := Campaign.withPeople q1 [ana; ana].

(** [Samples.q1] once active. *)
Definition q1Active : Campaign.t := Campaign.withStatus q1 Activa.

(** 2024-01-01T09:30:00Z, before the window of [q1] opens. *)
Definition morning : Z := 1704101400000.

(** The campaign form with Luis Perez typed into the person inputs, the
    phone input still empty, and [ana] on the roster. *)
Definition formTyping : CampaignForm.State :=
  CampaignForm.mkState (lit "Q1 Outreach") None None false EnEspera [ana]
    (lit "Luis") (lit "Perez") [] false false false false false.

(** The overlay inputs once Luis Perez and his phone are typed. *)
Definition typeLuis (w : CampaignList.World) : CampaignList.World :=
  CampaignList.onNewPersonPhoneChange (lit "5557654321")
    (CampaignList.onNewPersonLastNameChange (lit "Perez")
       (CampaignList.onNewPersonNameChange (lit "Luis") w)).

End RosterSamples.

(* ------------------------------------------------------------------ *)
(** ** Further vocabulary: what a pass keeps, lookups, rosters *)

Module Keeps.

(** [c'] is [c] up to its status. *)
Definition sameButStatus (c c' : Campaign.t) : Prop :=
  Campaign.withStatus c (Campaign.status c') = c'.

(** A campaign no pass can change: finished, or waiting on a start date (or
    active with an end date) that does not parse. *)
Definition settled (tz : Z) (c : Campaign.t) : bool :=
  match Campaign.status c with
  | Finalizada => true
  | EnEspera =>
      match Utils.parseDate tz (Campaign.startDate c) with
      | None => true
      | Some _ => false
      end
  | Activa =>
      match Utils.parseDate tz (Campaign.endDate c) with
      | None => true
      | Some _ => false
      end
  end.

(** [cs.map((c) => (c.id === u.id ? u : c))], the replacement the edit
    mutation and [updateCampaign] both save. *)
Definition replaceById (u : Campaign.t) (cs : list Campaign.t)
  : list Campaign.t :=
  map (fun c => if JS.eqb (Campaign.id c) (Campaign.id u) then u else c) cs.

(** The ids of a roster. *)
Definition personIds (people : list Person.t) : list jsstring :=
  map Person.id people.

(** The roster without the people carrying an id. *)
Definition without (pid : jsstring) (people : list Person.t) : list Person.t :=
  filter (fun p => negb (JS.eqb (Person.id p) pid)) people.

End Keeps.

Module MoreSamples.

Import Samples RosterSamples.

(** [Samples.q1] finished, beside an active campaign whose end date is not
    a date. *)
Definition brokenEnd : Campaign.t :=
  Campaign.mk (lit "c2") (lit "Q2 Outreach") (lit "01/01/2024 09:00")
    (lit "01/01/2024 10:00") (lit "soon") false Activa [luis].

Definition twoCampaigns : list Campaign.t := [q1Finished; brokenEnd].

(** [q1] with Ana and Luis on the roster. *)
Definition q1Pair : Campaign.t := Campaign.withPeople q1 [ana; luis].

(** The create form filled in at [morning]: waiting, 10:00 to 11:00, Ana on
    the roster. *)
Definition formFilled : CampaignForm.State :=
  CampaignForm.mkState (lit "Q1 Outreach")
    (Some (Some 1704103200000)) (Some (Some 1704106800000))
    false EnEspera [ana] [] [] [] false false false false false.

End MoreSamples.
Module ReconcilerFacts.

Import Reconciler.

Lemma withStatus_same (c : Campaign.t) :
  Campaign.withStatus c (Campaign.status c) = c.
Proof. destruct c; reflexivity. Qed.

Lemma homePage_statusStep (tz now : Z) (c : Campaign.t) :
  HomePage.statusStep tz now c = Utils.statusStep tz now c.
Proof.
  unfold HomePage.statusStep, Utils.statusStep.
  destruct c as [i n cr sd ed r s p]; simpl.
  destruct s; simpl;
    repeat match goal with
           | |- context [if ?b then _ else _] => destruct b; simpl
           end; reflexivity.
Qed.

Lemma homePage_queryFn (tz now : Z) (store : Utils.Store) :
  HomePage.queryFn tz now store = Utils.updateCampaignStatuses tz now store.
Proof.
  unfold HomePage.queryFn, HomePage.updateCampaignStatuses,
    Utils.updateCampaignStatuses.
  rewrite (map_ext _ _ (homePage_statusStep tz now)). reflexivity.
Qed.

(** What one step does to the status, case by case. *)
Lemma statusStep_spec (tz now : Z) (c : Campaign.t) :
  Utils.statusStep tz now c =
    match Campaign.status c with
    | EnEspera =>
        if Utils.geTime now (Utils.parseDate tz (Campaign.startDate c))
        then (Campaign.withStatus c Activa, true) else (c, false)
    | Activa =>
        if Utils.geTime now (Utils.parseDate tz (Campaign.endDate c))
        then (Campaign.withStatus c Finalizada, true) else (c, false)
    | Finalizada => (c, false)
    end.
Proof.
  unfold Utils.statusStep.
  destruct c as [i n cr sd ed r s p]; simpl.
  destruct s; simpl;
    repeat match goal with
           | |- context [if ?b then _ else _] => destruct b; simpl
           end; reflexivity.
Qed.

Lemma statusStep_advanced (tz now : Z) (c : Campaign.t) :
  advanced c (fst (Utils.statusStep tz now c)).
Proof.
  rewrite statusStep_spec. unfold advanced.
  destruct c as [i n cr sd ed r s p]; simpl.
  destruct s; simpl;
    repeat match goal with
           | |- context [if ?b then _ else _] => destruct b; simpl
           end; split; auto.
Qed.

(** A step that does not raise the flag returns its argument. *)
Lemma statusStep_unchanged (tz now : Z) (c : Campaign.t) :
  snd (Utils.statusStep tz now c) = false ->
  fst (Utils.statusStep tz now c) = c.
Proof.
  rewrite statusStep_spec.
  destruct (Campaign.status c);
    repeat match goal with
           | |- context [if ?b then _ else _] => destruct b
           end; simpl; intros; congruence.
Qed.

Lemma pass_unchanged (tz now : Z) (cs : list Campaign.t) :
  existsb snd (map (Utils.statusStep tz now) cs) = false ->
  map fst (map (Utils.statusStep tz now) cs) = cs.
Proof.
  induction cs as [|c cs IH]; simpl; intro H; [reflexivity|].
  apply orb_false_iff in H as [Hc Hcs].
  rewrite (statusStep_unchanged _ _ _ Hc), (IH Hcs). reflexivity.
Qed.

(** After a call the store holds what the call returned. *)
Lemma store_after_update (tz now : Z) (store : Utils.Store) :
  Utils.getCampaigns (snd (Utils.updateCampaignStatuses tz now store))
  = fst (fst (Utils.updateCampaignStatuses tz now store)).
Proof.
  unfold Utils.updateCampaignStatuses; simpl.
  destruct (existsb snd _) eqn:E; simpl; [reflexivity|].
  symmetry. apply pass_unchanged, E.
Qed.

Lemma runCall_campaigns (tz : Z) (call : Call) (store : Utils.Store) :
  Utils.getCampaigns (runCall tz call store)
  = map fst (map (Utils.statusStep tz match call with
                                       | UtilsCall now | HomePageCall now => now
                                       end)
                 (Utils.getCampaigns store)).
Proof.
  destruct call as [now|now]; unfold runCall.
  - rewrite store_after_update. reflexivity.
  - rewrite homePage_queryFn, store_after_update. reflexivity.
Qed.

Lemma advanced_refl (c : Campaign.t) : advanced c c.
Proof. split; auto. Qed.

Lemma advanced_trans (a b c : Campaign.t) :
  advanced a b -> advanced b c -> advanced a c.
Proof. unfold advanced. intros [? ?] [? ?]. split; [congruence | lia]. Qed.

Lemma Forall2_advanced_refl (cs : list Campaign.t) : Forall2 advanced cs cs.
Proof. induction cs; constructor; auto using advanced_refl. Qed.

Lemma Forall2_advanced_trans (xs ys zs : list Campaign.t) :
  Forall2 advanced xs ys -> Forall2 advanced ys zs -> Forall2 advanced xs zs.
Proof.
  intros H; revert zs. induction H; intros zs Hz; inversion Hz; subst.
  - constructor.
  - constructor; eauto using advanced_trans.
Qed.

Lemma runCall_advanced (tz : Z) (call : Call) (store : Utils.Store) :
  Forall2 advanced (Utils.getCampaigns store)
                   (Utils.getCampaigns (runCall tz call store)).
Proof.
  rewrite runCall_campaigns.
  induction (Utils.getCampaigns store); simpl; constructor; auto.
  apply statusStep_advanced.
Qed.

Lemma runCalls_advanced (tz : Z) (calls : list Call) (store : Utils.Store) :
  Forall2 advanced (Utils.getCampaigns store)
                   (Utils.getCampaigns (runCalls tz calls store)).
Proof.
  revert store. induction calls as [|call calls IH]; intro store; simpl.
  - apply Forall2_advanced_refl.
  - eapply Forall2_advanced_trans; [apply runCall_advanced | apply IH].
Qed.

Lemma update_unfold (tz now : Z) (store : Utils.Store) :
  Utils.updateCampaignStatuses tz now store =
    let results := map (Utils.statusStep tz now) (Utils.getCampaigns store) in
    (map fst results, existsb snd results,
     if existsb snd results then Some (map fst results) else store).
Proof. reflexivity. Qed.

(** The second of two steps at one clock value changes the campaign exactly
    when it was waiting with both dates passed. *)
Lemma second_step_flag (tz now : Z) (c : Campaign.t) :
  snd (Utils.statusStep tz now (fst (Utils.statusStep tz now c)))
  = overdueWaiting tz now c.
Proof.
  rewrite (statusStep_spec tz now c). unfold overdueWaiting.
  destruct c as [i n cr sd ed r st p];
    cbn [Campaign.status Campaign.startDate Campaign.endDate].
  destruct st; cbn [CampaignStatus_eqb andb].
  - destruct (Utils.geTime now (Utils.parseDate tz ed)) eqn:E; cbn [fst];
      rewrite statusStep_spec; cbn; rewrite ?E; reflexivity.
  - rewrite statusStep_spec; reflexivity.
  - destruct (Utils.geTime now (Utils.parseDate tz sd)) eqn:E; cbn [fst];
      rewrite statusStep_spec; cbn; rewrite ?E;
      [destruct (Utils.geTime now (Utils.parseDate tz ed))|]; reflexivity.
Qed.

Lemma second_pass_flag (tz now : Z) (cs : list Campaign.t) :
  existsb snd (map (Utils.statusStep tz now)
                   (map fst (map (Utils.statusStep tz now) cs)))
  = existsb (overdueWaiting tz now) cs.
Proof.
  induction cs as [|c cs IH]; [reflexivity|].
  cbn [map existsb]. rewrite IH, second_step_flag. reflexivity.
Qed.

(** What a pass does at one position of the list. *)
Lemma pass_nth (tz now : Z) (cs : list Campaign.t) (k : nat) (c : Campaign.t) :
  nth_error cs k = Some c ->
  nth_error (map fst (map (Utils.statusStep tz now) cs)) k
  = Some (fst (Utils.statusStep tz now c)).
Proof.
  intro H. rewrite map_map.
  apply (map_nth_error (fun x => fst (Utils.statusStep tz now x)) _ _ H).
Qed.

Lemma pass_flag (tz now : Z) (cs : list Campaign.t) (k : nat) (c : Campaign.t) :
  nth_error cs k = Some c ->
  snd (Utils.statusStep tz now c) = true ->
  existsb snd (map (Utils.statusStep tz now) cs) = true.
Proof.
  intros H Hc. apply existsb_exists.
  exists (Utils.statusStep tz now c). split; [|exact Hc].
  apply in_map, (nth_error_In _ _ H).
Qed.

End ReconcilerFacts.

(* ------------------------------------------------------------------ *)
(** ** Calendar arithmetic *)

Module TimeFacts.

Import Time.

(** Year of the 400-year era and day of the (March-based) year. *)
Lemma yearOfEra_bounds (doe : Z) :
  0 <= doe < 146097 ->
  let yoe := (doe - doe / 1460 + doe / 36524 - doe / 146096) / 365 in
  let doy := doe - (365 * yoe + yoe / 4 - yoe / 100) in
  0 <= yoe < 400 /\ 0 <= doy <= 365
  /\ (doy = 365 ->
      (yoe + 1) mod 4 = 0 /\ ((yoe + 1) mod 100 <> 0 \/ yoe + 1 = 400)).
Proof.
  intros H yoe doy. subst yoe doy.
  assert (Hb : 0 <= doe / 36524 <= 4) by (Z.div_mod_to_equations; lia).
  assert (Hc : 0 <= doe / 146096 <= 1) by (Z.div_mod_to_equations; lia).
  Z.div_mod_to_equations; lia.
Qed.

(** Month (counted from March) and day of the month of a day of the year. *)
Lemma monthOfYear_bounds (doy : Z) :
  0 <= doy <= 365 ->
  let mp := (5 * doy + 2) / 153 in
  let d := doy - (153 * mp + 2) / 5 + 1 in
  0 <= mp <= 11 /\ 1 <= d <= 31
  /\ (mp = 11 -> d <= 29 /\ (d = 29 -> doy = 365))
  /\ (mp = 1 \/ mp = 3 \/ mp = 6 \/ mp = 8 -> d <= 30).
Proof.
  intros H mp d. subst mp d. Z.div_mod_to_equations; lia.
Qed.

Lemma isLeapYear_shift (era y : Z) :
  isLeapYear (y + era * 400) = isLeapYear y.
Proof.
  unfold isLeapYear.
  replace ((y + era * 400) mod 4) with (y mod 4)
    by (Z.div_mod_to_equations; lia).
  replace ((y + era * 400) mod 100) with (y mod 100)
    by (Z.div_mod_to_equations; lia).
  replace ((y + era * 400) mod 400) with (y mod 400)
    by (Z.div_mod_to_equations; lia).
  reflexivity.
Qed.

Lemma isLeapYear_true (y : Z) :
  y mod 4 = 0 -> (y mod 100 <> 0 \/ y mod 400 = 0) -> isLeapYear y = true.
Proof.
  intros H4 [H100|H400]; unfold isLeapYear.
  - apply Z.eqb_eq in H4. apply Z.eqb_neq in H100. rewrite H4, H100. reflexivity.
  - apply Z.eqb_eq in H400. rewrite H400. apply orb_true_r.
Qed.

(** [civilFromDays] yields a date of the calendar, and [daysFromCivil] maps
    it back to the day number. *)
Lemma civilFromDays_spec (z : Z) :
  let '(y, m, d) := civilFromDays z in
  1 <= m <= 12 /\ 1 <= d <= daysInMonth y (m - 1) /\ daysFromCivil y m d = z.
Proof.
  unfold civilFromDays.
  set (z' := z + 719468).
  set (era := z' / 146097).
  set (doe := z' - era * 146097).
  assert (Hdoe : 0 <= doe < 146097)
    by (subst doe era; Z.div_mod_to_equations; lia).
  pose proof (yearOfEra_bounds doe Hdoe) as Hy. cbv zeta in Hy.
  set (yoe := (doe - doe / 1460 + doe / 36524 - doe / 146096) / 365) in *.
  set (doy := doe - (365 * yoe + yoe / 4 - yoe / 100)) in *.
  destruct Hy as (Hyoe & Hdoy & Hleap).
  pose proof (monthOfYear_bounds doy Hdoy) as Hm. cbv zeta in Hm.
  set (mp := (5 * doy + 2) / 153) in *.
  set (d := doy - (153 * mp + 2) / 5 + 1) in *.
  destruct Hm as (Hmp & Hd & Hfeb & H30).
  cbv zeta.
  destruct (mp <? 10) eqn:Emp; [apply Z.ltb_lt in Emp | apply Z.ltb_ge in Emp].
  - (* March .. December *)
    assert (E2 : (mp + 3 <=? 2) = false) by (apply Z.leb_gt; lia).
    rewrite E2. split; [lia|]. split.
    + unfold daysInMonth.
      replace (mp + 3 - 1) with (mp + 2) by lia.
      assert (E1 : (mp + 2 =? 1) = false) by (apply Z.eqb_neq; lia).
      rewrite E1.
      destruct ((mp + 2 =? 3) || (mp + 2 =? 5) || (mp + 2 =? 8)
                || (mp + 2 =? 10)) eqn:E; [|lia].
      repeat rewrite orb_true_iff in E. repeat rewrite Z.eqb_eq in E.
      assert (d <= 30) by (apply H30; lia). lia.
    + unfold daysFromCivil. rewrite E2.
      replace (mp + 3 - 3) with mp by lia.
      assert (Eera : (yoe + era * 400) / 400 = era)
        by (Z.div_mod_to_equations; lia).
      rewrite Eera.
      replace (yoe + era * 400 - era * 400) with yoe by lia.
      subst d doy doe z'. lia.
  - (* January, February *)
    assert (E2 : (mp - 9 <=? 2) = true) by (apply Z.leb_le; lia).
    rewrite E2. split; [lia|]. split.
    + unfold daysInMonth.
      destruct (mp - 9 - 1 =? 1) eqn:E1.
      * apply Z.eqb_eq in E1. assert (Hmp11 : mp = 11) by lia.
        destruct (Hfeb Hmp11) as [Hd29 Hd365].
        destruct (isLeapYear (yoe + era * 400 + 1)) eqn:El; [lia|].
        assert (d <> 29); [|lia].
        intro Hd'. destruct (Hleap (Hd365 Hd')) as [H4 H100].
        replace (yoe + era * 400 + 1) with ((yoe + 1) + era * 400) in El by lia.
        rewrite isLeapYear_shift, isLeapYear_true in El; [discriminate|exact H4|].
        destruct H100 as [H100|H400]; [left; exact H100|right].
        rewrite H400. reflexivity.
      * apply Z.eqb_neq in E1.
        assert (E : ((mp - 9 - 1 =? 3) || (mp - 9 - 1 =? 5)
                     || (mp - 9 - 1 =? 8) || (mp - 9 - 1 =? 10)) = false).
        { repeat rewrite orb_false_iff. repeat rewrite Z.eqb_neq. lia. }
        rewrite E. lia.
    + unfold daysFromCivil. rewrite E2.
      replace (mp - 9 + 9) with mp by lia.
      replace (yoe + era * 400 + 1 - 1) with (yoe + era * 400) by lia.
      assert (Eera : (yoe + era * 400) / 400 = era)
        by (Z.div_mod_to_equations; lia).
      rewrite Eera.
      replace (yoe + era * 400 - era * 400) with yoe by lia.
      subst d doy doe z'. lia.
Qed.

(** A local time splits into its day, hour, minute and the rest below the
    minute. *)
Lemma localTime_split (l : Z) :
  let h := (l mod msPerDay) / msPerHour in
  let mi := (l mod msPerHour) / msPerMinute in
  0 <= h <= 23 /\ 0 <= mi <= 59
  /\ (l / msPerDay) * msPerDay + h * msPerHour + mi * msPerMinute
     = msPerMinute * (l / msPerMinute).
Proof.
  unfold msPerDay, msPerHour, msPerMinute. cbv zeta.
  Z.div_mod_to_equations. lia.
Qed.

End TimeFacts.

(* ------------------------------------------------------------------ *)
(** ** Printing and reading the numeric tokens *)

Module DateFnsFacts.

Import Time DateFns DateVocab.

(** [toString] prints one more digit for ten times the number. *)
Lemma uintCodes_revapp (x acc : Decimal.uint) :
  uintCodes (Decimal.revapp x acc)
  = uintCodes (Decimal.revapp x Decimal.Nil) ++ uintCodes acc.
Proof.
  revert acc. induction x; intro acc; cbn [Decimal.revapp];
    [reflexivity | rewrite IHx, (IHx (_ Decimal.Nil)), <- app_assoc; reflexivity ..].
Qed.

Lemma toString_small (k : Z) : 0 <= k <= 9 -> toString k = [digitCode k].
Proof.
  intro H.
  assert (Hk : k = 0 \/ k = 1 \/ k = 2 \/ k = 3 \/ k = 4 \/ k = 5 \/ k = 6
               \/ k = 7 \/ k = 8 \/ k = 9) by lia.
  repeat (destruct Hk as [-> | Hk]; [reflexivity|]).
  subst k. reflexivity.
Qed.

Lemma to_lu_iter (j : nat) (m : N) :
  Unsigned.to_lu (Nat.iter j N.succ m)
  = Nat.iter j Decimal.Little.succ (Unsigned.to_lu m).
Proof.
  induction j; [reflexivity|].
  change (Nat.iter (S j) N.succ m) with (N.succ (Nat.iter j N.succ m)).
  rewrite Unsigned.to_lu_succ, IHj. reflexivity.
Qed.

Lemma to_uint_step (p : positive) (k : Z) :
  0 <= k <= 9 ->
  uintCodes (N.to_uint (Z.to_N k + 10 * N.pos p))
  = uintCodes (N.to_uint (N.pos p)) ++ [digitCode k].
Proof.
  intro H.
  assert (E : forall n, n <> 0%N ->
                N.to_uint n = Decimal.rev (Unsigned.to_lu n))
    by (intros [|q] Hq; [congruence | reflexivity]).
  rewrite E by lia. rewrite (E (N.pos p)) by lia.
  rewrite Unsigned.Nadd_alt, to_lu_iter, Unsigned.to_ldec_tenfold.
  assert (Hk : k = 0 \/ k = 1 \/ k = 2 \/ k = 3 \/ k = 4 \/ k = 5 \/ k = 6
               \/ k = 7 \/ k = 8 \/ k = 9) by lia.
  assert (Hx : forall x c,
             uintCodes (Decimal.revapp x c)
             = uintCodes (Decimal.revapp x Decimal.Nil) ++ uintCodes c)
    by apply uintCodes_revapp.
  assert (Hcase : forall j c,
             uintCodes (Decimal.rev
               (Nat.iter j Decimal.Little.succ
                  (Decimal.D0 (Unsigned.to_lu (N.pos p)))))
             = uintCodes (Decimal.rev (Unsigned.to_lu (N.pos p))) ++ [c] ->
             forall k', N.to_nat (Z.to_N k') = j -> digitCode k' = c ->
             uintCodes (Decimal.rev
               (Nat.iter (N.to_nat (Z.to_N k')) Decimal.Little.succ
                  (Decimal.D0 (Unsigned.to_lu (N.pos p)))))
             = uintCodes (Decimal.rev (Unsigned.to_lu (N.pos p)))
               ++ [digitCode k'])
    by (intros j c Hj k' <- <-; exact Hj).
  repeat (destruct Hk as [Hk | Hk];
          [ subst k; eapply Hcase;
            [ | vm_compute; reflexivity | vm_compute; reflexivity ];
            unfold Decimal.rev; cbn; apply Hx |]).
  subst k; eapply Hcase;
    [ | vm_compute; reflexivity | vm_compute; reflexivity ];
    unfold Decimal.rev; cbn; apply Hx.
Qed.

Lemma toString_step (q k : Z) :
  0 < q -> 0 <= k <= 9 ->
  toString (10 * q + k) = toString q ++ [digitCode k].
Proof.
  intros Hq Hk. unfold toString.
  replace (Z.to_N (10 * q + k)) with (Z.to_N k + 10 * Z.to_N q)%N by lia.
  destruct (Z.to_N q) as [|p] eqn:Ep; [lia|].
  apply to_uint_step, Hk.
Qed.


Lemma toString_div (n : Z) :
  10 <= n -> toString n = toString (n / 10) ++ [digitCode (n mod 10)].
Proof.
  intro H. rewrite (Z.div_mod n 10) at 1 by lia.
  apply toString_step; Z.div_mod_to_equations; lia.
Qed.

Lemma toString_2 (n : Z) :
  10 <= n < 100 -> toString n = [digitCode (n / 10); digitCode (n mod 10)].
Proof.
  intro H. rewrite toString_div by lia.
  rewrite toString_small by (Z.div_mod_to_equations; lia). reflexivity.
Qed.

Lemma toString_3 (n : Z) :
  100 <= n < 1000 ->
  toString n =
    [digitCode (n / 100); digitCode (n / 10 mod 10); digitCode (n mod 10)].
Proof.
  intro H. rewrite toString_div by lia.
  rewrite toString_2 by (Z.div_mod_to_equations; lia).
  rewrite Z.div_div by lia. reflexivity.
Qed.

Lemma toString_4 (n : Z) :
  1000 <= n < 10000 ->
  toString n =
    [digitCode (n / 1000); digitCode (n / 100 mod 10);
     digitCode (n / 10 mod 10); digitCode (n mod 10)].
Proof.
  intro H. rewrite toString_div by lia.
  rewrite toString_3 by (Z.div_mod_to_equations; lia).
  rewrite !Z.div_div by lia. reflexivity.
Qed.

Lemma addLeadingZeros_nonneg (n : Z) (w : nat) :
  0 <= n ->
  addLeadingZeros n w
  = repeat 48%N (w - List.length (toString n)) ++ toString n.
Proof.
  intro H. unfold addLeadingZeros.
  assert (E : (n <? 0) = false) by (apply Z.ltb_ge; exact H).
  rewrite E, Z.abs_eq by exact H. reflexivity.
Qed.

Lemma addLeadingZeros_2 (n : Z) :
  0 <= n < 100 ->
  addLeadingZeros n 2 = [digitCode (n / 10); digitCode (n mod 10)].
Proof.
  intro H. rewrite addLeadingZeros_nonneg by lia.
  destruct (Z.lt_ge_cases n 10).
  - rewrite toString_small, Z.div_small, Z.mod_small by lia. reflexivity.
  - rewrite toString_2 by lia. reflexivity.
Qed.

Lemma addLeadingZeros_4 (n : Z) :
  0 <= n < 10000 ->
  addLeadingZeros n 4 =
    [digitCode (n / 1000); digitCode (n / 100 mod 10);
     digitCode (n / 10 mod 10); digitCode (n mod 10)].
Proof.
  intro H. rewrite addLeadingZeros_nonneg by lia.
  destruct (Z.lt_ge_cases n 10); [|destruct (Z.lt_ge_cases n 100);
                                    [|destruct (Z.lt_ge_cases n 1000)]].
  - rewrite toString_small by lia.
    replace (n / 1000) with 0 by (Z.div_mod_to_equations; lia).
    replace (n / 100 mod 10) with 0 by (Z.div_mod_to_equations; lia).
    replace (n / 10 mod 10) with 0 by (Z.div_mod_to_equations; lia).
    replace (n mod 10) with n by (Z.div_mod_to_equations; lia).
    reflexivity.
  - rewrite toString_2 by lia.
    replace (n / 1000) with 0 by (Z.div_mod_to_equations; lia).
    replace (n / 100 mod 10) with 0 by (Z.div_mod_to_equations; lia).
    replace (n / 10 mod 10) with (n / 10) by (Z.div_mod_to_equations; lia).
    reflexivity.
  - rewrite toString_3 by lia.
    replace (n / 1000) with 0 by (Z.div_mod_to_equations; lia).
    replace (n / 100 mod 10) with (n / 100) by (Z.div_mod_to_equations; lia).
    reflexivity.
  - rewrite toString_4 by lia. reflexivity.
Qed.

Lemma digitCode_cases (k : Z) :
  0 <= k <= 9 ->
  isDigit (digitCode k) = true /\ digitValue (digitCode k) = k.
Proof.
  intro H.
  assert (Hk : k = 0 \/ k = 1 \/ k = 2 \/ k = 3 \/ k = 4 \/ k = 5 \/ k = 6
               \/ k = 7 \/ k = 8 \/ k = 9) by lia.
  repeat (destruct Hk as [-> | Hk]; [split; reflexivity|]).
  subst k. split; reflexivity.
Qed.

Lemma parseNDigits_2 (x y : Z) (rest : jsstring) :
  0 <= x <= 9 -> 0 <= y <= 9 ->
  parseNDigits 2 (digitCode x :: digitCode y :: rest) = Some (10 * x + y, rest).
Proof.
  intros Hx Hy.
  destruct (digitCode_cases x Hx) as [Dx Vx].
  destruct (digitCode_cases y Hy) as [Dy Vy].
  unfold parseNDigits. cbn [takeDigits]. rewrite Dx, Dy.
  unfold parseInt. cbn [fold_left]. rewrite Vx, Vy. f_equal. f_equal. lia.
Qed.

Lemma parseNDigits_4 (a b c d : Z) (rest : jsstring) :
  0 <= a <= 9 -> 0 <= b <= 9 -> 0 <= c <= 9 -> 0 <= d <= 9 ->
  parseNDigits 4 (digitCode a :: digitCode b :: digitCode c :: digitCode d
                  :: rest)
  = Some (1000 * a + 100 * b + 10 * c + d, rest).
Proof.
  intros Ha Hb Hc Hd.
  destruct (digitCode_cases a Ha) as [Da Va].
  destruct (digitCode_cases b Hb) as [Db Vb].
  destruct (digitCode_cases c Hc) as [Dc Vc].
  destruct (digitCode_cases d Hd) as [Dd Vd].
  unfold parseNDigits. cbn [takeDigits]. rewrite Da, Db, Dc, Dd.
  unfold parseInt. cbn [fold_left]. rewrite Va, Vb, Vc, Vd.
  f_equal. f_equal. lia.
Qed.

(** A two-digit field printed by [format] is read back by [parse]. *)
Lemma read_2 (n : Z) (rest : jsstring) :
  0 <= n < 100 ->
  parseNDigits 2 (addLeadingZeros n 2 ++ rest) = Some (n, rest).
Proof.
  intro H. rewrite (addLeadingZeros_2 n H). cbn [app].
  rewrite parseNDigits_2 by (Z.div_mod_to_equations; lia).
  f_equal. f_equal. Z.div_mod_to_equations; lia.
Qed.

(** So is the four-digit year. *)
Lemma read_4 (n : Z) (rest : jsstring) :
  0 <= n < 10000 ->
  parseNDigits 4 (addLeadingZeros n 4 ++ rest) = Some (n, rest).
Proof.
  intro H. rewrite (addLeadingZeros_4 n H). cbn [app].
  rewrite parseNDigits_4 by (Z.div_mod_to_equations; lia).
  f_equal. f_equal. Z.div_mod_to_equations; lia.
Qed.

Lemma expect_head (c : N) (rest : jsstring) : expect c (c :: rest) = Some rest.
Proof. unfold expect. rewrite N.eqb_refl. reflexivity. Qed.

Lemma timeClip_minute (t : Z) :
  - maxTime <= t <= maxTime ->
  timeClip (msPerMinute * (t / msPerMinute))
  = Some (msPerMinute * (t / msPerMinute)).
Proof.
  intro H. unfold timeClip.
  assert (E : (Z.abs (msPerMinute * (t / msPerMinute)) <=? maxTime) = true).
  { apply Z.leb_le. unfold maxTime, msPerMinute in *.
    Z.div_mod_to_equations. lia. }
  rewrite E. reflexivity.
Qed.

(** [format] then [parse], for a time value whose local year has one to four
    digits: the time value cut to the minute. *)
Lemma parse_format (tz t : Z) :
  - maxTime <= t <= maxTime ->
  1 <= getFullYear tz t <= 9999 ->
  exists s, format tz (Some t) = Some s
            /\ parse tz s = Some (msPerMinute * (t / msPerMinute)).
Proof.
  intros Ht Hyear. eexists. split; [reflexivity|].
  unfold getFullYear, getMonth, getDate, getHours, getMinutes in *.
  set (l := localTime tz t) in *.
  pose proof (TimeFacts.civilFromDays_spec (l / msPerDay)) as Hcivil.
  destruct (civilFromDays (l / msPerDay)) as [[y m] d].
  destruct Hcivil as (Hm & Hd & Hdays).
  pose proof (TimeFacts.localTime_split l) as Hsplit. cbv zeta in Hsplit.
  set (h := l mod msPerDay / msPerHour) in *.
  set (mi := l mod msPerHour / msPerMinute) in *.
  destruct Hsplit as (Hh & Hmi & Hsum).
  assert (Hd31 : d <= 31).
  { revert Hd. unfold daysInMonth.
    repeat match goal with
           | |- context [if ?b then _ else _] => destruct b
           end; lia. }
  assert (Ey : (y >? 0) = true) by (apply Z.gtb_lt; lia).
  rewrite Ey. unfold parse.
  replace (m - 1 + 1) with m by lia.
  cbn [lit list_ascii_of_string map app].
  rewrite <- (app_nil_r (addLeadingZeros mi 2)).
  rewrite (read_2 d) by lia. cbn beta iota. rewrite expect_head. cbn beta iota.
  rewrite (read_2 m) by lia. cbn beta iota. rewrite expect_head. cbn beta iota.
  rewrite (read_4 y) by lia. cbn beta iota. rewrite expect_head. cbn beta iota.
  rewrite (read_2 h) by lia. cbn beta iota. rewrite expect_head. cbn beta iota.
  rewrite (read_2 mi) by lia. cbn beta iota.
  cbn [forallb negb]. rewrite Ey. cbn [negb].
  assert (E1 : ((0 <=? m - 1) && (m - 1 <=? 11)) = true)
    by (apply andb_true_iff; split; apply Z.leb_le; lia).
  assert (E2 : ((1 <=? d) && (d <=? daysInMonth y (m - 1))) = true)
    by (apply andb_true_iff; split; apply Z.leb_le; lia).
  assert (E3 : ((0 <=? h) && (h <=? 23)) = true)
    by (apply andb_true_iff; split; apply Z.leb_le; lia).
  assert (E4 : ((0 <=? mi) && (mi <=? 59)) = true)
    by (apply andb_true_iff; split; apply Z.leb_le; lia).
  rewrite E1, E2, E3, E4. cbn [negb].
  unfold makeLocal. replace (m - 1 + 1) with m by lia.
  rewrite Hdays, Hsum.
  replace (msPerMinute * (l / msPerMinute) + tz * msPerMinute)
    with (msPerMinute * (t / msPerMinute)).
  - apply timeClip_minute, Ht.
  - subst l. unfold localTime, msPerMinute. Z.div_mod_to_equations. lia.
Qed.

End DateFnsFacts.

(* ------------------------------------------------------------------ *)
(** ** Person input: the name class and the phone layout *)

Module PersonInputFacts.

Import PersonInput Roster.

Lemma eqb_true_iff (a b : jsstring) : JS.eqb a b = true <-> a = b.
Proof.
  unfold JS.eqb. destruct (list_eq_dec N.eq_dec a b); split; congruence.
Qed.

(** *** The regular expression for names *)

Lemma skipClass_nil_iff (cls : list ClassItem) (s : jsstring) :
  skipClass cls s = [] <-> forallb (inClass cls) s = true.
Proof.
  induction s as [|c r IH]; cbn [skipClass forallb]; [tauto|].
  destruct (inClass cls c); cbn [andb]; [exact IH|].
  split; discriminate.
Qed.

Lemma testClassPlus_iff (cls : list ClassItem) (s : jsstring) :
  testClassPlus cls s = true <-> s <> [] /\ forallb (inClass cls) s = true.
Proof.
  destruct s as [|c r]; cbn [testClassPlus forallb].
  - split; [discriminate | intros [H _]; congruence].
  - destruct (inClass cls c); cbn [andb].
    + rewrite <- skipClass_nil_iff.
      destruct (skipClass cls r); split; try tauto; try discriminate.
      * intros _. split; [discriminate | reflexivity].
      * intros [_ H]. discriminate.
    + split; [discriminate | intros [_ H]; discriminate].
Qed.

Lemma inClass_nameClass (c : N) : inClass nameClass c = nameChar c.
Proof.
  unfold inClass, nameClass, nameChar, asciiLetter, listedAccents.
  cbn [existsb]. rewrite ?orb_false_r, ?orb_assoc. reflexivity.
Qed.

Lemma nameRegExpTest_iff (s : jsstring) :
  nameRegExpTest s = true <-> s <> [] /\ forallb nameChar s = true.
Proof.
  unfold nameRegExpTest. rewrite testClassPlus_iff.
  assert (E : forallb (inClass nameClass) s = forallb nameChar s).
  { induction s as [|c r IH]; cbn [forallb]; [reflexivity|].
    rewrite IH, inClass_nameClass. reflexivity. }
  rewrite E. reflexivity.
Qed.

(** *** Digits and their layout *)

Lemma firstn_plus {A} (a b : nat) (l : list A) :
  firstn (a + b) l = firstn a l ++ firstn b (skipn a l).
Proof.
  revert l. induction a as [|a IH]; intro l; [reflexivity|].
  destruct l as [|x l]; cbn [Nat.add firstn skipn app].
  - rewrite firstn_nil. reflexivity.
  - rewrite IH. reflexivity.
Qed.

Lemma filter_id (p : N -> bool) (l : jsstring) :
  forallb p l = true -> filter p l = l.
Proof.
  induction l as [|x l IH]; cbn [forallb filter]; [reflexivity|].
  intro H. apply andb_true_iff in H as [Hx Hl].
  rewrite Hx, (IH Hl). reflexivity.
Qed.

Lemma forallb_firstn (p : N -> bool) (n : nat) (l : jsstring) :
  forallb p l = true -> forallb p (firstn n l) = true.
Proof.
  revert l. induction n as [|n IH]; intros [|x l]; cbn [firstn forallb]; auto.
  intro H. apply andb_true_iff in H as [Hx Hl]. rewrite Hx. apply IH, Hl.
Qed.

Lemma forallb_skipn (p : N -> bool) (n : nat) (l : jsstring) :
  forallb p l = true -> forallb p (skipn n l) = true.
Proof.
  revert l. induction n as [|n IH]; intros [|x l]; cbn [skipn forallb]; auto.
  intro H. apply andb_true_iff in H as [Hx Hl]. apply IH, Hl.
Qed.

Lemma stripNonDigits_digits (v : jsstring) :
  forallb isDigit (stripNonDigits v) = true.
Proof.
  unfold stripNonDigits. induction v as [|c v IH]; cbn [filter]; auto.
  destruct (isDigit c) eqn:E; cbn [forallb]; [rewrite E|]; auto.
Qed.

Lemma stripNonDigits_slice (a b : nat) (ds : jsstring) :
  forallb isDigit ds = true -> stripNonDigits (slice a b ds) = slice a b ds.
Proof.
  intro H. apply filter_id. unfold slice.
  apply forallb_firstn, forallb_skipn, H.
Qed.

(** The input is only looked at through its digits. *)
Lemma formatPhoneNumber_layout (value : jsstring) :
  formatPhoneNumber value = layout (stripNonDigits value).
Proof. destruct value; reflexivity. Qed.

(** The digits a laid-out phone shows: all of them below seven, the first
    ten from seven on. *)
Lemma stripNonDigits_layout (ds : jsstring) :
  forallb isDigit ds = true ->
  stripNonDigits (layout ds)
  = if (List.length ds <? 7)%nat then ds else firstn 10 ds.
Proof.
  intro H. unfold layout.
  destruct (List.length ds <? 4)%nat eqn:E4.
  - apply Nat.ltb_lt in E4.
    assert (E7 : (List.length ds <? 7)%nat = true) by (apply Nat.ltb_lt; lia).
    rewrite E7. apply filter_id, H.
  - destruct (List.length ds <? 7)%nat eqn:E7; unfold stripNonDigits.
    + rewrite !filter_app. cbn [lit list_ascii_of_string map].
      change (filter isDigit [N_of_ascii "("]) with (@nil N).
      change (filter isDigit [N_of_ascii ")"; N_of_ascii " "]) with (@nil N).
      cbn [app]. unfold slice, sliceFrom.
      rewrite !filter_id
        by (repeat first [apply forallb_firstn | apply forallb_skipn]; exact H).
      cbn [skipn Nat.sub]. apply firstn_skipn.
    + rewrite !filter_app. cbn [lit list_ascii_of_string map].
      change (filter isDigit [N_of_ascii "("]) with (@nil N).
      change (filter isDigit [N_of_ascii ")"; N_of_ascii " "]) with (@nil N).
      change (filter isDigit [N_of_ascii "-"]) with (@nil N).
      cbn [app]. unfold slice.
      rewrite !filter_id
        by (repeat first [apply forallb_firstn | apply forallb_skipn]; exact H).
      cbn [skipn Nat.sub].
      change 10%nat with (3 + (3 + 4))%nat.
      rewrite (firstn_plus 3 (3 + 4)), (firstn_plus 3 4), skipn_skipn.
      reflexivity.
Qed.

Lemma slice_firstn (a b n : nat) (ds : jsstring) :
  (a <= b <= n)%nat -> slice a b (firstn n ds) = slice a b ds.
Proof.
  intro H. unfold slice.
  rewrite skipn_firstn_comm, firstn_firstn. f_equal. lia.
Qed.

Lemma layout_firstn_10 (ds : jsstring) :
  (7 <= List.length ds)%nat -> layout (firstn 10 ds) = layout ds.
Proof.
  intro H. unfold layout.
  assert (L : (7 <= List.length (firstn 10 ds))%nat)
    by (rewrite length_firstn; lia).
  assert (E4 : (List.length ds <? 4)%nat = false) by (apply Nat.ltb_ge; lia).
  assert (E7 : (List.length ds <? 7)%nat = false) by (apply Nat.ltb_ge; lia).
  assert (F4 : (List.length (firstn 10 ds) <? 4)%nat = false)
    by (apply Nat.ltb_ge; lia).
  assert (F7 : (List.length (firstn 10 ds) <? 7)%nat = false)
    by (apply Nat.ltb_ge; lia).
  rewrite E4, E7, F4, F7, !slice_firstn by lia. reflexivity.
Qed.

(** Formatting a formatted phone gives it back: what the phone inputs put
    into the state is a fixed point, and showing a stored phone through
    [formatPhoneNumber] shows the stored text. *)
Lemma formatPhoneNumber_idempotent (value : jsstring) :
  formatPhoneNumber (formatPhoneNumber value) = formatPhoneNumber value.
Proof.
  rewrite (formatPhoneNumber_layout (formatPhoneNumber value)).
  rewrite (formatPhoneNumber_layout value).
  rewrite stripNonDigits_layout by apply stripNonDigits_digits.
  destruct (List.length (stripNonDigits value) <? 7)%nat eqn:E; [reflexivity|].
  apply layout_firstn_10. apply Nat.ltb_ge in E. lia.
Qed.

(** Among formatted phones, equal digits mean equal text. *)
Lemma asFormatted_digits_eq (a b : jsstring) :
  asFormatted a -> asFormatted b ->
  (a = b <-> stripNonDigits a = stripNonDigits b).
Proof.
  unfold asFormatted. intros Ha Hb. split; [intros ->; reflexivity|].
  intro H. rewrite <- Ha, <- Hb, !formatPhoneNumber_layout, H. reflexivity.
Qed.

(** The check the phone inputs run on the formatted text. *)
Lemma isValidPhoneNumber_formatted (value : jsstring) :
  isValidPhoneNumber (formatPhoneNumber value)
  = (7 <=? List.length (stripNonDigits value))%nat.
Proof.
  unfold isValidPhoneNumber.
  rewrite formatPhoneNumber_layout.
  rewrite stripNonDigits_layout by apply stripNonDigits_digits.
  destruct (List.length (stripNonDigits value) <? 7)%nat eqn:E.
  - apply Nat.ltb_lt in E.
    assert (E7 : (7 <=? List.length (stripNonDigits value))%nat = false)
      by (apply Nat.leb_gt; lia).
    rewrite E7. reflexivity.
  - apply Nat.ltb_ge in E. rewrite length_firstn.
    assert (E7 : (7 <=? List.length (stripNonDigits value))%nat = true)
      by (apply Nat.leb_le; lia).
    rewrite E7. apply andb_true_iff. split; apply Nat.leb_le; lia.
Qed.

(** From seven digits on, the formatted text is the three groups. *)
Lemma formatPhoneNumber_grouped (value : jsstring) :
  (7 <= List.length (stripNonDigits value))%nat ->
  formatPhoneNumber value
  = lit "(" ++ firstn 3 (stripNonDigits value) ++ lit ") "
    ++ firstn 3 (skipn 3 (stripNonDigits value)) ++ lit "-"
    ++ firstn 4 (skipn 6 (stripNonDigits value)).
Proof.
  intro H. rewrite formatPhoneNumber_layout. unfold layout.
  assert (E4 : (List.length (stripNonDigits value) <? 4)%nat = false)
    by (apply Nat.ltb_ge; lia).
  assert (E7 : (List.length (stripNonDigits value) <? 7)%nat = false)
    by (apply Nat.ltb_ge; lia).
  rewrite E4, E7. reflexivity.
Qed.

Lemma cons_neq {A} (x : A) (l : list A) : l <> x :: l.
Proof.
  intro H. apply (f_equal (@List.length A)) in H. cbn in H. lia.
Qed.

Lemma somePhone_iff (people : list Person.t) (phone : jsstring) :
  somePhone people phone = true
  <-> exists p, In p people /\ Person.phone p = phone.
Proof.
  unfold somePhone. rewrite existsb_exists.
  split; intros [p [Hin Hp]]; exists p; split; auto; apply eqb_true_iff, Hp.
Qed.

End PersonInputFacts.

(* ------------------------------------------------------------------ *)
(** ** The add-person handlers *)

Module AddPersonFacts.

Import PersonInput Roster.

(** [handleAddPerson] once the three field checks pass and the campaign is
    found: the duplicate test decides alone. *)
Lemma handleAddPerson_checked
  (campaigns : list Campaign.t) (cid newId : jsstring)
  (w : CampaignList.World) (c : Campaign.t) :
  let st := CampaignList.state w in
  let errs := checkFields (CampaignList.newPersonName st)
                (CampaignList.newPersonLastName st)
                (CampaignList.newPersonPhone st) in
  let w1 := CampaignList.withState (CampaignList.setErrors errs st) w in
  isValid errs = true ->
  CampaignList.findCampaign campaigns cid = Some c ->
  CampaignList.handleAddPerson campaigns cid newId w =
    if somePhone (Campaign.people c) (CampaignList.newPersonPhone st)
    then CampaignList.withToast TelefonoDuplicado w1
    else
      let newPerson :=
        Person.mk newId (CampaignList.newPersonName st)
          (CampaignList.newPersonLastName st)
          (CampaignList.newPersonPhone st) in
      let w2 := CampaignList.updateCampaign campaigns
                  (Campaign.withPeople c (Campaign.people c ++ [newPerson]))
                  w1 in
      CampaignList.withState (CampaignList.clearNewPerson (CampaignList.state w2)) w2.
Proof.
  intros st errs w1 Hvalid Hfind. unfold CampaignList.handleAddPerson.
  fold st. fold errs. rewrite Hvalid, Hfind. reflexivity.
Qed.

Lemma handleAddPerson_duplicate_iff
  (campaigns : list Campaign.t) (cid newId : jsstring)
  (w : CampaignList.World) (c : Campaign.t) :
  let st := CampaignList.state w in
  isValid (checkFields (CampaignList.newPersonName st)
             (CampaignList.newPersonLastName st)
             (CampaignList.newPersonPhone st)) = true ->
  CampaignList.findCampaign campaigns cid = Some c ->
  (rejectedAsDuplicate w (CampaignList.handleAddPerson campaigns cid newId w)
   <-> exists p, In p (Campaign.people c)
                 /\ Person.phone p = CampaignList.newPersonPhone st).
Proof.
  intros st Hvalid Hfind.
  rewrite (handleAddPerson_checked campaigns cid newId w c Hvalid Hfind).
  fold st. rewrite <- PersonInputFacts.somePhone_iff.
  destruct (somePhone (Campaign.people c) (CampaignList.newPersonPhone st)).
  - split; [reflexivity|]. intros _. split; reflexivity.
  - split; [|discriminate]. intros [H _]. cbn in H. discriminate.
Qed.

(** The same for [addPerson] of the campaign form. *)
Lemma addPerson_duplicate_iff (newId : jsstring) (st : CampaignForm.State) :
  isValid (checkFields (CampaignForm.personName st)
             (CampaignForm.personLastName st)
             (CampaignForm.personPhone st)) = true ->
  (snd (CampaignForm.addPerson newId st) = Some TelefonoDuplicado
   <-> exists p, In p (CampaignForm.people st)
                 /\ Person.phone p = CampaignForm.personPhone st).
Proof.
  intro Hvalid. unfold CampaignForm.addPerson. rewrite Hvalid. cbn [negb].
  rewrite <- PersonInputFacts.somePhone_iff.
  destruct (somePhone (CampaignForm.people st) (CampaignForm.personPhone st));
    cbn [snd]; split; congruence.
Qed.

End AddPersonFacts.

(* ------------------------------------------------------------------ *)
(** ** Rosters across the mutations, and the status gates *)

Module LifecycleFacts.

Import PersonInput Roster.

(** A non-empty list written twice repeats its first element. *)
Lemma not_NoDup_twice {A} (l : list A) : l <> [] -> ~ NoDup (l ++ l).
Proof.
  destruct l as [|x l]; [congruence|]. intros _ H.
  cbn [app] in H. apply NoDup_cons_iff in H as [Hx _].
  apply Hx, in_or_app. right. left. reflexivity.
Qed.

(** The roster [handleSubmit] sends to the store: the roster of the campaign
    being edited, then the whole [people] state. *)
Lemma handleSubmit_people (tz checkedAt now : Z) (newId : jsstring)
  (campaign : option Campaign.t) (st : CampaignForm.State)
  (store store' : Utils.Store) (nc : Campaign.t) (toast : Toast) :
  CampaignForm.handleSubmit tz checkedAt now newId campaign st store
  = CampaignForm.Submitted nc store' toast ->
  Campaign.people nc
  = match campaign with Some c => Campaign.people c | None => [] end
    ++ CampaignForm.people st
  /\ CampaignForm.people st <> [].
Proof.
  unfold CampaignForm.handleSubmit.
  destruct (CampaignForm.isFormValid checkedAt st) eqn:Hvalid; cbn [negb];
    [|discriminate].
  assert (Hne : CampaignForm.people st <> []).
  { unfold CampaignForm.isFormValid in Hvalid. intro E. rewrite E in Hvalid.
    cbn in Hvalid. rewrite orb_true_r in Hvalid. discriminate. }
  repeat match goal with
         | |- context [match ?x with Some _ => _ | None => _ end = _] =>
             destruct x
         end; try discriminate;
    intro H; inversion H; subst; cbn [Campaign.people]; split; auto.
Qed.

(** Creating a campaign sends the [people] state as it is. *)
Lemma handleSubmit_create_people (tz checkedAt now : Z) (newId : jsstring)
  (st : CampaignForm.State) (store store' : Utils.Store)
  (nc : Campaign.t) (toast : Toast) :
  CampaignForm.handleSubmit tz checkedAt now newId None st store
  = CampaignForm.Submitted nc store' toast ->
  Campaign.people nc = CampaignForm.people st.
Proof.
  intro H. apply handleSubmit_people in H as [H _]. exact H.
Qed.

(** [addPerson] keeps the stored phones of the form pairwise different. *)
Lemma addPerson_keeps_phones_unique (newId : jsstring)
  (st : CampaignForm.State) :
  NoDup (phones (CampaignForm.people st)) ->
  NoDup (phones (CampaignForm.people (fst (CampaignForm.addPerson newId st)))).
Proof.
  intro H. unfold CampaignForm.addPerson.
  destruct (isValid _); cbn [negb fst]; [|exact H].
  destruct (somePhone _ _) eqn:E; cbn [fst]; [exact H|].
  cbn [CampaignForm.setPeopleAndClear CampaignForm.people].
  unfold phones. rewrite map_app. cbn [map Person.phone].
  apply NoDup_app; [exact H | repeat constructor; intros [] | ].
  intros x Hin [<- | []].
  apply in_map_iff in Hin as [p [Hp Hin]].
  assert (somePhone (CampaignForm.people st) (CampaignForm.personPhone st)
          = true)
    by (apply PersonInputFacts.somePhone_iff; exists p; auto).
  congruence.
Qed.

(** So does [handleAddPerson] for the roster it saves. *)
Lemma handleAddPerson_keeps_phones_unique
  (campaigns : list Campaign.t) (cid newId : jsstring)
  (w : CampaignList.World) (c : Campaign.t) :
  CampaignList.findCampaign campaigns cid = Some c ->
  NoDup (phones (Campaign.people c)) ->
  let w' := CampaignList.handleAddPerson campaigns cid newId w in
  CampaignList.store w' = CampaignList.store w
  \/ exists c',
       CampaignList.store w'
       = Some (map (fun x => if JS.eqb (Campaign.id x) (Campaign.id c')
                             then c' else x) campaigns)
       /\ NoDup (phones (Campaign.people c')).
Proof.
  intros Hfind H w'. subst w'. unfold CampaignList.handleAddPerson.
  destruct (isValid _); cbn [negb]; [|left; reflexivity].
  rewrite Hfind.
  destruct (somePhone _ _) eqn:E; [left; reflexivity|].
  right. eexists. split; [reflexivity|].
  cbn [Campaign.withPeople Campaign.people].
  unfold phones. rewrite map_app. cbn [map Person.phone].
  apply NoDup_app; [exact H | repeat constructor; intros [] | ].
  intros x Hin [<- | []].
  apply in_map_iff in Hin as [p [Hp Hin]].
  assert (somePhone (Campaign.people c)
            (CampaignList.newPersonPhone (CampaignList.state w)) = true)
    by (apply PersonInputFacts.somePhone_iff; exists p; auto).
  congruence.
Qed.

Lemma NoDup_phones_filter (f : Person.t -> bool) (people : list Person.t) :
  NoDup (phones people) -> NoDup (phones (filter f people)).
Proof.
  unfold phones. induction people as [|p ps IH]; cbn [filter map]; auto.
  intro H. apply NoDup_cons_iff in H as [Hp Hps].
  destruct (f p); cbn [map]; [|auto].
  constructor; [|auto]. intro Hin. apply Hp.
  apply in_map_iff in Hin as [q [Hq Hin]].
  apply in_map_iff. exists q. split; [exact Hq|].
  apply filter_In in Hin as [Hin _]. exact Hin.
Qed.

(** And [handleDeletePerson]. *)
Lemma handleDeletePerson_keeps_phones_unique
  (campaigns : list Campaign.t) (cid pid : jsstring)
  (w : CampaignList.World) (c : Campaign.t) :
  CampaignList.findCampaign campaigns cid = Some c ->
  NoDup (phones (Campaign.people c)) ->
  let w' := CampaignList.handleDeletePerson campaigns cid pid w in
  CampaignList.store w' = CampaignList.store w
  \/ exists c',
       CampaignList.store w'
       = Some (map (fun x => if JS.eqb (Campaign.id x) (Campaign.id c')
                             then c' else x) campaigns)
       /\ NoDup (phones (Campaign.people c')).
Proof.
  intros Hfind H w'. subst w'. unfold CampaignList.handleDeletePerson.
  rewrite Hfind.
  destruct (Campaign.status c); [|left; reflexivity|];
    (destruct (List.length (Campaign.people c) <=? 1)%nat;
     [left; reflexivity|]);
    right; eexists; (split; [reflexivity|]);
    cbn [Campaign.withPeople Campaign.people];
    apply NoDup_phones_filter, H.
Qed.

(** *** The gates on a finished campaign *)

Lemma handleDeletePerson_finished
  (campaigns : list Campaign.t) (cid pid : jsstring)
  (w : CampaignList.World) (c : Campaign.t) :
  CampaignList.findCampaign campaigns cid = Some c ->
  Campaign.status c = Finalizada ->
  CampaignList.handleDeletePerson campaigns cid pid w
  = CampaignList.withToast PersonasDeFinalizada w.
Proof.
  intros Hfind Hst. unfold CampaignList.handleDeletePerson.
  rewrite Hfind, Hst. reflexivity.
Qed.

Lemma handleDelete_not_waiting (c : Campaign.t) (w : CampaignList.World) :
  Campaign.status c <> EnEspera ->
  CampaignList.handleDelete c w
  = CampaignList.withToast SoloEliminarEnEspera w.
Proof.
  intro H. unfold CampaignList.handleDelete.
  destruct (Campaign.status c); congruence.
Qed.

(** [handleFinish] saves only for an active campaign. *)
Lemma handleFinish_saves_only_active
  (campaigns : list Campaign.t) (id : jsstring) (w : CampaignList.World) :
  (exists c, CampaignList.findCampaign campaigns id = Some c
             /\ Campaign.status c = Activa)
  \/ CampaignList.handleFinish campaigns id w
     = CampaignList.withToast SoloFinalizarActivas w.
Proof.
  unfold CampaignList.handleFinish.
  destruct (CampaignList.findCampaign campaigns id) as [c|]; [|right; reflexivity].
  destruct c as [i n cr sd ed r s p]. destruct s; [left|right|right]; try reflexivity.
  eexists. split; reflexivity.
Qed.

(** [handleDelete] arms the confirmation only for a waiting campaign. *)
Lemma handleDelete_arms_only_waiting (c : Campaign.t) (w : CampaignList.World) :
  CampaignList.deletingCampaign
    (CampaignList.state (CampaignList.handleDelete c w)) = Some c ->
  Campaign.status c = EnEspera
  \/ CampaignList.deletingCampaign (CampaignList.state w) = Some c.
Proof.
  unfold CampaignList.handleDelete.
  destruct (Campaign.status c); cbn; auto.
Qed.

End LifecycleFacts.

(* ------------------------------------------------------------------ *)
(** ** Claims on the status reconciler *)

(** C1, as stated, fails. The campaign [Samples.q1] is waiting and its start
    (10:00) and end (11:00) are both before the clock value (12:00), yet one
    pass of either reconciler leaves it at Activa, not at Finalizada: the
    two tests are the branches of one [if ... else if]. *)
Lemma C1_single_pass_stops_at_active :
  Campaign.status Samples.q1 = EnEspera
  /\ Utils.parseDate 0 (Campaign.startDate Samples.q1) = Some 1704103200000
  /\ Utils.parseDate 0 (Campaign.endDate Samples.q1) = Some 1704106800000
  /\ 1704103200000 <= Samples.noon
  /\ 1704106800000 <= Samples.noon
  /\ map Campaign.status
       (fst (fst (Utils.updateCampaignStatuses 0 Samples.noon (Some [Samples.q1]))))
     = [Activa]
  /\ map Campaign.status
       (fst (fst (HomePage.queryFn 0 Samples.noon (Some [Samples.q1]))))
     = [Activa].
Proof. vm_compute. repeat split; congruence. Qed.

(** C1, amended: a waiting campaign of the store whose start is at or before
    the clock is set to Activa by one pass, whatever its end date (no
    condition is put on it: it may be passed, ahead or unreadable), and the
    pass reports a change. The next pass at the same clock value sets the
    campaign to Finalizada when its end is at or before the clock too, and
    leaves it at Activa otherwise. The query function of [HomePage] does the
    same as the exported reconciler in both passes. *)
Theorem C1_waiting_overdue_takes_two_passes
  (tz now : Z) (store : Utils.Store) (k : nat) (c : Campaign.t) (s : Z) :
  nth_error (Utils.getCampaigns store) k = Some c ->
  Campaign.status c = EnEspera ->
  Utils.parseDate tz (Campaign.startDate c) = Some s -> s <= now ->
  let first := Utils.updateCampaignStatuses tz now store in
  let second := Utils.updateCampaignStatuses tz now (snd first) in
  nth_error (fst (fst first)) k = Some (Campaign.withStatus c Activa)
  /\ snd (fst first) = true
  /\ HomePage.queryFn tz now store = first
  /\ HomePage.queryFn tz now (snd first) = second
  /\ (forall e : Z,
        Utils.parseDate tz (Campaign.endDate c) = Some e -> e <= now ->
        nth_error (fst (fst second)) k
        = Some (Campaign.withStatus c Finalizada)
        /\ snd (fst second) = true)
  /\ (Utils.geTime now (Utils.parseDate tz (Campaign.endDate c)) = false ->
        nth_error (fst (fst second)) k
        = Some (Campaign.withStatus c Activa)).
Proof.
  intros Hk Hst Hs Hsn first second.
  assert (Hone : Utils.statusStep tz now c
                 = (Campaign.withStatus c Activa, true)).
  { rewrite ReconcilerFacts.statusStep_spec, Hst, Hs. cbn [Utils.geTime].
    apply Z.leb_le in Hsn. rewrite Hsn. reflexivity. }
  assert (Htwo : Utils.statusStep tz now (Campaign.withStatus c Activa)
                 = if Utils.geTime now
                        (Utils.parseDate tz (Campaign.endDate c))
                   then (Campaign.withStatus c Finalizada, true)
                   else (Campaign.withStatus c Activa, false)).
  { rewrite ReconcilerFacts.statusStep_spec.
    destruct c as [i n cr sd ed r st p]; reflexivity. }
  assert (Hfirst : nth_error (fst (fst first)) k
                   = Some (Campaign.withStatus c Activa)).
  { unfold first. rewrite ReconcilerFacts.update_unfold. cbn [fst].
    rewrite (ReconcilerFacts.pass_nth tz now _ k c Hk), Hone. reflexivity. }
  assert (Hstore : nth_error (Utils.getCampaigns (snd first)) k
                   = Some (Campaign.withStatus c Activa)).
  { unfold first. rewrite ReconcilerFacts.store_after_update. exact Hfirst. }
  split; [exact Hfirst|].
  split.
  { unfold first. rewrite ReconcilerFacts.update_unfold. cbn [fst snd].
    apply (ReconcilerFacts.pass_flag tz now _ k c Hk). rewrite Hone.
    reflexivity. }
  split; [apply ReconcilerFacts.homePage_queryFn|].
  split; [apply ReconcilerFacts.homePage_queryFn|].
  split.
  - intros e He Hen.
    assert (Hge : Utils.geTime now (Utils.parseDate tz (Campaign.endDate c))
                  = true).
    { rewrite He. cbn [Utils.geTime]. apply Z.leb_le, Hen. }
    rewrite Hge in Htwo. split.
    + unfold second. rewrite ReconcilerFacts.update_unfold. cbn [fst].
      rewrite (ReconcilerFacts.pass_nth tz now _ k _ Hstore), Htwo.
      reflexivity.
    + unfold second. rewrite ReconcilerFacts.update_unfold. cbn [fst snd].
      apply (ReconcilerFacts.pass_flag tz now _ k _ Hstore).
      rewrite Htwo. reflexivity.
  - intro Hge. rewrite Hge in Htwo.
    unfold second. rewrite ReconcilerFacts.update_unfold. cbn [fst].
    rewrite (ReconcilerFacts.pass_nth tz now _ k _ Hstore), Htwo.
    reflexivity.
Qed.

(** The campaign of the counterexample, taken through the two passes. *)
Lemma C1_waiting_overdue_takes_two_passes_witness :
  let first := Utils.updateCampaignStatuses 0 Samples.noon (Some [Samples.q1]) in
  let second := Utils.updateCampaignStatuses 0 Samples.noon (snd first) in
  nth_error (fst (fst first)) 0 = Some (Campaign.withStatus Samples.q1 Activa)
  /\ snd (fst first) = true
  /\ HomePage.queryFn 0 Samples.noon (Some [Samples.q1]) = first
  /\ HomePage.queryFn 0 Samples.noon (snd first) = second
  /\ nth_error (fst (fst second)) 0
     = Some (Campaign.withStatus Samples.q1 Finalizada)
  /\ snd (fst second) = true.
Proof.
  destruct (C1_waiting_overdue_takes_two_passes 0 Samples.noon
              (Some [Samples.q1]) 0 Samples.q1 1704103200000)
    as (H1 & H2 & H3 & H4 & H5 & _).
  - reflexivity.
  - reflexivity.
  - vm_compute; reflexivity.
  - vm_compute; congruence.
  - destruct (H5 1704106800000) as [H6 H7].
    + vm_compute; reflexivity.
    + vm_compute; congruence.
    + repeat split; assumption.
Defined.

(** C2, as stated, fails. Reconciling the store that holds [Samples.q1] twice
    at the same clock value changes it again on the second pass, from Activa
    to Finalizada, and the second pass raises [updated]. *)
Lemma C2_second_pass_changes_again :
  let first := Utils.updateCampaignStatuses 0 Samples.noon (Some [Samples.q1]) in
  let second := Utils.updateCampaignStatuses 0 Samples.noon (snd first) in
  map Campaign.status (fst (fst first)) = [Activa]
  /\ map Campaign.status (fst (fst second)) = [Finalizada]
  /\ snd (fst second) = true
  /\ fst (fst second) <> fst (fst first).
Proof. vm_compute. repeat split; congruence. Qed.

(** C2, amended: at a fixed clock value the second of two successive passes
    returns the list of the first and reports no change exactly when the
    list held no waiting campaign whose start and end were both at or before
    the clock (such a campaign is promoted once by each pass). *)
Theorem C2_second_pass_idle_iff_no_overdue_waiting
  (tz now : Z) (store : Utils.Store) :
  let first := Utils.updateCampaignStatuses tz now store in
  let second := Utils.updateCampaignStatuses tz now (snd first) in
  (fst (fst second) = fst (fst first) /\ snd (fst second) = false
   /\ snd second = snd first)
  <-> existsb (Reconciler.overdueWaiting tz now) (Utils.getCampaigns store)
      = false.
Proof.
  intros first second.
  set (cs1 := map fst (map (Utils.statusStep tz now) (Utils.getCampaigns store))).
  assert (Hstore : Utils.getCampaigns (snd first) = cs1)
    by apply ReconcilerFacts.store_after_update.
  assert (Hfirst : fst (fst first) = cs1) by reflexivity.
  assert (Hsecond : second =
            (map fst (map (Utils.statusStep tz now) cs1),
             existsb snd (map (Utils.statusStep tz now) cs1),
             if existsb snd (map (Utils.statusStep tz now) cs1)
             then Some (map fst (map (Utils.statusStep tz now) cs1))
             else snd first)).
  { unfold second. rewrite ReconcilerFacts.update_unfold, Hstore. reflexivity. }
  assert (Hflag : existsb snd (map (Utils.statusStep tz now) cs1)
                  = existsb (Reconciler.overdueWaiting tz now)
                            (Utils.getCampaigns store))
    by apply ReconcilerFacts.second_pass_flag.
  rewrite Hsecond, Hfirst. cbn [fst snd]. rewrite Hflag.
  split.
  - intros (_ & H & _). exact H.
  - intro H. rewrite H. repeat split.
    apply ReconcilerFacts.pass_unchanged. rewrite Hflag. exact H.
Qed.

(** C8: over any sequence of reconciliation calls, of either reconciler and
    at any clock values (non-decreasing ones in particular), each position
    of the stored list keeps its campaign id and its status never moves
    back: the rank En espera < Activa < Finalizada at a later point of the
    run is at least the rank at an earlier point. *)
Theorem C8_status_never_regresses
  (tz : Z) (earlier later : list Reconciler.Call) (store : Utils.Store) :
  Forall2 Reconciler.advanced
    (Utils.getCampaigns (Reconciler.runCalls tz earlier store))
    (Utils.getCampaigns (Reconciler.runCalls tz (earlier ++ later) store)).
Proof.
  unfold Reconciler.runCalls. rewrite fold_left_app.
  apply ReconcilerFacts.runCalls_advanced.
Qed.

(* ------------------------------------------------------------------ *)
(** ** Claim on the textual date form *)

(** C9, as stated, fails at both ends of the four-digit years. The valid time
    value 10000-01-01T00:00Z is printed with a five-digit year, of which
    [parse] reads four digits and then misses the space: Invalid Date. The
    valid time value one millisecond before year 1 is printed as year 0001
    of the previous era and read back as a date of year 1, a year later. *)
Lemma C9_roundtrip_fails_outside_years_1_to_9999 :
  Time.timeClip DateVocab.year10000 = Some DateVocab.year10000
  /\ Utils.formatDate 0 (Some DateVocab.year10000)
     = Some (lit "01/01/10000 00:00")
  /\ Utils.parseDate 0 (lit "01/01/10000 00:00") = None
  /\ Time.timeClip DateVocab.endOfYear0 = Some DateVocab.endOfYear0
  /\ Utils.formatDate 0 (Some DateVocab.endOfYear0)
     = Some (lit "31/12/0001 23:59")
  /\ Utils.parseDate 0 (lit "31/12/0001 23:59") = Some (-62104060860000)
  /\ Time.msPerMinute * (DateVocab.endOfYear0 / Time.msPerMinute)
     = -62135596860000.
Proof. vm_compute. repeat split; reflexivity. Qed.

(** The round trip also depends on the host's zone. Where the clock is set
    back, an hour of local time occurs twice and its printed form does not
    tell the two apart: in [DateVocab.europe2024] the instant
    2024-10-27T01:30Z is printed as 02:30, and that text is read as the
    first 02:30 of the night, one hour earlier. *)
Lemma repeated_hour_is_read_an_hour_early :
  Time.offsetAt DateVocab.europe2024 DateVocab.secondHalfPastTwo = -60
  /\ DateFns.formatIn DateVocab.europe2024 (Some DateVocab.secondHalfPastTwo)
     = Some (lit "27/10/2024 02:30")
  /\ DateFns.parseIn DateVocab.europe2024 (lit "27/10/2024 02:30")
     = Some (DateVocab.secondHalfPastTwo - Time.msPerHour)
  /\ DateFns.formatIn DateVocab.europe2024
       (Some (DateVocab.secondHalfPastTwo - Time.msPerHour))
     = Some (lit "27/10/2024 02:30").
Proof. vm_compute. repeat split; reflexivity. Qed.

(** On a host of one fixed offset, the zone-aware calls are the calls of
    the fixed-offset host. *)
Lemma formatIn_fixedZone (tz : Z) (date : option Z) :
  DateFns.formatIn (Time.fixedZone tz) date = DateFns.format tz date.
Proof.
  destruct date as [t|]; [|reflexivity].
  unfold DateFns.formatIn, Time.offsetAt, Time.fixedZone.
  cbn [Time.offsetBefore Time.offsetAfter Time.transition].
  destruct (t <? 0); reflexivity.
Qed.

Lemma utcOfLocal_fixedZone (tz l : Z) :
  Time.utcOfLocal (Time.fixedZone tz) l = l + tz * Time.msPerMinute.
Proof.
  unfold Time.utcOfLocal, Time.fixedZone.
  cbn [Time.offsetBefore Time.offsetAfter Time.transition].
  destruct (l + tz * Time.msPerMinute <? 0); [reflexivity|].
  destruct (0 <=? l + tz * Time.msPerMinute); reflexivity.
Qed.

Lemma parseIn_fixedZone (tz l : Z) (dateString : jsstring) :
  DateFns.parse 0 dateString = Some l ->
  DateFns.parseIn (Time.fixedZone tz) dateString
  = DateFns.parse tz dateString.
Proof.
  unfold DateFns.parseIn. intro H. rewrite H. revert H.
  rewrite utcOfLocal_fixedZone. unfold DateFns.parse.
  destruct (DateFns.parseNDigits 2 dateString) as [[dd s1]|]; [|discriminate].
  destruct (DateFns.expect 47 s1) as [s2|]; [|discriminate].
  destruct (DateFns.parseNDigits 2 s2) as [[MM s3]|]; [|discriminate].
  destruct (DateFns.expect 47 s3) as [s4|]; [|discriminate].
  destruct (DateFns.parseNDigits 4 s4) as [[yyyy s5]|]; [|discriminate].
  destruct (DateFns.expect 32 s5) as [s6|]; [|discriminate].
  destruct (DateFns.parseNDigits 2 s6) as [[HH s7]|]; [|discriminate].
  destruct (DateFns.expect 58 s7) as [s8|]; [|discriminate].
  destruct (DateFns.parseNDigits 2 s8) as [[mm rest]|]; [|discriminate].
  repeat match goal with
         | |- context [if negb ?b then _ else _] =>
             destruct b; cbn [negb]; [|discriminate]
         end.
  unfold Time.makeLocal, Time.timeClip.
  destruct (Z.abs _ <=? Time.maxTime); [|discriminate].
  intro H. inversion H as [Hl]. rewrite Z.add_0_r. reflexivity.
Qed.

(** C9, amended: on a host whose time zone keeps one fixed offset [tz] from
    UTC (no change of offset, so no hour of local time occurs twice), for
    every valid time value whose local calendar year lies between 1 and
    9999, [formatDate] returns a string and [parseDate] of that string is
    the time value cut down to the minute. *)
Theorem C9_format_then_parse_is_minute_floor (tz t : Z) :
  - Time.maxTime <= t <= Time.maxTime ->
  1 <= Time.getFullYear tz t <= 9999 ->
  exists s, Utils.formatDate tz (Some t) = Some s
            /\ Utils.parseDate tz s
               = Some (Time.msPerMinute * (t / Time.msPerMinute)).
Proof. exact (DateFnsFacts.parse_format tz t). Qed.

(** 2024-02-29T10:00:12.345Z on a host three hours behind UTC. *)
Lemma C9_format_then_parse_is_minute_floor_witness :
  exists s, Utils.formatDate 180 (Some 1709200812345) = Some s
            /\ Utils.parseDate 180 s
               = Some (Time.msPerMinute * (1709200812345 / Time.msPerMinute)).
Proof.
  apply (C9_format_then_parse_is_minute_floor 180 1709200812345).
  - vm_compute. split; congruence.
  - vm_compute. split; congruence.
Defined.

(* ------------------------------------------------------------------ *)
(** ** Claims on person validation *)

(** C6, as stated, fails. The name made of the letter u with diaeresis
    (U+00FC), a Unicode letter, is turned down by the code; a name that is
    one space, empty once trimmed, is accepted; and so is a name with a
    tabulation between two letters, which is neither a letter nor a space. *)
Lemma C6_name_class_is_a_fixed_list :
  Roster.latin1Letter 252 = true
  /\ Roster.lettersOrSpaces Roster.latin1Letter [252%N] = true
  /\ PersonInput.nameRegExpTest [252%N] = false
  /\ PersonInput.nameError
       (PersonInput.checkFields [252%N] (lit "Gomez") (lit "(555) 123-4567"))
     = true
  /\ Roster.lettersOrSpaces Roster.latin1Letter (lit " ") = false
  /\ PersonInput.nameRegExpTest (lit " ") = true
  /\ Roster.lettersOrSpaces Roster.latin1Letter [65%N; 9%N; 66%N] = false
  /\ PersonInput.nameRegExpTest [65%N; 9%N; 66%N] = true.
Proof. vm_compute. repeat split; reflexivity. Qed.

(** C6, amended: the name (and the last name) passes exactly when the string
    as typed, not trimmed, is non-empty and each of its code units is an
    ASCII letter, one of the twelve accented letters the expression lists,
    or a white-space character; otherwise the field's error is set. *)
Theorem C6_name_accepted_iff_listed_characters
  (name lastName phone : jsstring) :
  let errs := PersonInput.checkFields name lastName phone in
  (PersonInput.nameError errs = false
   <-> name <> [] /\ forallb Roster.nameChar name = true)
  /\ (PersonInput.lastNameError errs = false
      <-> lastName <> [] /\ forallb Roster.nameChar lastName = true).
Proof.
  cbn [PersonInput.checkFields PersonInput.nameError
       PersonInput.lastNameError].
  rewrite <- !PersonInputFacts.nameRegExpTest_iff.
  split; (destruct (PersonInput.nameRegExpTest _); cbn [negb];
          split; congruence).
Qed.

(** C5, as stated, fails. Typing 5551234567 into the phone input of the
    add-person overlay and adding the person stores (555) 123-4567, not the
    text typed; typing twelve digits stores the first ten only. *)
Lemma C5_stored_phone_is_the_grouped_text :
  let store := Some [Samples.q1] in
  let w0 := Roster.typing (lit "Luis") (lit "Perez") [] store in
  let add typed :=
    CampaignList.store
      (CampaignList.handleAddPerson [Samples.q1] (lit "c1") (lit "p2")
         (CampaignList.onNewPersonPhoneChange typed w0)) in
  option_map (map (fun c => Roster.phones (Campaign.people c)))
             (add (lit "5557654321"))
  = Some [[lit "(555) 123-4567"; lit "(555) 765-4321"]]
  /\ lit "(555) 765-4321" <> lit "5557654321"
  /\ option_map (map (fun c => Roster.phones (Campaign.people c)))
                (add (lit "555765432199"))
     = Some [[lit "(555) 123-4567"; lit "(555) 765-4321"]].
Proof. vm_compute. repeat split; congruence. Qed.

(** C5, amended: the phone stored with a person added through either form is
    not the text typed but its digits, grouped as (AAA) BBB-CCCC: an opening
    parenthesis, the first three digits, a closing parenthesis and a space,
    the next three digits, a hyphen, and the digits seven to ten; digits
    after the tenth are dropped, and a person is only added when at least
    seven digits were typed. The grouping is made when the input changes,
    so the grouped text is what the validation looks at; it passes that
    validation, its digits are the first ten digits typed, and showing it
    through [formatPhoneNumber] again gives the stored text back. *)
Theorem C5_stored_phone_is_formatted_input
  (typed newId cid : jsstring)
  (st st' : CampaignForm.State)
  (campaigns : list Campaign.t) (c : Campaign.t) (w : CampaignList.World) :
  let digits := stripNonDigits typed in
  let phone :=
    lit "(" ++ firstn 3 digits ++ lit ") "
    ++ firstn 3 (skipn 3 digits) ++ lit "-" ++ firstn 4 (skipn 6 digits) in
  (CampaignForm.addPerson newId (CampaignForm.onPersonPhoneChange typed st)
   = (st', Some PersonaAgregada) ->
   CampaignForm.people st'
   = CampaignForm.people st
     ++ [Person.mk newId (CampaignForm.personName st)
           (CampaignForm.personLastName st) phone]
   /\ (7 <= List.length digits)%nat)
  /\ (CampaignList.findCampaign campaigns cid = Some c ->
      let w' := CampaignList.handleAddPerson campaigns cid newId
                  (CampaignList.onNewPersonPhoneChange typed w) in
      CampaignList.toasts w' = CampanaActualizada :: CampaignList.toasts w ->
      CampaignList.store w'
      = Some (map (fun x =>
                     if JS.eqb (Campaign.id x) (Campaign.id c)
                     then Campaign.withPeople c
                            (Campaign.people c
                             ++ [Person.mk newId
                                   (CampaignList.newPersonName (CampaignList.state w))
                                   (CampaignList.newPersonLastName (CampaignList.state w))
                                   phone])
                     else x) campaigns)
      /\ (7 <= List.length digits)%nat)
  /\ ((7 <= List.length digits)%nat ->
      PersonInput.formatPhoneNumber typed = phone
      /\ stripNonDigits phone = firstn 10 digits
      /\ PersonInput.isValidPhoneNumber phone = true
      /\ PersonInput.formatPhoneNumber phone = phone).
Proof.
  intros digits phone.
  assert (Hseven : PersonInput.isValidPhoneNumber
                     (PersonInput.formatPhoneNumber typed) = true ->
                   (7 <= List.length digits)%nat).
  { rewrite PersonInputFacts.isValidPhoneNumber_formatted.
    intro H. apply Nat.leb_le in H. exact H. }
  assert (Hgrouped : (7 <= List.length digits)%nat ->
                     PersonInput.formatPhoneNumber typed = phone)
    by apply PersonInputFacts.formatPhoneNumber_grouped.
  split; [|split].
  - unfold CampaignForm.addPerson, CampaignForm.onPersonPhoneChange.
    cbn [CampaignForm.setPersonPhone CampaignForm.personName
         CampaignForm.personLastName CampaignForm.personPhone
         CampaignForm.people].
    destruct (PersonInput.isValid _) eqn:Hvalid; cbn [negb];
      [|intro H; inversion H].
    destruct (PersonInput.somePhone _ _); intro H; inversion H.
    unfold PersonInput.isValid, PersonInput.checkFields in Hvalid.
    cbn [PersonInput.phoneError] in Hvalid.
    apply andb_true_iff in Hvalid as [_ Hp].
    apply negb_true_iff, negb_false_iff in Hp.
    pose proof (Hseven Hp) as H7.
    rewrite (Hgrouped H7). split; [reflexivity | exact H7].
  - intros Hfind w'. subst w'.
    unfold CampaignList.handleAddPerson, CampaignList.onNewPersonPhoneChange.
    cbn [CampaignList.state CampaignList.withState
         CampaignList.setNewPersonPhone CampaignList.newPersonName
         CampaignList.newPersonLastName CampaignList.newPersonPhone].
    destruct (PersonInput.isValid _) eqn:Hvalid; cbn [negb].
    + rewrite Hfind.
      unfold PersonInput.isValid, PersonInput.checkFields in Hvalid.
      cbn [PersonInput.phoneError] in Hvalid.
      apply andb_true_iff in Hvalid as [_ Hp].
      apply negb_true_iff, negb_false_iff in Hp.
      pose proof (Hseven Hp) as H7.
      rewrite (Hgrouped H7).
      destruct (PersonInput.somePhone _ _); cbn; intro H.
      * inversion H.
      * split; [reflexivity | exact H7].
    + cbn. intro H. exfalso.
      exact (PersonInputFacts.cons_neq _ _ H).
  - intro H7. pose proof (Hgrouped H7) as E. rewrite <- E.
    split; [reflexivity|]. split; [|split].
    + rewrite PersonInputFacts.formatPhoneNumber_layout.
      rewrite PersonInputFacts.stripNonDigits_layout
        by apply PersonInputFacts.stripNonDigits_digits.
      fold digits.
      assert (E7 : (List.length digits <? 7)%nat = false)
        by (apply Nat.ltb_ge; exact H7).
      rewrite E7. reflexivity.
    + rewrite PersonInputFacts.isValidPhoneNumber_formatted. fold digits.
      apply Nat.leb_le, H7.
    + apply PersonInputFacts.formatPhoneNumber_idempotent.
Qed.

(** Luis Perez added with the phone typed as 555 765 4321 99, through the
    campaign form and through the overlay of the list: in both, the phone
    stored is (555) 765-4321. *)
Lemma C5_stored_phone_is_formatted_input_witness :
  let typed := lit "555 765 4321 99" in
  let st := RosterSamples.formTyping in
  let st' := fst (CampaignForm.addPerson (lit "p2")
                    (CampaignForm.onPersonPhoneChange typed st)) in
  let w := Roster.typing (lit "Luis") (lit "Perez") [] (Some [Samples.q1]) in
  let w' := CampaignList.handleAddPerson [Samples.q1] (lit "c1") (lit "p2")
              (CampaignList.onNewPersonPhoneChange typed w) in
  CampaignForm.people st' = [Samples.ana; RosterSamples.luis]
  /\ CampaignList.store w'
     = Some [Campaign.withPeople Samples.q1 [Samples.ana; RosterSamples.luis]]
  /\ PersonInput.formatPhoneNumber typed = lit "(555) 765-4321"
  /\ stripNonDigits (lit "(555) 765-4321") = lit "5557654321".
Proof.
  intros typed st st' w w'.
  destruct (C5_stored_phone_is_formatted_input typed (lit "p2") (lit "c1")
              st st' [Samples.q1] Samples.q1 w) as (HA & HB & HC).
  split; [|split].
  - apply HA. vm_compute. reflexivity.
  - apply HB; vm_compute; reflexivity.
  - destruct HC as (H1 & H2 & _).
    + vm_compute. lia.
    + split; [exact H1 | exact H2].
Defined.

(** C4, as stated, fails in both directions of the test the code makes.
    With the stored phone 555 123 4567 and the candidate (555) 123-4567 the
    digits agree, yet the person is added: the texts differ. With an empty
    name and a candidate phone that is on the roster, the request ends at
    the name error and no duplicate is reported. *)
Lemma C4_duplicate_test_is_textual_and_after_validation :
  let w := Roster.typing (lit "Luis") (lit "Perez") (lit "(555) 123-4567")
             (Some [RosterSamples.q1Raw]) in
  let w' := CampaignList.handleAddPerson [RosterSamples.q1Raw] (lit "c1")
              (lit "p2") w in
  let v := Roster.typing [] (lit "Perez") (lit "(555) 123-4567")
             (Some [Samples.q1]) in
  let v' := CampaignList.handleAddPerson [Samples.q1] (lit "c1") (lit "p2") v in
  Roster.normalizedPhones (Campaign.people RosterSamples.q1Raw)
  = [stripNonDigits (lit "(555) 123-4567")]
  /\ CampaignList.toasts w' = [CampanaActualizada]
  /\ option_map (map (fun c => Roster.phones (Campaign.people c)))
                (CampaignList.store w')
     = Some [[lit "555 123 4567"; lit "(555) 123-4567"]]
  /\ ~ Roster.rejectedAsDuplicate w w'
  /\ Roster.phones (Campaign.people Samples.q1) = [lit "(555) 123-4567"]
  /\ CampaignList.nameError (CampaignList.state v') = true
  /\ CampaignList.toasts v' = []
  /\ ~ Roster.rejectedAsDuplicate v v'.
Proof.
  vm_compute. repeat split; try reflexivity; intros [H _]; discriminate.
Qed.

(** C4, amended: a request whose name, last name or phone fails its check
    ends there, for every such candidate: the three error flags are set,
    nothing is saved, no toast is shown and no duplicate test is made, even
    when the candidate phone is on the roster; so does a request for a
    campaign that is not found. Once the three checks pass and the campaign
    is found, the request is rejected as a duplicate (the toast is shown,
    nothing is saved) exactly when the candidate phone, as the phone input
    holds it, is the same text as the stored phone of a person of that
    roster; when the candidate and the stored phones are all in the form
    the phone inputs produce, this is exactly when the digit-normalized
    phones agree. *)
Theorem C4_duplicate_iff_same_text
  (campaigns : list Campaign.t) (cid newId : jsstring)
  (w : CampaignList.World) :
  let st := CampaignList.state w in
  let errs := PersonInput.checkFields (CampaignList.newPersonName st)
                (CampaignList.newPersonLastName st)
                (CampaignList.newPersonPhone st) in
  let w' := CampaignList.handleAddPerson campaigns cid newId w in
  (PersonInput.isValid errs = false
   \/ CampaignList.findCampaign campaigns cid = None ->
   w' = CampaignList.withState (CampaignList.setErrors errs st) w
   /\ CampaignList.store w' = CampaignList.store w
   /\ CampaignList.toasts w' = CampaignList.toasts w
   /\ ~ Roster.rejectedAsDuplicate w w')
  /\ (forall c : Campaign.t,
        PersonInput.isValid errs = true ->
        CampaignList.findCampaign campaigns cid = Some c ->
        (Roster.rejectedAsDuplicate w w'
         <-> exists p, In p (Campaign.people c)
                       /\ Person.phone p = CampaignList.newPersonPhone st)
        /\ (Roster.asFormatted (CampaignList.newPersonPhone st) ->
            (forall p, In p (Campaign.people c) ->
                       Roster.asFormatted (Person.phone p)) ->
            (Roster.rejectedAsDuplicate w w'
             <-> exists p, In p (Campaign.people c)
                           /\ stripNonDigits (Person.phone p)
                              = stripNonDigits
                                  (CampaignList.newPersonPhone st)))).
Proof.
  intros st errs w'. split.
  - intro Hcase.
    assert (E : w' = CampaignList.withState
                       (CampaignList.setErrors errs st) w).
    { unfold w', CampaignList.handleAddPerson. fold st. fold errs.
      destruct Hcase as [Hbad | Hnone].
      - rewrite Hbad. reflexivity.
      - rewrite Hnone. destruct (PersonInput.isValid errs); reflexivity. }
    split; [exact E|]. rewrite E.
    split; [reflexivity|]. split; [reflexivity|].
    intros [Htoast _]. cbn in Htoast.
    exact (PersonInputFacts.cons_neq _ _ Htoast).
  - intros c Hvalid Hfind.
    pose proof (AddPersonFacts.handleAddPerson_duplicate_iff
                  campaigns cid newId w c Hvalid Hfind) as Hdup.
    fold st in Hdup. fold w' in Hdup.
    split; [exact Hdup|].
    intros Hphone Hroster. rewrite Hdup.
    split; intros [p [Hin Hp]]; exists p; split; auto;
      apply (PersonInputFacts.asFormatted_digits_eq _ _
               (Hroster p Hin) Hphone); exact Hp.
Qed.

(** The scenario of the claim, through the overlay: Ana is on the roster with
    the phone typed as 555 123 4567; a second person typed with the phone
    5551234567 is rejected as a duplicate. The same phone typed for a
    candidate whose name holds a digit is not: the request ends at the name
    error. *)
Lemma C4_duplicate_iff_same_text_witness :
  let w0 := Roster.typing (lit "Ana") (lit "Gomez") []
              (Some [Campaign.withPeople Samples.q1 [RosterSamples.luis]]) in
  let w1 := CampaignList.handleAddPerson
              [Campaign.withPeople Samples.q1 [RosterSamples.luis]]
              (lit "c1") (lit "p1")
              (CampaignList.onNewPersonPhoneChange (lit "555 123 4567") w0) in
  let campaigns := Utils.getCampaigns (CampaignList.store w1) in
  let w2 := CampaignList.onNewPersonPhoneChange (lit "5551234567")
              (CampaignList.onNewPersonLastNameChange (lit "Diaz")
                 (CampaignList.onNewPersonNameChange (lit "Eva") w1)) in
  let w3 := CampaignList.onNewPersonNameChange (lit "Eva2") w2 in
  Roster.rejectedAsDuplicate w2
    (CampaignList.handleAddPerson campaigns (lit "c1") (lit "p3") w2)
  /\ ~ Roster.rejectedAsDuplicate w3
        (CampaignList.handleAddPerson campaigns (lit "c1") (lit "p3") w3).
Proof.
  intros w0 w1 campaigns w2 w3. split.
  - destruct (C4_duplicate_iff_same_text campaigns (lit "c1") (lit "p3") w2)
      as [_ H].
    destruct (H (Campaign.withPeople Samples.q1
                   [RosterSamples.luis; Samples.ana])) as [_ H2].
    + vm_compute. reflexivity.
    + vm_compute. reflexivity.
    + apply H2.
      * vm_compute. reflexivity.
      * intros p [<- | [<- | []]]; vm_compute; reflexivity.
      * exists Samples.ana. split; [right; left; reflexivity|].
        vm_compute. reflexivity.
  - destruct (C4_duplicate_iff_same_text campaigns (lit "c1") (lit "p3") w3)
      as [H _].
    destruct H as (_ & _ & _ & H); [|exact H].
    left. vm_compute. reflexivity.
Defined.

(* ------------------------------------------------------------------ *)
(** ** Claims on the roster invariant and the finished state *)

(** C3 fails on the full update: submitting the form opened on an existing
    campaign stores that campaign's roster twice, so every phone of it is on
    the new roster two times. The form starts its [people] state from
    [campaign.people] and [handleSubmit] prepends [campaign.people] again.
    ([addPerson], [handleAddPerson], [handleDeletePerson] and the creation
    path keep the stored phones different: see [LifecycleFacts].) *)
Theorem C3_full_update_stores_roster_twice
  (tz openedAt checkedAt now : Z) (newId : jsstring) (c nc : Campaign.t)
  (store store' : Utils.Store) (toast : Toast) :
  CampaignForm.handleSubmit tz checkedAt now newId (Some c)
    (CampaignForm.runEffects openedAt
       (CampaignForm.initialState tz (Some c)))
    store
  = CampaignForm.Submitted nc store' toast ->
  Campaign.people nc = Campaign.people c ++ Campaign.people c
  /\ ~ NoDup (Roster.phones (Campaign.people nc))
  /\ ~ NoDup (Roster.normalizedPhones (Campaign.people nc)).
Proof.
  intro H. apply LifecycleFacts.handleSubmit_people in H as [Hp Hne].
  assert (Hst : CampaignForm.people
                  (CampaignForm.runEffects openedAt
                     (CampaignForm.initialState tz (Some c)))
                = Campaign.people c).
  { unfold CampaignForm.runEffects.
    destruct (CampaignForm.validateDates _ _ _ _). reflexivity. }
  rewrite Hst in Hp, Hne. rewrite Hp.
  unfold Roster.phones, Roster.normalizedPhones. rewrite !map_app.
  split; [reflexivity|].
  split; apply LifecycleFacts.not_NoDup_twice;
    destruct (Campaign.people c); cbn [map]; congruence.
Qed.

(** [Samples.q1] opened in the form at 09:30 and submitted as it is. *)
Lemma C3_full_update_stores_roster_twice_witness :
  Campaign.people RosterSamples.q1Twice
  = Campaign.people Samples.q1 ++ Campaign.people Samples.q1
  /\ ~ NoDup (Roster.phones (Campaign.people RosterSamples.q1Twice))
  /\ ~ NoDup (Roster.normalizedPhones (Campaign.people RosterSamples.q1Twice)).
Proof.
  apply (C3_full_update_stores_roster_twice 0 RosterSamples.morning
           RosterSamples.morning RosterSamples.morning
           (lit "fresh") Samples.q1 RosterSamples.q1Twice
           (Some [Samples.q1]) (Some [RosterSamples.q1Twice])
           CampanaActualizada).
  vm_compute. reflexivity.
Defined.

(** C7 fails for add-person. The overlay is opened on an active campaign;
    the periodic refetch then reconciles the campaign to Finalizada; the
    overlay is still rendered, and "Agregar" runs [handleAddPerson], which
    never looks at the status: the person joins the roster of the finished
    campaign and the list is saved. ([handleDeletePerson] and [handleDelete]
    do turn a finished campaign down, [handleFinish] saves only for an
    active one: see [LifecycleFacts].) *)
Theorem C7_add_person_reaches_finished_campaign :
  let w0 := Roster.typing [] [] [] (Some [RosterSamples.q1Active]) in
  let w1 := RosterSamples.typeLuis
              (CampaignList.onAddPersonClick RosterSamples.q1Active w0) in
  let refetch := HomePage.queryFn 0 Samples.noon (CampaignList.store w1) in
  let campaigns := fst (fst refetch) in
  let w2 := CampaignList.mkWorld (CampaignList.state w1) (snd refetch)
              (CampaignList.toasts w1) in
  let w3 := CampaignList.handleAddPerson campaigns (lit "c1") (lit "p2") w2 in
  CampaignList.addPersonButtonRendered RosterSamples.q1Active = true
  /\ campaigns = [RosterSamples.q1Finished]
  /\ Campaign.status RosterSamples.q1Finished = Finalizada
  /\ CampaignList.addPersonButtonRendered RosterSamples.q1Finished = false
  /\ CampaignList.overlayRendered RosterSamples.q1Finished w2 = true
  /\ CampaignList.toasts w3 = [CampanaActualizada]
  /\ CampaignList.store w3
     = Some [Campaign.withPeople RosterSamples.q1Finished
               [Samples.ana; RosterSamples.luis]].
Proof. vm_compute. repeat split; reflexivity. Qed.

(* ================================================================== *)
(** * Further properties of the code *)

(* ------------------------------------------------------------------ *)
(** ** The reconciler: what it keeps, where it stops *)

Module KeepsFacts.

Import Keeps Reconciler.

Lemma sameButStatus_refl (c : Campaign.t) : sameButStatus c c.
Proof. apply ReconcilerFacts.withStatus_same. Qed.

Lemma sameButStatus_trans (a b c : Campaign.t) :
  sameButStatus a b -> sameButStatus b c -> sameButStatus a c.
Proof.
  unfold sameButStatus. intros <- <-. destruct a; reflexivity.
Qed.

Lemma statusStep_sameButStatus (tz now : Z) (c : Campaign.t) :
  sameButStatus c (fst (Utils.statusStep tz now c)).
Proof.
  rewrite ReconcilerFacts.statusStep_spec. unfold sameButStatus.
  destruct c as [i n cr sd ed r s p]; cbn [Campaign.status
    Campaign.startDate Campaign.endDate].
  destruct s;
    repeat match goal with
           | |- context [if ?b then _ else _] => destruct b
           end; reflexivity.
Qed.

Lemma Forall2_refl_of {A} (R : A -> A -> Prop) (l : list A) :
  (forall x, R x x) -> Forall2 R l l.
Proof. intro H. induction l; constructor; auto. Qed.

Lemma Forall2_trans_of {A} (R : A -> A -> Prop) (xs ys zs : list A) :
  (forall x y z, R x y -> R y z -> R x z) ->
  Forall2 R xs ys -> Forall2 R ys zs -> Forall2 R xs zs.
Proof.
  intros HR H. revert zs. induction H; intros zs Hz; inversion Hz; subst;
    constructor; eauto.
Qed.

Lemma runCall_sameButStatus (tz : Z) (call : Call) (store : Utils.Store) :
  Forall2 sameButStatus (Utils.getCampaigns store)
                        (Utils.getCampaigns (runCall tz call store)).
Proof.
  rewrite ReconcilerFacts.runCall_campaigns.
  induction (Utils.getCampaigns store); cbn [map]; constructor; auto.
  apply statusStep_sameButStatus.
Qed.

Lemma runCalls_sameButStatus (tz : Z) (calls : list Call)
  (store : Utils.Store) :
  Forall2 sameButStatus (Utils.getCampaigns store)
                        (Utils.getCampaigns (runCalls tz calls store)).
Proof.
  revert store. induction calls as [|call calls IH]; intro store; cbn.
  - apply Forall2_refl_of, sameButStatus_refl.
  - eapply Forall2_trans_of;
      [apply sameButStatus_trans | apply runCall_sameButStatus | apply IH].
Qed.

(** A campaign is not waiting-and-overdue once a pass went over it. *)
Lemma overdueWaiting_after_step (tz now : Z) (c : Campaign.t) :
  overdueWaiting tz now (fst (Utils.statusStep tz now c)) = false.
Proof.
  rewrite ReconcilerFacts.statusStep_spec. unfold overdueWaiting.
  destruct c as [i n cr sd ed r s p]; cbn [Campaign.status
    Campaign.startDate Campaign.endDate].
  destruct s; cbn [CampaignStatus_eqb andb].
  - destruct (Utils.geTime now (Utils.parseDate tz ed)); reflexivity.
  - reflexivity.
  - destruct (Utils.geTime now (Utils.parseDate tz sd)) eqn:E; cbn; [reflexivity|].
    rewrite E. reflexivity.
Qed.

Lemma overdueWaiting_after_pass (tz now : Z) (cs : list Campaign.t) :
  existsb (overdueWaiting tz now) (map fst (map (Utils.statusStep tz now) cs))
  = false.
Proof.
  induction cs as [|c cs IH]; [reflexivity|].
  cbn [map existsb]. rewrite overdueWaiting_after_step, IH. reflexivity.
Qed.

Lemma statusStep_settled (tz now : Z) (c : Campaign.t) :
  settled tz c = true -> Utils.statusStep tz now c = (c, false).
Proof.
  rewrite ReconcilerFacts.statusStep_spec. unfold settled.
  destruct (Campaign.status c).
  - destruct (Utils.parseDate tz (Campaign.endDate c)); [discriminate|reflexivity].
  - reflexivity.
  - destruct (Utils.parseDate tz (Campaign.startDate c)); [discriminate|reflexivity].
Qed.

Lemma runCall_settled (tz : Z) (call : Call) (store : Utils.Store)
  (k : nat) (c : Campaign.t) :
  nth_error (Utils.getCampaigns store) k = Some c ->
  settled tz c = true ->
  nth_error (Utils.getCampaigns (runCall tz call store)) k = Some c.
Proof.
  intros Hk Hs. rewrite ReconcilerFacts.runCall_campaigns.
  rewrite (ReconcilerFacts.pass_nth tz _ _ k c Hk).
  rewrite statusStep_settled by exact Hs. reflexivity.
Qed.

(** Counting by status along a run. *)
Lemma totalPeople_fold (cs : list Campaign.t) (acc : nat) :
  fold_left (fun sum c => (sum + List.length (Campaign.people c))%nat) cs acc
  = (acc + fold_left (fun sum c => (sum + List.length (Campaign.people c))%nat)
                     cs 0)%nat.
Proof.
  revert acc. induction cs as [|c cs IH]; intro acc; cbn [fold_left]; [lia|].
  rewrite IH, (IH (0 + _)%nat). lia.
Qed.

Lemma stats_along (cs cs' : list Campaign.t) :
  Forall2 (fun c c' => sameButStatus c c' /\ advanced c c') cs cs' ->
  HomePage.totalPeople (HomePage.campaignStats cs')
  = HomePage.totalPeople (HomePage.campaignStats cs)
  /\ (HomePage.countStatus EnEspera cs' <= HomePage.countStatus EnEspera cs)%nat
  /\ (HomePage.countStatus Finalizada cs <= HomePage.countStatus Finalizada cs')%nat.
Proof.
  unfold HomePage.campaignStats, HomePage.countStatus. cbn [HomePage.totalPeople].
  induction 1 as [|c c' cs cs' [Hsame [_ Hrank]] _ IH]; [cbn; lia|].
  destruct IH as (Hp & Hw & Hf).
  cbn [fold_left filter].
  rewrite (totalPeople_fold cs'), (totalPeople_fold cs), Hp.
  assert (Hpeople : Campaign.people c' = Campaign.people c)
    by (rewrite <- Hsame; destruct c; reflexivity).
  rewrite Hpeople.
  destruct (Campaign.status c), (Campaign.status c');
    cbn in Hrank; cbn [CampaignStatus_eqb List.length]; lia.
Qed.

Lemma Forall2_and {A} (R S : A -> A -> Prop) (xs ys : list A) :
  Forall2 R xs ys -> Forall2 S xs ys ->
  Forall2 (fun x y => R x y /\ S x y) xs ys.
Proof.
  intro H. induction H; intro H'; inversion H'; subst; constructor; auto.
Qed.

End KeepsFacts.

(** Over any sequence of reconciliation calls the stored list keeps its
    length and order, and every campaign keeps its id, name, dates,
    recording flag and roster: a call writes the status field and nothing
    else. *)
Theorem reconciler_writes_status_only
  (tz : Z) (calls : list Reconciler.Call) (store : Utils.Store) :
  Forall2 Keeps.sameButStatus
    (Utils.getCampaigns store)
    (Utils.getCampaigns (Reconciler.runCalls tz calls store)).
Proof. apply KeepsFacts.runCalls_sameButStatus. Qed.

(** Two passes at one clock value reach a fixed point: a third pass at that
    clock value, by either reconciler, returns the list it was given,
    reports no change and leaves the store as it is. *)
Theorem reconciler_settles_in_two_passes
  (tz now : Z) (first second : Reconciler.Call) (store : Utils.Store) :
  (first = Reconciler.UtilsCall now \/ first = Reconciler.HomePageCall now) ->
  (second = Reconciler.UtilsCall now \/ second = Reconciler.HomePageCall now) ->
  let store2 := Reconciler.runCalls tz [first; second] store in
  Utils.updateCampaignStatuses tz now store2
  = (Utils.getCampaigns store2, false, store2)
  /\ HomePage.queryFn tz now store2
     = (Utils.getCampaigns store2, false, store2).
Proof.
  intros H1 H2 store2.
  assert (Hcs : Utils.getCampaigns store2
                = map fst (map (Utils.statusStep tz now)
                    (map fst (map (Utils.statusStep tz now)
                       (Utils.getCampaigns store))))).
  { unfold store2, Reconciler.runCalls. cbn [fold_left].
    rewrite !ReconcilerFacts.runCall_campaigns.
    destruct H1 as [-> | ->], H2 as [-> | ->]; reflexivity. }
  assert (Hflag : existsb snd (map (Utils.statusStep tz now)
                                   (Utils.getCampaigns store2)) = false).
  { rewrite Hcs, ReconcilerFacts.second_pass_flag.
    apply KeepsFacts.overdueWaiting_after_pass. }
  assert (Hupd : Utils.updateCampaignStatuses tz now store2
                 = (Utils.getCampaigns store2, false, store2)).
  { rewrite ReconcilerFacts.update_unfold. cbv zeta. rewrite Hflag.
    rewrite (ReconcilerFacts.pass_unchanged _ _ _ Hflag). reflexivity. }
  split; [exact Hupd|].
  rewrite ReconcilerFacts.homePage_queryFn. exact Hupd.
Qed.

(** The two passes of the campaign of [Samples] at noon. *)
Lemma reconciler_settles_in_two_passes_witness :
  let store2 := Reconciler.runCalls 0
                  [Reconciler.HomePageCall Samples.noon;
                   Reconciler.UtilsCall Samples.noon]
                  (Some [Samples.q1]) in
  Utils.updateCampaignStatuses 0 Samples.noon store2
  = (Utils.getCampaigns store2, false, store2)
  /\ HomePage.queryFn 0 Samples.noon store2
     = (Utils.getCampaigns store2, false, store2).
Proof.
  apply (reconciler_settles_in_two_passes 0 Samples.noon
           (Reconciler.HomePageCall Samples.noon)
           (Reconciler.UtilsCall Samples.noon) (Some [Samples.q1])).
  - right. reflexivity.
  - left. reflexivity.
Defined.

(** A finished campaign, a waiting campaign whose start date does not parse
    and an active campaign whose end date does not parse are left exactly as
    they are by every sequence of reconciliation calls, at any clock values:
    the comparison with an Invalid Date is false. *)
Theorem reconciler_never_changes_settled
  (tz : Z) (calls : list Reconciler.Call) (store : Utils.Store)
  (k : nat) (c : Campaign.t) :
  nth_error (Utils.getCampaigns store) k = Some c ->
  Keeps.settled tz c = true ->
  nth_error (Utils.getCampaigns (Reconciler.runCalls tz calls store)) k
  = Some c.
Proof.
  revert store. induction calls as [|call calls IH]; intros store Hk Hs.
  - exact Hk.
  - cbn. apply IH; [|exact Hs]. apply KeepsFacts.runCall_settled; assumption.
Qed.

(** An active campaign whose end date is the text "soon", through two calls
    long after its start. *)
Lemma reconciler_never_changes_settled_witness :
  nth_error
    (Utils.getCampaigns
       (Reconciler.runCalls 0
          [Reconciler.UtilsCall Samples.noon;
           Reconciler.HomePageCall DateVocab.year10000]
          (Some MoreSamples.twoCampaigns))) 1
  = Some MoreSamples.brokenEnd.
Proof.
  apply (reconciler_never_changes_settled 0 _ (Some MoreSamples.twoCampaigns)
           1 MoreSamples.brokenEnd).
  - reflexivity.
  - vm_compute. reflexivity.
Defined.

(** The three status counters of the summary add up to the number of
    campaigns; and along any sequence of reconciliation calls the number of
    people to contact stays the same, the count of waiting campaigns never
    grows and the count of finished campaigns never shrinks. *)
Theorem campaignStats_counts
  (tz : Z) (calls : list Reconciler.Call) (store : Utils.Store) :
  let before := HomePage.campaignStats (Utils.getCampaigns store) in
  let after := HomePage.campaignStats
                 (Utils.getCampaigns (Reconciler.runCalls tz calls store)) in
  (HomePage.activeCampaigns before + HomePage.finishedCampaigns before
   + HomePage.waitingCampaigns before
   = List.length (Utils.getCampaigns store))%nat
  /\ HomePage.totalPeople after = HomePage.totalPeople before
  /\ (HomePage.waitingCampaigns after <= HomePage.waitingCampaigns before)%nat
  /\ (HomePage.finishedCampaigns before <= HomePage.finishedCampaigns after)%nat.
Proof.
  intros before after. split.
  - unfold before, HomePage.campaignStats, HomePage.countStatus.
    cbn [HomePage.activeCampaigns HomePage.finishedCampaigns
         HomePage.waitingCampaigns].
    clear before after.
    induction (Utils.getCampaigns store) as [|c cs IH]; [reflexivity|].
    cbn [filter List.length].
    destruct (Campaign.status c); cbn [CampaignStatus_eqb List.length]; lia.
  - apply (KeepsFacts.stats_along (Utils.getCampaigns store)).
    apply KeepsFacts.Forall2_and.
    + apply KeepsFacts.runCalls_sameButStatus.
    + apply ReconcilerFacts.runCalls_advanced.
Qed.

(* ------------------------------------------------------------------ *)
(** ** Dates: what [parseDate] accepts and what [formatDate] prints *)

Module CalendarFacts.

Import Time.

(** The day of the era determines the year of the era. *)
Lemma yearOfEra_inv (yoe doy : Z) :
  0 <= yoe < 400 -> 0 <= doy <= 365 ->
  (doy = 365 ->
   (yoe + 1) mod 4 = 0 /\ ((yoe + 1) mod 100 <> 0 \/ yoe = 399)) ->
  let doe := yoe * 365 + yoe / 4 - yoe / 100 + doy in
  0 <= doe < 146097
  /\ (doe - doe / 1460 + doe / 36524 - doe / 146096) / 365 = yoe.
Proof.
  intros Hy Hd Hl doe. subst doe.
  assert (0 <= yoe / 100 <= 3) by (Z.div_mod_to_equations; lia).
  split; Z.div_mod_to_equations; lia.
Qed.

(** The day of the March-based year determines month and day. *)
Lemma monthOfYear_inv (mp d : Z) :
  0 <= mp <= 11 -> 1 <= d ->
  d <= (153 * (mp + 1) + 2) / 5 - (153 * mp + 2) / 5 ->
  let doy := (153 * mp + 2) / 5 + d - 1 in
  (5 * doy + 2) / 153 = mp.
Proof.
  intros Hmp Hd Hlen doy. subst doy. Z.div_mod_to_equations. lia.
Qed.

Lemma isLeapYear_inv (y : Z) :
  isLeapYear y = true ->
  y mod 4 = 0 /\ (y mod 100 <> 0 \/ y mod 400 = 0).
Proof.
  unfold isLeapYear. intro H. apply orb_true_iff in H as [H | H].
  - apply andb_true_iff in H as [H4 H100].
    apply Z.eqb_eq in H4. apply negb_true_iff, Z.eqb_neq in H100. auto.
  - apply Z.eqb_eq in H. split; [|right; exact H].
    Z.div_mod_to_equations. lia.
Qed.

(** [civilFromDays] gives back the date [daysFromCivil] was computed from. *)
Lemma civilFromDays_daysFromCivil (y m d : Z) :
  1 <= m <= 12 -> 1 <= d <= daysInMonth y (m - 1) ->
  civilFromDays (daysFromCivil y m d) = (y, m, d).
Proof.
  intros Hm Hd.
  set (y' := if m <=? 2 then y - 1 else y).
  set (mp := if m <=? 2 then m + 9 else m - 3).
  assert (Hy' : y = if m <=? 2 then y' + 1 else y')
    by (subst y'; destruct (m <=? 2); lia).
  assert (Hmp : 0 <= mp <= 11)
    by (subst mp; destruct (m <=? 2) eqn:E;
        [apply Z.leb_le in E | apply Z.leb_gt in E]; lia).
  assert (Hm' : m = if mp <? 10 then mp + 3 else mp - 9).
  { subst mp. destruct (m <=? 2) eqn:E;
      [apply Z.leb_le in E | apply Z.leb_gt in E].
    - assert (E' : (m + 9 <? 10) = false) by (apply Z.ltb_ge; lia).
      rewrite E'. lia.
    - assert (E' : (m - 3 <? 10) = true) by (apply Z.ltb_lt; lia).
      rewrite E'. lia. }
  set (era := y' / 400).
  set (yoe := y' - era * 400).
  assert (Hyoe : 0 <= yoe < 400)
    by (subst yoe era; Z.div_mod_to_equations; lia).
  (* the length of the month, read off the table of [daysInMonth] *)
  assert (Hlen : d <= (153 * (mp + 1) + 2) / 5 - (153 * mp + 2) / 5
                 /\ (mp = 11 -> d <= 29 /\ (d = 29 -> isLeapYear y = true))).
  { revert Hd. unfold daysInMonth.
    assert (Hcases : m = 1 \/ m = 2 \/ m = 3 \/ m = 4 \/ m = 5 \/ m = 6
                     \/ m = 7 \/ m = 8 \/ m = 9 \/ m = 10 \/ m = 11 \/ m = 12)
      by lia.
    subst mp.
    repeat (destruct Hcases as [-> | Hcases];
            [ cbn; destruct (isLeapYear y); intros;
              (split;
               [lia
               | intros;
                 first [lia
                       | split; [lia | intros; first [lia | reflexivity]]]])
            |]).
    subst m. cbn. intros. split; [lia | intros; lia]. }
  destruct Hlen as [Hlen Hfeb].
  set (doy := (153 * mp + 2) / 5 + d - 1).
  assert (Hdoy : 0 <= doy <= 365)
    by (subst doy; Z.div_mod_to_equations; lia).
  assert (Hleap : doy = 365 ->
                  (yoe + 1) mod 4 = 0
                  /\ ((yoe + 1) mod 100 <> 0 \/ yoe = 399)).
  { intro E.
    assert (Hmp11 : mp = 11) by (subst doy; Z.div_mod_to_equations; lia).
    destruct (Hfeb Hmp11) as [_ Hl].
    assert (Hd29 : d = 29) by (subst doy; Z.div_mod_to_equations; lia).
    apply Hl, isLeapYear_inv in Hd29.
    assert (Hy1 : y = yoe + 1 + era * 400).
    { rewrite Hy'. rewrite Hmp11 in Hm'.
      assert (E2 : (m <=? 2) = true) by (apply Z.leb_le; cbn in Hm'; lia).
      rewrite E2. subst yoe. lia. }
    rewrite Hy1 in Hd29. revert Hd29. clear -Hyoe.
    intros [H4 H100]. Z.div_mod_to_equations. lia. }
  pose proof (yearOfEra_inv yoe doy Hyoe Hdoy Hleap) as Hyear.
  cbv zeta in Hyear.
  set (doe := yoe * 365 + yoe / 4 - yoe / 100 + doy) in *.
  destruct Hyear as (Hdoe & Hyoe').
  pose proof (monthOfYear_inv mp d Hmp (proj1 Hd) Hlen) as Hmonth.
  cbv zeta in Hmonth. fold doy in Hmonth.
  assert (Hz : daysFromCivil y m d = era * 146097 + doe - 719468)
    by reflexivity.
  rewrite Hz. unfold civilFromDays.
  replace (era * 146097 + doe - 719468 + 719468)
    with (era * 146097 + doe) by lia.
  assert (Eera : (era * 146097 + doe) / 146097 = era)
    by (Z.div_mod_to_equations; lia).
  rewrite Eera.
  replace (era * 146097 + doe - era * 146097) with doe by lia.
  rewrite Hyoe'. fold doe.
  replace (doe - (365 * yoe + yoe / 4 - yoe / 100)) with doy
    by (subst doe; lia).
  rewrite Hmonth, <- Hm'.
  replace (yoe + era * 400) with y' by (subst yoe; lia).
  rewrite <- Hy'. f_equal. subst doy. lia.
Qed.

(** The local calendar fields of a time built by [makeLocal]. *)
Lemma makeLocal_fields (tz y m0 d h mi t : Z) :
  0 <= m0 <= 11 -> 1 <= d <= daysInMonth y m0 ->
  0 <= h <= 23 -> 0 <= mi <= 59 ->
  makeLocal tz y m0 d h mi = Some t ->
  getFullYear tz t = y /\ getMonth tz t = m0 /\ getDate tz t = d
  /\ getHours tz t = h /\ getMinutes tz t = mi
  /\ t mod msPerMinute = 0 /\ - maxTime <= t <= maxTime.
Proof.
  intros Hm Hd Hh Hmi. unfold makeLocal, timeClip.
  set (days := daysFromCivil y (m0 + 1) d).
  set (v := days * msPerDay + h * msPerHour + mi * msPerMinute
            + tz * msPerMinute).
  destruct (Z.abs v <=? maxTime) eqn:E; [|discriminate].
  intro H. assert (Ht : t = v) by congruence. clear H.
  apply Z.leb_le in E. rewrite <- Ht in E.
  assert (Hl : localTime tz t
               = days * msPerDay + h * msPerHour + mi * msPerMinute)
    by (unfold localTime; rewrite Ht; unfold v; lia).
  assert (Hday : localTime tz t / msPerDay = days)
    by (rewrite Hl; unfold msPerDay, msPerHour, msPerMinute;
        Z.div_mod_to_equations; lia).
  unfold getFullYear, getMonth, getDate, getHours, getMinutes.
  rewrite Hday. unfold days.
  rewrite civilFromDays_daysFromCivil
    by (try lia; replace (m0 + 1 - 1) with m0 by lia; exact Hd).
  repeat split; try lia.
  - rewrite Hl. unfold msPerDay, msPerHour, msPerMinute.
    Z.div_mod_to_equations. lia.
  - rewrite Hl. unfold msPerDay, msPerHour, msPerMinute.
    Z.div_mod_to_equations. lia.
  - rewrite Ht. unfold v, msPerDay, msPerHour, msPerMinute.
    Z.div_mod_to_equations. lia.
Qed.

End CalendarFacts.

Module ParseFacts.

Import Time DateFns DateVocab.

Lemma takeDigits_spec (n : nat) (s ds rest : jsstring) :
  takeDigits n s = (ds, rest) ->
  (List.length ds <= n)%nat /\ forallb isDigit ds = true /\ s = ds ++ rest.
Proof.
  revert s ds rest. induction n as [|n IH]; intros s ds rest.
  - destruct s; cbn [takeDigits]; intro H; inversion H; subst;
      repeat split; cbn; lia.
  - destruct s as [|c r]; cbn [takeDigits].
    + intro H; inversion H; subst. repeat split; cbn; lia.
    + destruct (isDigit c) eqn:Ec.
      * destruct (takeDigits n r) as [ds' rest'] eqn:E.
        intro H; inversion H; subst.
        destruct (IH _ _ _ E) as (Hl & Hd & Hs).
        cbn [List.length forallb app]. rewrite Ec, Hd, Hs.
        repeat split; auto; lia.
      * intro H; inversion H; subst. repeat split; cbn; lia.
Qed.

Lemma isDigit_value (c : N) : isDigit c = true -> 0 <= digitValue c <= 9.
Proof.
  unfold isDigit, digitValue. intro H.
  apply andb_true_iff in H as [H1 H2].
  apply N.leb_le in H1, H2. lia.
Qed.

Lemma parseInt_bound (ds : jsstring) (acc : Z) :
  forallb isDigit ds = true -> 0 <= acc ->
  acc * 10 ^ Z.of_nat (List.length ds)
  <= fold_left (fun a c => a * 10 + digitValue c) ds acc
  < (acc + 1) * 10 ^ Z.of_nat (List.length ds).
Proof.
  revert acc. induction ds as [|c ds IH]; intros acc Hd Hacc.
  - cbn. lia.
  - cbn [forallb] in Hd. apply andb_true_iff in Hd as [Hc Hds].
    apply isDigit_value in Hc. cbn [fold_left List.length].
    specialize (IH (acc * 10 + digitValue c) Hds ltac:(lia)).
    rewrite Nat2Z.inj_succ, Z.pow_succ_r by lia.
    assert (0 < 10 ^ Z.of_nat (List.length ds)) by (apply Z.pow_pos_nonneg; lia).
    nia.
Qed.

(** A numeric token of width [n] reads a number below [10 ^ n]. *)
Lemma parseNDigits_bound (n : nat) (s rest : jsstring) (v : Z) :
  parseNDigits n s = Some (v, rest) -> 0 <= v < 10 ^ Z.of_nat n.
Proof.
  unfold parseNDigits. destruct (takeDigits n s) as [ds r] eqn:E.
  destruct (takeDigits_spec _ _ _ _ E) as (Hl & Hd & _).
  destruct ds as [|c ds]; [discriminate|].
  intro H. inversion H; subst. unfold parseInt.
  pose proof (parseInt_bound (c :: ds) 0 Hd ltac:(lia)) as Hb.
  assert (10 ^ Z.of_nat (List.length (c :: ds)) <= 10 ^ Z.of_nat n)
    by (apply Z.pow_le_mono_r; lia).
  lia.
Qed.

(** What an accepted string was read as. *)
Lemma parse_inv (tz : Z) (s : jsstring) (t : Z) :
  parse tz s = Some t ->
  exists dd MM yyyy HH mm,
    1 <= yyyy <= 9999 /\ 0 <= MM - 1 <= 11
    /\ 1 <= dd <= daysInMonth yyyy (MM - 1)
    /\ 0 <= HH <= 23 /\ 0 <= mm <= 59
    /\ makeLocal tz yyyy (MM - 1) dd HH mm = Some t.
Proof.
  unfold parse.
  destruct (parseNDigits 2 s) as [[dd s1]|]; [|discriminate].
  destruct (expect 47 s1) as [s2|]; [|discriminate].
  destruct (parseNDigits 2 s2) as [[MM s3]|]; [|discriminate].
  destruct (expect 47 s3) as [s4|]; [|discriminate].
  destruct (parseNDigits 4 s4) as [[yyyy s5]|] eqn:Ey; [|discriminate].
  destruct (expect 32 s5) as [s6|]; [|discriminate].
  destruct (parseNDigits 2 s6) as [[HH s7]|]; [|discriminate].
  destruct (expect 58 s7) as [s8|]; [|discriminate].
  destruct (parseNDigits 2 s8) as [[mm rest]|]; [|discriminate].
  destruct (forallb isWhiteSpace rest); cbn [negb]; [|discriminate].
  destruct (yyyy >? 0) eqn:E0; cbn [negb]; [|discriminate].
  destruct ((0 <=? MM - 1) && (MM - 1 <=? 11)) eqn:E1; cbn [negb];
    [|discriminate].
  destruct ((1 <=? dd) && (dd <=? daysInMonth yyyy (MM - 1))) eqn:E2;
    cbn [negb]; [|discriminate].
  destruct ((0 <=? HH) && (HH <=? 23)) eqn:E3; cbn [negb]; [|discriminate].
  destruct ((0 <=? mm) && (mm <=? 59)) eqn:E4; cbn [negb]; [|discriminate].
  intro H. exists dd, MM, yyyy, HH, mm.
  apply parseNDigits_bound in Ey. change (10 ^ Z.of_nat 4) with 10000 in Ey.
  apply Z.gtb_lt in E0.
  apply andb_true_iff in E1 as [E1a E1b].
  apply andb_true_iff in E2 as [E2a E2b].
  apply andb_true_iff in E3 as [E3a E3b].
  apply andb_true_iff in E4 as [E4a E4b].
  apply Z.leb_le in E1a, E1b, E2a, E2b, E3a, E3b, E4a, E4b.
  repeat split; try lia. exact H.
Qed.

(** The text [format] prints for a year of one to four digits. *)
Lemma format_shape (tz t : Z) :
  1 <= getFullYear tz t <= 9999 ->
  exists a b c d e f g h i j k l,
    format tz (Some t)
    = Some [a; b; 47%N; c; d; 47%N; e; f; g; h; 32%N; i; j; 58%N; k; l]
    /\ forallb isDigit [a; b; c; d; e; f; g; h; i; j; k; l] = true.
Proof.
  intro Hyear. unfold format.
  unfold getFullYear, getMonth, getDate, getHours, getMinutes in *.
  set (lt := localTime tz t) in *.
  pose proof (TimeFacts.civilFromDays_spec (lt / msPerDay)) as Hcivil.
  destruct (civilFromDays (lt / msPerDay)) as [[y m] d].
  destruct Hcivil as (Hm & Hd & _).
  pose proof (TimeFacts.localTime_split lt) as Hsplit. cbv zeta in Hsplit.
  set (hh := lt mod msPerDay / msPerHour) in *.
  set (mi := lt mod msPerHour / msPerMinute) in *.
  destruct Hsplit as (Hh & Hmi & _).
  assert (Hd31 : d <= 31).
  { revert Hd. unfold daysInMonth.
    repeat match goal with
           | |- context [if ?b then _ else _] => destruct b
           end; lia. }
  assert (Ey : (y >? 0) = true) by (apply Z.gtb_lt; lia).
  rewrite Ey.
  rewrite !DateFnsFacts.addLeadingZeros_2, DateFnsFacts.addLeadingZeros_4
    by lia.
  do 12 eexists. split; [reflexivity|].
  cbn [forallb].
  repeat match goal with
         | |- context [isDigit (digitCode ?x)] =>
             rewrite (proj1 (DateFnsFacts.digitCode_cases x
                               ltac:(Z.div_mod_to_equations; lia)))
         end.
  reflexivity.
Qed.

End ParseFacts.

(** Whatever string [parseDate] accepts, the date it returns is a valid time
    value on a whole minute whose local year lies between 1 and 9999;
    [formatDate] prints that date, and [parseDate] reads the printed text
    back as the same date. A stored date that parses therefore means the
    same instant however often it is re-saved. *)
Theorem parseDate_result_is_stable (tz : Z) (dateString : jsstring) (t : Z) :
  Utils.parseDate tz dateString = Some t ->
  t mod Time.msPerMinute = 0
  /\ - Time.maxTime <= t <= Time.maxTime
  /\ 1 <= Time.getFullYear tz t <= 9999
  /\ exists printed,
       Utils.formatDate tz (Some t) = Some printed
       /\ Utils.parseDate tz printed = Some t.
Proof.
  intro H. apply ParseFacts.parse_inv in H
    as (dd & MM & yyyy & HH & mm & Hy & HM & Hd & Hh & Hm & Hmk).
  destruct (CalendarFacts.makeLocal_fields tz yyyy (MM - 1) dd HH mm t
              HM Hd Hh Hm Hmk) as (Ey & _ & _ & _ & _ & Hmod & Hrange).
  repeat split; try lia.
  destruct (DateFnsFacts.parse_format tz t Hrange ltac:(lia))
    as (printed & Hf & Hp).
  exists printed. split; [exact Hf|].
  unfold Utils.parseDate. rewrite Hp. f_equal.
  unfold Time.msPerMinute in *. Z.div_mod_to_equations. lia.
Qed.

(** A date written with one-digit fields and trailing blanks, on a host
    three hours behind UTC. *)
Lemma parseDate_result_is_stable_witness :
  1704121500000 mod Time.msPerMinute = 0
  /\ - Time.maxTime <= 1704121500000 <= Time.maxTime
  /\ 1 <= Time.getFullYear 180 1704121500000 <= 9999
  /\ exists printed,
       Utils.formatDate 180 (Some 1704121500000) = Some printed
       /\ Utils.parseDate 180 printed = Some 1704121500000.
Proof.
  apply (parseDate_result_is_stable 180 (lit "1/1/2024 12:5  ")).
  vm_compute. reflexivity.
Defined.

(** For a valid date whose local year has one to four digits, [formatDate]
    prints exactly sixteen code units: two digits, a slash, two digits, a
    slash, four digits, a space, two digits, a colon, two digits. *)
Theorem formatDate_prints_sixteen_code_units (tz t : Z) :
  1 <= Time.getFullYear tz t <= 9999 ->
  exists a b c d e f g h i j k l,
    Utils.formatDate tz (Some t)
    = Some [a; b; 47%N; c; d; 47%N; e; f; g; h; 32%N; i; j; 58%N; k; l]
    /\ forallb isDigit [a; b; c; d; e; f; g; h; i; j; k; l] = true.
Proof. exact (ParseFacts.format_shape tz t). Qed.

(** 2024-02-29T10:00:12.345Z on a host three hours behind UTC. *)
Lemma formatDate_prints_sixteen_code_units_witness :
  exists a b c d e f g h i j k l,
    Utils.formatDate 180 (Some 1709200812345)
    = Some [a; b; 47%N; c; d; 47%N; e; f; g; h; 32%N; i; j; 58%N; k; l]
    /\ forallb isDigit [a; b; c; d; e; f; g; h; i; j; k; l] = true.
Proof.
  apply (formatDate_prints_sixteen_code_units 180 1709200812345).
  vm_compute. split; congruence.
Defined.

(* ------------------------------------------------------------------ *)
(** ** Phone input *)

(** [formatPhoneNumber] looks at the digits typed and nothing else, and the
    text it returns shows the first ten of them. *)
Theorem formatPhoneNumber_shows_first_ten_digits (value : jsstring) :
  stripNonDigits (PersonInput.formatPhoneNumber value)
  = firstn 10 (stripNonDigits value)
  /\ PersonInput.formatPhoneNumber value
     = PersonInput.formatPhoneNumber (stripNonDigits value).
Proof.
  split.
  - rewrite PersonInputFacts.formatPhoneNumber_layout.
    rewrite PersonInputFacts.stripNonDigits_layout
      by apply PersonInputFacts.stripNonDigits_digits.
    destruct (List.length (stripNonDigits value) <? 7)%nat eqn:E;
      [|reflexivity].
    apply Nat.ltb_lt in E. symmetry. apply firstn_all2. lia.
  - rewrite !PersonInputFacts.formatPhoneNumber_layout. f_equal.
    symmetry. apply PersonInputFacts.filter_id,
      PersonInputFacts.stripNonDigits_digits.
Qed.

(** What the phone input checks after formatting: the formatted text passes
    [isValidPhoneNumber] exactly when at least seven digits were typed. The
    upper bound of fifteen digits never rejects, since at most ten digits
    are kept; and the formatted text is at most fourteen code units long. *)
Theorem formatted_phone_valid_iff_seven_digits (value : jsstring) :
  PersonInput.isValidPhoneNumber (PersonInput.formatPhoneNumber value)
  = (7 <=? List.length (stripNonDigits value))%nat
  /\ (List.length (PersonInput.formatPhoneNumber value) <= 14)%nat.
Proof.
  split.
  - unfold PersonInput.isValidPhoneNumber.
    rewrite PersonInputFacts.formatPhoneNumber_layout.
    rewrite PersonInputFacts.stripNonDigits_layout
      by apply PersonInputFacts.stripNonDigits_digits.
    destruct (List.length (stripNonDigits value) <? 7)%nat eqn:E.
    + apply Nat.ltb_lt in E.
      assert (E7 : (7 <=? List.length (stripNonDigits value))%nat = false)
        by (apply Nat.leb_gt; lia).
      rewrite E7. reflexivity.
    + apply Nat.ltb_ge in E. rewrite length_firstn.
      assert (E7 : (7 <=? List.length (stripNonDigits value))%nat = true)
        by (apply Nat.leb_le; lia).
      rewrite E7. apply andb_true_iff. split; apply Nat.leb_le; lia.
  - rewrite PersonInputFacts.formatPhoneNumber_layout. unfold Roster.layout.
    set (ds := stripNonDigits value).
    destruct (List.length ds <? 4)%nat eqn:E4;
      [apply Nat.ltb_lt in E4; lia|].
    destruct (List.length ds <? 7)%nat eqn:E7;
      [apply Nat.ltb_lt in E7|];
      unfold slice, sliceFrom; rewrite !length_app, ?length_firstn,
        ?length_skipn; cbn [lit list_ascii_of_string map List.length]; lia.
Qed.

(* ------------------------------------------------------------------ *)
(** ** The campaign form: dates, submit, the mutation *)

Module FormFacts.

Lemma formatDate_inv (tz : Z) (date : option Z) (text : jsstring) :
  Utils.formatDate tz date = Some text -> exists t, date = Some t.
Proof. destruct date as [t|]; [eauto | discriminate]. Qed.

Lemma formatDate_some (tz t : Z) :
  exists text, Utils.formatDate tz (Some t) = Some text.
Proof. eexists. reflexivity. Qed.

(** The window a valid form describes, for a campaign not yet finished. *)
Lemma datesValid_window (now : Z) (status : CampaignStatus)
  (startDate : option (option Z)) (e s : Z) :
  CampaignForm.datesValid now status startDate (Some (Some e)) = true ->
  status <> Finalizada ->
  match status with
  | Activa => Some now
  | _ => CampaignForm.orNow startDate now
  end = Some s ->
  now <= s < e /\ (status = Activa -> s = now).
Proof.
  unfold CampaignForm.datesValid, CampaignForm.validateDates,
    CampaignForm.orNow.
  destruct status; [| congruence |].
  - cbn [CampaignForm.leDate]. intros H _ Hs. inversion Hs; subst.
    apply andb_true_iff in H as [_ H]. apply negb_true_iff, Z.leb_gt in H.
    split; [lia | reflexivity].
  - destruct startDate as [[s0|]|]; cbn [CampaignForm.ltDate CampaignForm.leDate];
      intros H _ Hs; inversion Hs; subst;
      apply andb_true_iff in H as [H1 H2];
      apply negb_true_iff in H1, H2.
    + apply Z.ltb_ge in H1. apply Z.leb_gt in H2. split; [lia | discriminate].
    + apply Z.leb_gt in H2. split; [lia | discriminate].
Qed.

Lemma validateDates_waiting (now d e : Z) :
  now <= d -> d < e ->
  CampaignForm.validateDates now EnEspera (Some (Some d)) (Some (Some e))
  = (false, false).
Proof.
  intros H1 H2. unfold CampaignForm.validateDates, CampaignForm.orNow,
    CampaignForm.ltDate, CampaignForm.leDate.
  rewrite (proj2 (Z.ltb_ge d now)), (proj2 (Z.leb_gt e d)) by lia.
  reflexivity.
Qed.

End FormFacts.

(** What a submit of the form stores for a campaign that is waiting or
    active: the printed forms of a start instant [s] and an end instant [e].
    The form is checked against one reading of the clock, [checkedAt], and
    the campaign is built from a later one, [now]. A waiting campaign with
    a start date picked keeps it, and [checkedAt <= s < e]. An active
    campaign, and a waiting one with no start date, start at [now], whatever
    start date the form held; their end is only known to be after
    [checkedAt]. An end date that is [null] is not checked at all and is
    stored as the epoch. *)
Theorem handleSubmit_stores_ordered_window
  (tz checkedAt now : Z) (newId : jsstring) (campaign : option Campaign.t)
  (st : CampaignForm.State) (store store' : Utils.Store)
  (nc : Campaign.t) (toast : Toast) :
  CampaignForm.handleSubmit tz checkedAt now newId campaign st store
  = CampaignForm.Submitted nc store' toast ->
  CampaignForm.status st <> Finalizada ->
  exists s e,
    Utils.formatDate tz (Some s) = Some (Campaign.startDate nc)
    /\ Utils.formatDate tz (Some e) = Some (Campaign.endDate nc)
    /\ Campaign.status nc = CampaignForm.status st
    /\ (CampaignForm.endDate st = None -> e = 0)
    /\ (CampaignForm.endDate st <> None ->
        CampaignForm.endDate st = Some (Some e) /\ checkedAt < e)
    /\ (CampaignForm.status st = EnEspera ->
        CampaignForm.startDate st <> None ->
        CampaignForm.startDate st = Some (Some s)
        /\ checkedAt <= s
        /\ (CampaignForm.endDate st <> None -> s < e))
    /\ (CampaignForm.status st = Activa
        \/ CampaignForm.startDate st = None -> s = now).
Proof.
  unfold CampaignForm.handleSubmit.
  destruct (CampaignForm.isFormValid checkedAt st) eqn:Hvalid; cbn [negb];
    [|discriminate].
  set (actual := match CampaignForm.status st with
                 | Activa => Some now
                 | _ => CampaignForm.orNow (CampaignForm.startDate st) now
                 end).
  set (finish := match CampaignForm.endDate st with
                 | Some e => e
                 | None => Some 0
                 end).
  destruct (match match campaign with
                  | Some c => Campaign.createdAt c
                  | None => []
                  end with
            | [] => _
            | _ => _
            end) as [created|]; [|discriminate].
  destruct (Utils.formatDate tz actual) as [start|] eqn:Es; [|discriminate].
  destruct (Utils.formatDate tz finish) as [fin|] eqn:Ee; [|discriminate].
  intros H Hst. inversion H; subst. cbn [Campaign.startDate Campaign.endDate
    Campaign.status].
  destruct (FormFacts.formatDate_inv _ _ _ Es) as [s Hs].
  destruct (FormFacts.formatDate_inv _ _ _ Ee) as [e He].
  exists s, e.
  split; [rewrite <- Hs; exact Es|]. split; [rewrite <- He; exact Ee|].
  split; [reflexivity|].
  unfold CampaignForm.isFormValid in Hvalid.
  destruct (trimIsEmpty _ || _); [discriminate|].
  unfold CampaignForm.datesValid, CampaignForm.validateDates in Hvalid.
  subst actual finish. clear Es Ee H.
  destruct (CampaignForm.status st) eqn:Estatus; [| congruence |];
    destruct (CampaignForm.startDate st) as [[d|]|] eqn:Estart;
    destruct (CampaignForm.endDate st) as [[e0|]|] eqn:Eend;
    cbn [CampaignForm.orNow CampaignForm.ltDate CampaignForm.leDate
         negb andb] in Hvalid, Hs;
    try discriminate;
    inversion Hs; inversion He; subst;
    try (apply andb_true_iff in Hvalid as [Hv1 Hv2]);
    repeat match goal with
           | Hx : negb _ = true |- _ => apply negb_true_iff in Hx
           | Hx : (_ <? _) = false |- _ => apply Z.ltb_ge in Hx
           | Hx : (_ <=? _) = false |- _ => apply Z.leb_gt in Hx
           end;
    repeat split; intros; try congruence; try lia;
    repeat match goal with
           | Hx : _ \/ _ |- _ => destruct Hx
           end; try congruence; try lia.
Qed.

(** The filled-in create form of [MoreSamples], checked and submitted at
    09:30. *)
Lemma handleSubmit_stores_ordered_window_witness :
  exists s e,
    Utils.formatDate 0 (Some s) = Some (Campaign.startDate Samples.q1)
    /\ Utils.formatDate 0 (Some e) = Some (Campaign.endDate Samples.q1)
    /\ Campaign.status Samples.q1
       = CampaignForm.status MoreSamples.formFilled
    /\ (CampaignForm.endDate MoreSamples.formFilled = None -> e = 0)
    /\ (CampaignForm.endDate MoreSamples.formFilled <> None ->
        CampaignForm.endDate MoreSamples.formFilled = Some (Some e)
        /\ RosterSamples.morning < e)
    /\ (CampaignForm.status MoreSamples.formFilled = EnEspera ->
        CampaignForm.startDate MoreSamples.formFilled <> None ->
        CampaignForm.startDate MoreSamples.formFilled = Some (Some s)
        /\ RosterSamples.morning <= s
        /\ (CampaignForm.endDate MoreSamples.formFilled <> None -> s < e))
    /\ (CampaignForm.status MoreSamples.formFilled = Activa
        \/ CampaignForm.startDate MoreSamples.formFilled = None ->
        s = RosterSamples.morning).
Proof.
  apply (handleSubmit_stores_ordered_window 0 RosterSamples.morning
           RosterSamples.morning
           (lit "c1") (Some (Campaign.withPeople Samples.q1 []))
           MoreSamples.formFilled None (Some []) Samples.q1
           CampanaActualizada).
  - vm_compute. reflexivity.
  - discriminate.
Defined.

(** The window can close between the two readings of the clock: the form of
    [MoreSamples] set to Activa, checked one second before its end date and
    built one second after it, is saved with a start date that is not
    before its end date. *)
Lemma handleSubmit_can_store_start_at_end :
  let st := CampaignForm.setStatus Activa MoreSamples.formFilled in
  CampaignForm.endDate st = Some (Some 1704106800000)
  /\ CampaignForm.isFormValid 1704106799000 st = true
  /\ CampaignForm.handleSubmit 0 1704106799000 1704106801000 (lit "c1")
       None st None
     = CampaignForm.Submitted
         (Campaign.mk (lit "c1") (lit "Q1 Outreach")
            (lit "01/01/2024 11:00") (lit "01/01/2024 11:00")
            (lit "01/01/2024 11:00") false Activa [Samples.ana])
         (Some [Campaign.mk (lit "c1") (lit "Q1 Outreach")
                  (lit "01/01/2024 11:00") (lit "01/01/2024 11:00")
                  (lit "01/01/2024 11:00") false Activa [Samples.ana]])
         CampanaCreada.
Proof. vm_compute. repeat split; reflexivity. Qed.

(** The submit button and the handler look at different clocks: the
    [disabled] flag was computed at the render that followed the last change
    of the form ([renderedAt]), the handler checks the form again at the
    click ([checkedAt]). With the button enabled and the two dates of the
    form valid dates, the dates were in order at [renderedAt], and the
    handler never throws: it saves, the store becoming what the mutation
    wrote, when the dates are still in order at [checkedAt], and returns
    without a word when they are not. *)
Theorem enabled_submit_saves_while_dates_hold
  (tz renderedAt checkedAt now : Z) (newId : jsstring)
  (campaign : option Campaign.t)
  (st : CampaignForm.State) (store : Utils.Store) :
  CampaignForm.isSubmitDisabled renderedAt st = false ->
  CampaignForm.startDate st <> Some None ->
  CampaignForm.endDate st <> Some None ->
  CampaignForm.datesValid renderedAt (CampaignForm.status st)
    (CampaignForm.startDate st) (CampaignForm.endDate st) = true
  /\ (CampaignForm.datesValid checkedAt (CampaignForm.status st)
        (CampaignForm.startDate st) (CampaignForm.endDate st) = true ->
      exists nc,
        CampaignForm.handleSubmit tz checkedAt now newId campaign st store
        = CampaignForm.Submitted nc
            (CampaignForm.mutationFn campaign nc store)
            (match campaign with
             | Some _ => CampanaActualizada
             | None => CampanaCreada
             end))
  /\ (CampaignForm.datesValid checkedAt (CampaignForm.status st)
        (CampaignForm.startDate st) (CampaignForm.endDate st) = false ->
      CampaignForm.handleSubmit tz checkedAt now newId campaign st store
      = CampaignForm.NotSubmitted).
Proof.
  unfold CampaignForm.isSubmitDisabled. intros H Hs He.
  repeat (apply orb_false_iff in H as [H ?]).
  assert (Hrendered : CampaignForm.isFormValid renderedAt st = true)
    by (destruct (CampaignForm.isFormValid renderedAt st);
        [reflexivity|discriminate]).
  assert (Hfilled : trimIsEmpty (CampaignForm.name st)
                    || (List.length (CampaignForm.people st) =? 0)%nat
                    = false).
  { unfold CampaignForm.isFormValid in Hrendered.
    destruct (trimIsEmpty _ || _); [discriminate | reflexivity]. }
  assert (Hform : forall t,
             CampaignForm.isFormValid t st
             = CampaignForm.datesValid t (CampaignForm.status st)
                 (CampaignForm.startDate st) (CampaignForm.endDate st)).
  { intro t. unfold CampaignForm.isFormValid. rewrite Hfilled. reflexivity. }
  split; [rewrite <- Hform; exact Hrendered|]. split.
  - intro Hvalid. rewrite <- Hform in Hvalid.
    destruct (CampaignForm.endDate st) as [[e|]|] eqn:Eend;
      [|congruence|discriminate].
    assert (Hstart : exists s,
               match CampaignForm.status st with
               | Activa => Some now
               | _ => CampaignForm.orNow (CampaignForm.startDate st) now
               end = Some s).
    { destruct (CampaignForm.status st); [eauto| |];
        (destruct (CampaignForm.startDate st) as [[s|]|];
         [eexists; reflexivity | congruence | eexists; reflexivity]). }
    destruct Hstart as [s Hstart].
    unfold CampaignForm.handleSubmit.
    rewrite Hvalid, Hstart, Eend. cbn [negb].
    destruct (match campaign with
              | Some c => Campaign.createdAt c
              | None => []
              end); eexists; reflexivity.
  - intro Hinvalid. rewrite <- Hform in Hinvalid.
    unfold CampaignForm.handleSubmit. rewrite Hinvalid. reflexivity.
Qed.

(** The create form of [MoreSamples], rendered at 09:30: a click at 09:30
    saves, a click one second after its start date, 10:00, does not. *)
Lemma enabled_submit_saves_while_dates_hold_witness :
  (exists nc,
     CampaignForm.handleSubmit 0 RosterSamples.morning RosterSamples.morning
       (lit "c1") None MoreSamples.formFilled None
     = CampaignForm.Submitted nc (CampaignForm.mutationFn None nc None)
         CampanaCreada)
  /\ CampaignForm.handleSubmit 0 1704103201000 1704103201000
       (lit "c1") None MoreSamples.formFilled None
     = CampaignForm.NotSubmitted.
Proof.
  split.
  - apply (enabled_submit_saves_while_dates_hold 0 RosterSamples.morning
             RosterSamples.morning RosterSamples.morning (lit "c1") None
             MoreSamples.formFilled None).
    + vm_compute. reflexivity.
    + discriminate.
    + discriminate.
    + vm_compute. reflexivity.
  - apply (enabled_submit_saves_while_dates_hold 0 RosterSamples.morning
             1704103201000 1704103201000 (lit "c1") None
             MoreSamples.formFilled None).
    + vm_compute. reflexivity.
    + discriminate.
    + discriminate.
    + vm_compute. reflexivity.
Defined.

(** An end date that is an Invalid Date (a stored end date that does not
    parse, when a campaign is opened for editing) raises no end-date error
    in [validateDates], and a submit of the otherwise valid form throws out
    of [formatDate]: nothing is saved. *)
Theorem invalid_end_date_is_not_flagged_and_submit_throws
  (tz checkedAt now : Z) (newId : jsstring) (campaign : option Campaign.t)
  (st : CampaignForm.State) (store : Utils.Store) :
  CampaignForm.endDate st = Some None ->
  snd (CampaignForm.validateDates checkedAt (CampaignForm.status st)
         (CampaignForm.startDate st) (CampaignForm.endDate st)) = false
  /\ (CampaignForm.isFormValid checkedAt st = true ->
      CampaignForm.handleSubmit tz checkedAt now newId campaign st store
      = CampaignForm.Threw).
Proof.
  intro He. split.
  - rewrite He. reflexivity.
  - intro Hvalid. unfold CampaignForm.handleSubmit.
    rewrite Hvalid, He. cbn [negb].
    change (Utils.formatDate tz None) with (@None jsstring).
    destruct (match match campaign with
                    | Some c => Campaign.createdAt c
                    | None => []
                    end with
              | [] => _
              | _ => _
              end); [|reflexivity].
    destruct (Utils.formatDate tz _); reflexivity.
Qed.

(** The form of [MoreSamples] with the end date replaced by an Invalid
    Date. *)
Lemma invalid_end_date_is_not_flagged_and_submit_throws_witness :
  let st := CampaignForm.setEndDate (Some None) MoreSamples.formFilled in
  snd (CampaignForm.validateDates RosterSamples.morning
         (CampaignForm.status st) (CampaignForm.startDate st)
         (CampaignForm.endDate st)) = false
  /\ (CampaignForm.isFormValid RosterSamples.morning st = true ->
      CampaignForm.handleSubmit 0 RosterSamples.morning RosterSamples.morning
        (lit "c1") None st None
      = CampaignForm.Threw).
Proof.
  apply (invalid_end_date_is_not_flagged_and_submit_throws 0
           RosterSamples.morning RosterSamples.morning (lit "c1") None
           (CampaignForm.setEndDate (Some None) MoreSamples.formFilled) None).
  reflexivity.
Defined.

(** Picking a start date leaves an end date strictly after it: a missing end
    date, or one not after the new start, becomes the start plus one hour,
    and a later one is kept. For a waiting campaign and a start not before
    [now], the form then has no date error. *)
Theorem onStartDateChange_keeps_end_after_start
  (now d : Z) (st : CampaignForm.State) :
  - Time.maxTime <= d -> d + 3600000 <= Time.maxTime ->
  CampaignForm.endDate st <> Some None ->
  let st' := CampaignForm.onStartDateChange (Some (Some d)) st in
  CampaignForm.startDate st' = Some (Some d)
  /\ exists e,
       CampaignForm.endDate st' = Some (Some e) /\ d < e
       /\ (CampaignForm.status st = EnEspera -> now <= d ->
           CampaignForm.validateDates now (CampaignForm.status st')
             (CampaignForm.startDate st') (CampaignForm.endDate st')
           = (false, false)).
Proof.
  intros Hlo Hhi He st'. unfold st', CampaignForm.onStartDateChange.
  assert (Hplus : CampaignForm.plusOneHour (Some d) = Some (d + 3600000)).
  { unfold CampaignForm.plusOneHour, Time.timeClip.
    change (60 * 60 * 1000) with 3600000.
    assert (E : (Z.abs (d + 3600000) <=? Time.maxTime) = true)
      by (apply Z.leb_le; unfold Time.maxTime in *; lia).
    rewrite E. reflexivity. }
  destruct (CampaignForm.endDate st) as [[e0|]|] eqn:Eend; [|congruence|].
  - cbn [CampaignForm.leDate]. destruct (e0 <=? d) eqn:E.
    + rewrite Hplus. split; [reflexivity|]. exists (d + 3600000).
      split; [reflexivity|]. split; [lia|]. cbn. intros -> Hnow.
      apply FormFacts.validateDates_waiting; lia.
    + apply Z.leb_gt in E. split; [reflexivity|]. exists e0.
      split; [cbn; exact Eend|]. split; [lia|]. cbn. intros -> Hnow.
      rewrite Eend. apply FormFacts.validateDates_waiting; lia.
  - rewrite Hplus. split; [reflexivity|]. exists (d + 3600000).
    split; [reflexivity|]. split; [lia|]. cbn. intros -> Hnow.
    apply FormFacts.validateDates_waiting; lia.
Qed.

(** The start of [MoreSamples.formFilled] moved to 11:30, past its end. *)
Lemma onStartDateChange_keeps_end_after_start_witness :
  let st' := CampaignForm.onStartDateChange (Some (Some 1704108600000))
               MoreSamples.formFilled in
  CampaignForm.startDate st' = Some (Some 1704108600000)
  /\ exists e,
       CampaignForm.endDate st' = Some (Some e) /\ 1704108600000 < e
       /\ (CampaignForm.status MoreSamples.formFilled = EnEspera ->
           RosterSamples.morning <= 1704108600000 ->
           CampaignForm.validateDates RosterSamples.morning
             (CampaignForm.status st') (CampaignForm.startDate st')
             (CampaignForm.endDate st')
           = (false, false)).
Proof.
  apply (onStartDateChange_keeps_end_after_start RosterSamples.morning
           1704108600000 MoreSamples.formFilled).
  - vm_compute. congruence.
  - vm_compute. congruence.
  - discriminate.
Defined.

(* ------------------------------------------------------------------ *)
(** ** Lookups by id across the mutations *)

Module StoreFacts.

Import Keeps.

Lemma eqb_refl (a : jsstring) : JS.eqb a a = true.
Proof. apply PersonInputFacts.eqb_true_iff. reflexivity. Qed.

Lemma eqb_neq (a b : jsstring) : a <> b -> JS.eqb a b = false.
Proof.
  intro H. destruct (JS.eqb a b) eqn:E; [|reflexivity].
  apply PersonInputFacts.eqb_true_iff in E. contradiction.
Qed.

Lemma findCampaign_id (cs : list Campaign.t) (i : jsstring) (c : Campaign.t) :
  CampaignList.findCampaign cs i = Some c -> In c cs /\ Campaign.id c = i.
Proof.
  unfold CampaignList.findCampaign. intro H.
  apply find_some in H as [Hin H]. split; [exact Hin|].
  apply PersonInputFacts.eqb_true_iff, H.
Qed.

(** Replacing by a key: the replacement is found under the key when the key
    was there, every other lookup is as before, and without the key the
    list is unchanged. *)
Lemma replace_hit (key : jsstring) (u : Campaign.t) (cs : list Campaign.t) :
  Campaign.id u = key ->
  CampaignList.findCampaign cs key <> None ->
  CampaignList.findCampaign
    (map (fun c => if JS.eqb (Campaign.id c) key then u else c) cs) key
  = Some u.
Proof.
  intros Hu. unfold CampaignList.findCampaign.
  induction cs as [|c cs IH]; cbn [map find]; [congruence|].
  destruct (JS.eqb (Campaign.id c) key) eqn:E.
  - intros _. rewrite Hu, eqb_refl. reflexivity.
  - rewrite E. exact IH.
Qed.

Lemma replace_miss (key i : jsstring) (u : Campaign.t)
  (cs : list Campaign.t) :
  Campaign.id u = key -> i <> key ->
  CampaignList.findCampaign
    (map (fun c => if JS.eqb (Campaign.id c) key then u else c) cs) i
  = CampaignList.findCampaign cs i.
Proof.
  intros Hu Hi. unfold CampaignList.findCampaign.
  induction cs as [|c cs IH]; cbn [map find]; [reflexivity|].
  destruct (JS.eqb (Campaign.id c) key) eqn:E.
  - apply PersonInputFacts.eqb_true_iff in E.
    rewrite Hu, E, (eqb_neq key i) by congruence. exact IH.
  - rewrite IH. reflexivity.
Qed.

Lemma replace_absent (key : jsstring) (u : Campaign.t)
  (cs : list Campaign.t) :
  CampaignList.findCampaign cs key = None ->
  map (fun c => if JS.eqb (Campaign.id c) key then u else c) cs = cs.
Proof.
  unfold CampaignList.findCampaign.
  induction cs as [|c cs IH]; cbn [map find]; [reflexivity|].
  destruct (JS.eqb (Campaign.id c) key); [discriminate|].
  intro H. rewrite (IH H). reflexivity.
Qed.

Lemma find_app_old (cs : list Campaign.t) (n : Campaign.t) (i : jsstring)
  (c : Campaign.t) :
  CampaignList.findCampaign cs i = Some c ->
  CampaignList.findCampaign (cs ++ [n]) i = Some c.
Proof.
  unfold CampaignList.findCampaign.
  induction cs as [|x cs IH]; cbn [app find]; [discriminate|].
  destruct (JS.eqb (Campaign.id x) i); auto.
Qed.

Lemma find_app_new (cs : list Campaign.t) (n : Campaign.t) :
  CampaignList.findCampaign cs (Campaign.id n) = None ->
  CampaignList.findCampaign (cs ++ [n]) (Campaign.id n) = Some n.
Proof.
  unfold CampaignList.findCampaign.
  induction cs as [|x cs IH]; cbn [app find].
  - intros _. rewrite eqb_refl. reflexivity.
  - destruct (JS.eqb (Campaign.id x) (Campaign.id n)); [discriminate|auto].
Qed.

Lemma find_filter_gone (cs : list Campaign.t) (i : jsstring) :
  CampaignList.findCampaign
    (filter (fun c => negb (JS.eqb (Campaign.id c) i)) cs) i = None.
Proof.
  unfold CampaignList.findCampaign.
  induction cs as [|c cs IH]; cbn [filter find]; [reflexivity|].
  destruct (JS.eqb (Campaign.id c) i) eqn:E; cbn [negb find]; [exact IH|].
  rewrite E. exact IH.
Qed.

Lemma find_filter_other (cs : list Campaign.t) (i j : jsstring) :
  j <> i ->
  CampaignList.findCampaign
    (filter (fun c => negb (JS.eqb (Campaign.id c) i)) cs) j
  = CampaignList.findCampaign cs j.
Proof.
  intro H. unfold CampaignList.findCampaign.
  induction cs as [|c cs IH]; cbn [filter find]; [reflexivity|].
  destruct (JS.eqb (Campaign.id c) i) eqn:E; cbn [negb find].
  - apply PersonInputFacts.eqb_true_iff in E.
    rewrite E, (eqb_neq i j) by congruence. exact IH.
  - rewrite IH. reflexivity.
Qed.

(** All that a successful [handleSubmit] fixes. *)
Lemma handleSubmit_submitted (tz checkedAt now : Z) (newId : jsstring)
  (campaign : option Campaign.t) (st : CampaignForm.State)
  (store store' : Utils.Store) (nc : Campaign.t) (toast : Toast) :
  CampaignForm.handleSubmit tz checkedAt now newId campaign st store
  = CampaignForm.Submitted nc store' toast ->
  Campaign.id nc
  = match campaign with
    | Some c => CampaignForm.orString (Campaign.id c) newId
    | None => newId
    end
  /\ match match campaign with
           | Some c => Campaign.createdAt c
           | None => []
           end with
     | [] => Utils.formatDate tz (Some now)
     | created => Some created
     end = Some (Campaign.createdAt nc)
  /\ store' = CampaignForm.mutationFn campaign nc store
  /\ toast = match campaign with
             | Some _ => CampanaActualizada
             | None => CampanaCreada
             end
  /\ Campaign.name nc = CampaignForm.name st
  /\ trimIsEmpty (CampaignForm.name st) = false.
Proof.
  unfold CampaignForm.handleSubmit.
  destruct (CampaignForm.isFormValid checkedAt st) eqn:Hvalid; cbn [negb];
    [|discriminate].
  assert (Hname : trimIsEmpty (CampaignForm.name st) = false).
  { unfold CampaignForm.isFormValid in Hvalid.
    destruct (trimIsEmpty (CampaignForm.name st)); [discriminate|reflexivity]. }
  destruct (match match campaign with
                  | Some c => Campaign.createdAt c
                  | None => []
                  end with
            | [] => _
            | _ => _
            end) as [created|]; [|discriminate].
  destruct (Utils.formatDate tz _) as [start|]; [|discriminate].
  destruct (Utils.formatDate tz _) as [fin|]; [|discriminate].
  intro H. inversion H; subst.
  cbn [Campaign.id Campaign.createdAt Campaign.name].
  repeat split; auto.
Qed.

End StoreFacts.

(** Submitting the form opened on a campaign with a non-empty id keeps that
    id (and the creation date, when there is one) and replaces the stored
    campaign of that id: the stored list keeps its length, a lookup of the
    id gives the submitted campaign, every other lookup is as before; and
    when no stored campaign has the id any more, the stored list is saved
    unchanged and the edit is lost. *)
Theorem edit_submit_replaces_by_id
  (tz checkedAt now : Z) (newId : jsstring) (c nc : Campaign.t)
  (st : CampaignForm.State) (store store' : Utils.Store) (toast : Toast) :
  CampaignForm.handleSubmit tz checkedAt now newId (Some c) st store
  = CampaignForm.Submitted nc store' toast ->
  Campaign.id c <> [] ->
  let before := Utils.getCampaigns store in
  let after := Utils.getCampaigns store' in
  Campaign.id nc = Campaign.id c
  /\ (Campaign.createdAt c <> [] ->
      Campaign.createdAt nc = Campaign.createdAt c)
  /\ toast = CampanaActualizada
  /\ List.length after = List.length before
  /\ (CampaignList.findCampaign before (Campaign.id c) = None ->
      after = before)
  /\ (CampaignList.findCampaign before (Campaign.id c) <> None ->
      CampaignList.findCampaign after (Campaign.id c) = Some nc)
  /\ (forall i, i <> Campaign.id c ->
        CampaignList.findCampaign after i
        = CampaignList.findCampaign before i).
Proof.
  intros H Hid before after.
  apply StoreFacts.handleSubmit_submitted in H as (Hi & Hc & Hs & Ht & _).
  assert (Hid' : Campaign.id nc = Campaign.id c).
  { rewrite Hi. unfold CampaignForm.orString.
    destruct (Campaign.id c); [congruence | reflexivity]. }
  unfold after. rewrite Hs. unfold CampaignForm.mutationFn,
    Utils.saveCampaigns, Utils.getCampaigns at 1. fold before.
  split; [exact Hid'|]. split; [|split; [exact Ht|]].
  - intro Hcr. destruct (Campaign.createdAt c); congruence.
  - split; [apply length_map|]. split; [|split].
    + apply StoreFacts.replace_absent.
    + apply StoreFacts.replace_hit, Hid'.
    + intros i Hne. apply StoreFacts.replace_miss; auto.
Qed.

(** [Samples.q1] edited at 09:30 in a store that holds it. *)
Lemma edit_submit_replaces_by_id_witness :
  let before := [Samples.q1] in
  let after := [RosterSamples.q1Twice] in
  Campaign.id RosterSamples.q1Twice = Campaign.id Samples.q1
  /\ (Campaign.createdAt Samples.q1 <> [] ->
      Campaign.createdAt RosterSamples.q1Twice
      = Campaign.createdAt Samples.q1)
  /\ CampanaActualizada = CampanaActualizada
  /\ List.length after = List.length before
  /\ (CampaignList.findCampaign before (Campaign.id Samples.q1) = None ->
      after = before)
  /\ (CampaignList.findCampaign before (Campaign.id Samples.q1) <> None ->
      CampaignList.findCampaign after (Campaign.id Samples.q1)
      = Some RosterSamples.q1Twice)
  /\ (forall i, i <> Campaign.id Samples.q1 ->
        CampaignList.findCampaign after i
        = CampaignList.findCampaign before i).
Proof.
  apply (edit_submit_replaces_by_id 0 RosterSamples.morning
           RosterSamples.morning (lit "fresh")
           Samples.q1 RosterSamples.q1Twice
           (CampaignForm.runEffects RosterSamples.morning
              (CampaignForm.initialState 0 (Some Samples.q1)))
           (Some [Samples.q1]) (Some [RosterSamples.q1Twice])
           CampanaActualizada).
  - vm_compute. reflexivity.
  - discriminate.
Defined.

(** Submitting the create form appends one campaign to the stored list: the
    campaigns already stored keep their place and their lookups, the new
    campaign carries the fresh id, the creation date printed from [now], a
    name that is not blank and the roster of the form, which is not empty;
    and it is found under its id when no stored campaign had that id. *)
Theorem create_submit_appends
  (tz checkedAt now : Z) (newId : jsstring) (nc : Campaign.t)
  (st : CampaignForm.State) (store store' : Utils.Store) (toast : Toast) :
  CampaignForm.handleSubmit tz checkedAt now newId None st store
  = CampaignForm.Submitted nc store' toast ->
  let before := Utils.getCampaigns store in
  let after := Utils.getCampaigns store' in
  after = before ++ [nc]
  /\ Campaign.id nc = newId
  /\ Utils.formatDate tz (Some now) = Some (Campaign.createdAt nc)
  /\ Campaign.people nc = CampaignForm.people st
  /\ Campaign.people nc <> []
  /\ trimIsEmpty (Campaign.name nc) = false
  /\ toast = CampanaCreada
  /\ Utils.hasCampaigns store' = true
  /\ (forall i c, CampaignList.findCampaign before i = Some c ->
                  CampaignList.findCampaign after i = Some c)
  /\ (CampaignList.findCampaign before newId = None ->
      CampaignList.findCampaign after newId = Some nc).
Proof.
  intros H before after.
  pose proof (LifecycleFacts.handleSubmit_people _ _ _ _ _ _ _ _ _ _ H)
    as [Hpeople Hne].
  cbn [app] in Hpeople.
  apply StoreFacts.handleSubmit_submitted in H
    as (Hi & Hc & Hs & Ht & Hn & Hblank).
  assert (Hafter : after = before ++ [nc]) by (unfold after; rewrite Hs; reflexivity).
  rewrite Hafter.
  repeat split; auto; try congruence.
  - unfold Utils.hasCampaigns. fold after. rewrite Hafter, length_app.
    cbn [List.length]. apply Nat.ltb_lt. lia.
  - intros i c. apply StoreFacts.find_app_old.
  - rewrite <- Hi. apply StoreFacts.find_app_new.
Qed.

(** The create form of [MoreSamples] submitted at 09:30 into an empty
    store. *)
Lemma create_submit_appends_witness :
  let nc := Campaign.mk (lit "c1") (lit "Q1 Outreach")
              (lit "01/01/2024 09:30") (lit "01/01/2024 10:00")
              (lit "01/01/2024 11:00") false EnEspera [Samples.ana] in
  let before := Utils.getCampaigns None in
  let after := Utils.getCampaigns (Some [nc]) in
  after = before ++ [nc]
  /\ Campaign.id nc = lit "c1"
  /\ Utils.formatDate 0 (Some RosterSamples.morning)
     = Some (Campaign.createdAt nc)
  /\ Campaign.people nc = CampaignForm.people MoreSamples.formFilled
  /\ Campaign.people nc <> []
  /\ trimIsEmpty (Campaign.name nc) = false
  /\ CampanaCreada = CampanaCreada
  /\ Utils.hasCampaigns (Some [nc]) = true
  /\ (forall i c, CampaignList.findCampaign before i = Some c ->
                  CampaignList.findCampaign after i = Some c)
  /\ (CampaignList.findCampaign before (lit "c1") = None ->
      CampaignList.findCampaign after (lit "c1") = Some nc).
Proof.
  intro nc.
  apply (create_submit_appends 0 RosterSamples.morning
           RosterSamples.morning (lit "c1") nc
           MoreSamples.formFilled None (Some [nc]) CampanaCreada).
  vm_compute. reflexivity.
Defined.

(* ------------------------------------------------------------------ *)
(** ** The campaign cards: remove person, delete, finish *)

Module ListFacts.

Import Keeps.

Lemma without_unique (pid : jsstring) (people : list Person.t) :
  NoDup (personIds people) ->
  (In pid (personIds people) ->
   S (List.length (without pid people)) = List.length people)
  /\ (~ In pid (personIds people) -> without pid people = people).
Proof.
  unfold personIds, without.
  induction people as [|p ps IH]; cbn [map filter List.length].
  - intros _. split; [intros [] | reflexivity].
  - intro H. apply NoDup_cons_iff in H as [Hp Hps].
    destruct (IH Hps) as [IHin IHout].
    destruct (JS.eqb (Person.id p) pid) eqn:E; cbn [negb List.length].
    + apply PersonInputFacts.eqb_true_iff in E. subst pid.
      split; [|intro Hn; exfalso; apply Hn; left; reflexivity].
      intros _. rewrite (IHout Hp). reflexivity.
    + assert (Hne : Person.id p <> pid).
      { intro Heq. rewrite Heq, StoreFacts.eqb_refl in E. discriminate. }
      split.
      * intros [Heq | Hin]; [contradiction|]. rewrite (IHin Hin). reflexivity.
      * intro Hn. rewrite IHout; [reflexivity|]. intro Hin. apply Hn. right. exact Hin.
Qed.

Lemma without_all (pid : jsstring) (people : list Person.t) :
  Forall (fun p => Person.id p = pid) people -> without pid people = [].
Proof.
  unfold without. induction 1 as [|p ps Hp _ IH]; [reflexivity|].
  cbn [filter]. rewrite Hp, StoreFacts.eqb_refl. exact IH.
Qed.

Lemma without_appended (pid : jsstring) (people : list Person.t)
  (p : Person.t) :
  Person.id p = pid -> ~ In pid (personIds people) ->
  without pid (people ++ [p]) = people.
Proof.
  intros Hp Hn. unfold without. rewrite filter_app. cbn [filter].
  rewrite Hp, StoreFacts.eqb_refl. cbn [negb]. rewrite app_nil_r.
  unfold personIds in Hn. induction people as [|q qs IH]; [reflexivity|].
  cbn [filter]. cbn [map] in Hn.
  rewrite (StoreFacts.eqb_neq (Person.id q) pid)
    by (intro E; apply Hn; left; exact E).
  cbn [negb]. rewrite IH; [reflexivity|].
  intro Hin. apply Hn. right. exact Hin.
Qed.

(** [handleDeletePerson] on a campaign that is found, not finished, with
    more than one person. *)
Lemma handleDeletePerson_saves
  (campaigns : list Campaign.t) (cid pid : jsstring)
  (w : CampaignList.World) (c : Campaign.t) :
  CampaignList.findCampaign campaigns cid = Some c ->
  Campaign.status c <> Finalizada ->
  (2 <= List.length (Campaign.people c))%nat ->
  CampaignList.handleDeletePerson campaigns cid pid w
  = CampaignList.updateCampaign campaigns
      (Campaign.withPeople c (without pid (Campaign.people c))) w.
Proof.
  intros Hfind Hst Hlen. unfold CampaignList.handleDeletePerson.
  rewrite Hfind.
  assert (E : (List.length (Campaign.people c) <=? 1)%nat = false)
    by (apply Nat.leb_gt; lia).
  rewrite E. destruct (Campaign.status c); [reflexivity|congruence|reflexivity].
Qed.

Lemma finish_found (cs : list Campaign.t) (i : jsstring) (c : Campaign.t) :
  CampaignList.findCampaign cs i = Some c ->
  CampaignList.findCampaign
    (map (fun x => if JS.eqb (Campaign.id x) i
                   then Campaign.withStatus x Finalizada else x) cs) i
  = Some (Campaign.withStatus c Finalizada).
Proof.
  unfold CampaignList.findCampaign.
  induction cs as [|x cs IH]; cbn [map find]; [discriminate|].
  destruct (JS.eqb (Campaign.id x) i) eqn:E.
  - intro H. inversion H; subst.
    destruct c; cbn [Campaign.withStatus Campaign.id] in *. rewrite E.
    reflexivity.
  - rewrite E. exact IH.
Qed.

Lemma finish_advances (cs : list Campaign.t) (i : jsstring) :
  Forall2 (fun c c' => sameButStatus c c' /\ Reconciler.advanced c c') cs
    (map (fun x => if JS.eqb (Campaign.id x) i
                   then Campaign.withStatus x Finalizada else x) cs).
Proof.
  induction cs as [|c cs IH]; cbn [map]; constructor; [|exact IH].
  destruct (JS.eqb (Campaign.id c) i).
  - unfold sameButStatus, Reconciler.advanced.
    destruct c as [a b cr sd ed r s p]; cbn. repeat split.
    destruct s; cbn; lia.
  - split; [apply KeepsFacts.sameButStatus_refl
           | apply ReconcilerFacts.advanced_refl].
Qed.

End ListFacts.

(** Last-person protection: on a roster whose person ids are all different,
    [handleDeletePerson] never saves an empty roster. It saves only for a
    campaign that is not finished and has at least two people, the saved
    roster is the old one without the person of that id, in the same order,
    and it is one shorter when the id was on the roster. *)
Theorem handleDeletePerson_never_empties_roster
  (campaigns : list Campaign.t) (cid pid : jsstring)
  (w : CampaignList.World) (c : Campaign.t) :
  CampaignList.findCampaign campaigns cid = Some c ->
  NoDup (Keeps.personIds (Campaign.people c)) ->
  let w' := CampaignList.handleDeletePerson campaigns cid pid w in
  let kept := Keeps.without pid (Campaign.people c) in
  CampaignList.store w' = CampaignList.store w
  \/ (CampaignList.store w'
      = Some (Keeps.replaceById (Campaign.withPeople c kept) campaigns)
      /\ Campaign.status c <> Finalizada
      /\ kept <> []
      /\ (In pid (Keeps.personIds (Campaign.people c)) ->
          S (List.length kept) = List.length (Campaign.people c))).
Proof.
  intros Hfind Hids w' kept.
  destruct (CampaignStatus_eqb (Campaign.status c) Finalizada) eqn:Est.
  - left. unfold w'.
    rewrite (LifecycleFacts.handleDeletePerson_finished _ _ _ _ c Hfind);
      [reflexivity|].
    destruct (Campaign.status c); [discriminate|reflexivity|discriminate].
  - assert (Hst : Campaign.status c <> Finalizada)
      by (intro E; rewrite E in Est; discriminate).
    destruct (List.length (Campaign.people c) <=? 1)%nat eqn:Elen.
    + left. unfold w', CampaignList.handleDeletePerson.
      rewrite Hfind, Elen.
      destruct (Campaign.status c); [reflexivity|congruence|reflexivity].
    + right. apply Nat.leb_gt in Elen.
      unfold w'.
      rewrite (ListFacts.handleDeletePerson_saves _ _ _ _ c Hfind Hst)
        by lia.
      destruct (ListFacts.without_unique pid _ Hids) as [Hin Hout].
      split; [reflexivity|]. split; [exact Hst|]. split; [|exact Hin].
      fold kept in Hin, Hout. intro Hk.
      destruct (in_dec (list_eq_dec N.eq_dec) pid
                  (Keeps.personIds (Campaign.people c))) as [Hi|Hi].
      * apply Hin in Hi. rewrite Hk in Hi. cbn in Hi. lia.
      * apply Hout in Hi. rewrite Hk in Hi. rewrite <- Hi in Elen.
        cbn in Elen. lia.
Qed.

(** Luis removed from the roster of Ana and Luis. *)
Lemma handleDeletePerson_never_empties_roster_witness :
  let campaigns := [MoreSamples.q1Pair] in
  let w := Roster.typing [] [] [] (Some campaigns) in
  let w' := CampaignList.handleDeletePerson campaigns (lit "c1") (lit "p2") w in
  let kept := Keeps.without (lit "p2") (Campaign.people MoreSamples.q1Pair) in
  CampaignList.store w' = CampaignList.store w
  \/ (CampaignList.store w'
      = Some (Keeps.replaceById (Campaign.withPeople MoreSamples.q1Pair kept)
                campaigns)
      /\ Campaign.status MoreSamples.q1Pair <> Finalizada
      /\ kept <> []
      /\ (In (lit "p2") (Keeps.personIds (Campaign.people MoreSamples.q1Pair)) ->
          S (List.length kept)
          = List.length (Campaign.people MoreSamples.q1Pair))).
Proof.
  apply (handleDeletePerson_never_empties_roster [MoreSamples.q1Pair]
           (lit "c1") (lit "p2") _ MoreSamples.q1Pair).
  - reflexivity.
  - vm_compute. repeat constructor; cbn; intuition congruence.
Defined.

(** The protection counts people, the removal goes by id: when every person
    of a roster of two or more carries the id to remove (the roster an
    unchanged edit stores), [handleDeletePerson] saves the campaign with an
    empty roster. *)
Theorem handleDeletePerson_empties_roster_of_one_id
  (campaigns : list Campaign.t) (cid pid : jsstring)
  (w : CampaignList.World) (c : Campaign.t) :
  CampaignList.findCampaign campaigns cid = Some c ->
  Campaign.status c <> Finalizada ->
  (2 <= List.length (Campaign.people c))%nat ->
  Forall (fun p => Person.id p = pid) (Campaign.people c) ->
  CampaignList.store (CampaignList.handleDeletePerson campaigns cid pid w)
  = Some (Keeps.replaceById (Campaign.withPeople c []) campaigns).
Proof.
  intros Hfind Hst Hlen Hall.
  rewrite (ListFacts.handleDeletePerson_saves _ _ _ _ c Hfind Hst Hlen).
  rewrite (ListFacts.without_all pid _ Hall). reflexivity.
Qed.

(** [RosterSamples.q1Twice], Ana twice under the id p1. *)
Lemma handleDeletePerson_empties_roster_of_one_id_witness :
  CampaignList.store
    (CampaignList.handleDeletePerson [RosterSamples.q1Twice] (lit "c1")
       (lit "p1") (Roster.typing [] [] [] None))
  = Some (Keeps.replaceById (Campaign.withPeople RosterSamples.q1Twice [])
            [RosterSamples.q1Twice]).
Proof.
  apply (handleDeletePerson_empties_roster_of_one_id
           [RosterSamples.q1Twice] (lit "c1") (lit "p1") _
           RosterSamples.q1Twice).
  - reflexivity.
  - discriminate.
  - cbn. lia.
  - repeat constructor.
Defined.

(** Adding a person under a fresh id and then removing that id gives the
    campaign back: after both saves, the lookup of the campaign returns it
    as it was before the addition. *)
Theorem add_then_delete_person_restores_campaign
  (campaigns : list Campaign.t) (cid newId : jsstring)
  (w : CampaignList.World) (c : Campaign.t) :
  let st := CampaignList.state w in
  CampaignList.findCampaign campaigns cid = Some c ->
  Campaign.status c <> Finalizada ->
  Campaign.people c <> [] ->
  ~ In newId (Keeps.personIds (Campaign.people c)) ->
  PersonInput.isValid
    (PersonInput.checkFields (CampaignList.newPersonName st)
       (CampaignList.newPersonLastName st)
       (CampaignList.newPersonPhone st)) = true ->
  PersonInput.somePhone (Campaign.people c) (CampaignList.newPersonPhone st)
  = false ->
  let w1 := CampaignList.handleAddPerson campaigns cid newId w in
  let campaigns1 := Utils.getCampaigns (CampaignList.store w1) in
  let w2 := CampaignList.handleDeletePerson campaigns1 cid newId w1 in
  CampaignList.findCampaign campaigns1 cid
  = Some (Campaign.withPeople c
            (Campaign.people c
             ++ [Person.mk newId (CampaignList.newPersonName st)
                   (CampaignList.newPersonLastName st)
                   (CampaignList.newPersonPhone st)]))
  /\ CampaignList.findCampaign
       (Utils.getCampaigns (CampaignList.store w2)) cid
     = Some c.
Proof.
  intros st Hfind Hst Hne Hfresh Hvalid Hdup w1 campaigns1 w2.
  destruct (StoreFacts.findCampaign_id _ _ _ Hfind) as [_ Hid].
  set (p := Person.mk newId (CampaignList.newPersonName st)
              (CampaignList.newPersonLastName st)
              (CampaignList.newPersonPhone st)).
  set (c1 := Campaign.withPeople c (Campaign.people c ++ [p])).
  assert (Hc1id : Campaign.id c1 = cid) by (destruct c; exact Hid).
  assert (Hw1 : campaigns1
                = map (fun x => if JS.eqb (Campaign.id x) cid then c1 else x)
                      campaigns).
  { unfold campaigns1, w1.
    rewrite (AddPersonFacts.handleAddPerson_checked _ _ _ _ c Hvalid Hfind).
    fold st. rewrite Hdup.
    unfold CampaignList.updateCampaign, CampaignList.saved.
    cbn [CampaignList.withState CampaignList.store Utils.saveCampaigns
         Utils.getCampaigns].
    fold p. fold c1. rewrite Hc1id. reflexivity. }
  assert (Hfind1 : CampaignList.findCampaign campaigns1 cid = Some c1).
  { rewrite Hw1. apply StoreFacts.replace_hit; [exact Hc1id | congruence]. }
  split; [exact Hfind1|].
  assert (Hlen : (2 <= List.length (Campaign.people c1))%nat).
  { unfold c1. destruct c as [a b cr sd ed r s ps]; cbn in *.
    rewrite length_app. cbn. destruct ps; [congruence | cbn; lia]. }
  assert (Hst1 : Campaign.status c1 <> Finalizada)
    by (destruct c; exact Hst).
  unfold w2.
  rewrite (ListFacts.handleDeletePerson_saves _ _ _ _ c1 Hfind1 Hst1 Hlen).
  assert (Hback : Campaign.withPeople c1
                    (Keeps.without newId (Campaign.people c1)) = c).
  { unfold c1. destruct c as [a b cr sd ed r s ps].
    cbn [Campaign.withPeople Campaign.people] in *.
    rewrite ListFacts.without_appended; [reflexivity | reflexivity | exact Hfresh]. }
  rewrite Hback. cbn. rewrite Hid.
  apply StoreFacts.replace_hit; [exact Hid | congruence].
Qed.

(** Luis added to [Samples.q1] under the id p2, then removed. *)
Lemma add_then_delete_person_restores_campaign_witness :
  let w := RosterSamples.typeLuis (Roster.typing [] [] [] (Some [Samples.q1])) in
  let w1 := CampaignList.handleAddPerson [Samples.q1] (lit "c1") (lit "p2") w in
  let campaigns1 := Utils.getCampaigns (CampaignList.store w1) in
  let w2 := CampaignList.handleDeletePerson campaigns1 (lit "c1") (lit "p2") w1 in
  CampaignList.findCampaign campaigns1 (lit "c1")
  = Some (Campaign.withPeople Samples.q1
            (Campaign.people Samples.q1
             ++ [Person.mk (lit "p2")
                   (CampaignList.newPersonName (CampaignList.state w))
                   (CampaignList.newPersonLastName (CampaignList.state w))
                   (CampaignList.newPersonPhone (CampaignList.state w))]))
  /\ CampaignList.findCampaign
       (Utils.getCampaigns (CampaignList.store w2)) (lit "c1")
     = Some Samples.q1.
Proof.
  intro w.
  apply (add_then_delete_person_restores_campaign [Samples.q1] (lit "c1")
           (lit "p2") w Samples.q1).
  - reflexivity.
  - discriminate.
  - discriminate.
  - vm_compute. intuition congruence.
  - vm_compute. reflexivity.
  - vm_compute. reflexivity.
Defined.

(** Deleting a campaign: [handleDelete] followed by the confirmation removes
    every stored campaign with the id of a waiting campaign, so that the id
    is no longer found, every other lookup is as before and the pending
    deletion is cleared. For a campaign that is not waiting, with no
    deletion pending, the error toast is shown and nothing is saved. *)
Theorem delete_removes_waiting_campaign_only
  (campaigns : list Campaign.t) (c : Campaign.t) (w : CampaignList.World) :
  let w' := CampaignList.confirmDelete campaigns
              (CampaignList.handleDelete c w) in
  let after := Utils.getCampaigns (CampaignList.store w') in
  (Campaign.status c = EnEspera ->
   CampaignList.findCampaign after (Campaign.id c) = None
   /\ (forall i, i <> Campaign.id c ->
         CampaignList.findCampaign after i
         = CampaignList.findCampaign campaigns i)
   /\ CampaignList.deletingCampaign (CampaignList.state w') = None
   /\ CampaignList.toasts w' = CampanaEliminada :: CampaignList.toasts w)
  /\ (Campaign.status c <> EnEspera ->
      CampaignList.deletingCampaign (CampaignList.state w) = None ->
      CampaignList.store w' = CampaignList.store w
      /\ CampaignList.toasts w'
         = SoloEliminarEnEspera :: CampaignList.toasts w).
Proof.
  intros w' after. split.
  - intro Hst. unfold after, w', CampaignList.handleDelete. rewrite Hst.
    cbn. repeat split.
    + apply StoreFacts.find_filter_gone.
    + intros i Hi. apply StoreFacts.find_filter_other, Hi.
  - intros Hst Hnone. unfold w'.
    rewrite (LifecycleFacts.handleDelete_not_waiting c w Hst).
    unfold CampaignList.confirmDelete. cbn. rewrite Hnone.
    split; reflexivity.
Qed.

(** Finishing: for an active campaign [handleFinish] saves the list with
    that campaign (and any other campaign of the same id) set to Finalizada;
    every campaign keeps its other fields and no status moves back. When the
    id is not found or the campaign found is not active, the error toast is
    shown and nothing is saved. *)
Theorem handleFinish_finishes_active_campaign_only
  (campaigns : list Campaign.t) (id : jsstring) (w : CampaignList.World) :
  let w' := CampaignList.handleFinish campaigns id w in
  (forall c,
     CampaignList.findCampaign campaigns id = Some c ->
     Campaign.status c = Activa ->
     exists after,
       CampaignList.store w' = Some after
       /\ CampaignList.findCampaign after id
          = Some (Campaign.withStatus c Finalizada)
       /\ Forall2 (fun x x' => Keeps.sameButStatus x x'
                               /\ Reconciler.advanced x x')
                  campaigns after
       /\ CampaignList.toasts w'
          = CampanaFinalizada :: CampaignList.toasts w)
  /\ ((forall c, CampaignList.findCampaign campaigns id = Some c ->
                 Campaign.status c <> Activa) ->
      CampaignList.store w' = CampaignList.store w
      /\ CampaignList.toasts w'
         = SoloFinalizarActivas :: CampaignList.toasts w).
Proof.
  intro w'. split.
  - intros c Hfind Hst. unfold w', CampaignList.handleFinish.
    rewrite Hfind. destruct c as [a b cr sd ed r s p]. cbn in Hst. subst s.
    eexists. split; [reflexivity|]. split; [|split; [|reflexivity]].
    + apply (ListFacts.finish_found _ _ _ Hfind).
    + apply ListFacts.finish_advances.
  - intro Hnot. unfold w', CampaignList.handleFinish.
    destruct (CampaignList.findCampaign campaigns id) as [c|] eqn:E;
      [|split; reflexivity].
    specialize (Hnot c eq_refl). destruct c as [a b cr sd ed r s p].
    cbn in Hnot. destruct s; [congruence | split; reflexivity | split; reflexivity].
Qed.

(** The waiting campaign [Samples.q1] deleted from a list of two. *)
Lemma delete_removes_waiting_campaign_only_witness :
  let campaigns := [Samples.q1; MoreSamples.brokenEnd] in
  let w := Roster.typing [] [] [] (Some campaigns) in
  let w' := CampaignList.confirmDelete campaigns
              (CampaignList.handleDelete Samples.q1 w) in
  let after := Utils.getCampaigns (CampaignList.store w') in
  CampaignList.findCampaign after (Campaign.id Samples.q1) = None
  /\ (forall i, i <> Campaign.id Samples.q1 ->
        CampaignList.findCampaign after i
        = CampaignList.findCampaign campaigns i)
  /\ CampaignList.deletingCampaign (CampaignList.state w') = None
  /\ CampaignList.toasts w' = CampanaEliminada :: CampaignList.toasts w.
Proof.
  intros campaigns w.
  apply (proj1 (delete_removes_waiting_campaign_only campaigns Samples.q1 w)).
  reflexivity.
Defined.

(** The active campaign of [RosterSamples] finished from its card. *)
Lemma handleFinish_finishes_active_campaign_only_witness :
  let campaigns := [RosterSamples.q1Active] in
  let w := Roster.typing [] [] [] (Some campaigns) in
  let w' := CampaignList.handleFinish campaigns (lit "c1") w in
  exists after,
    CampaignList.store w' = Some after
    /\ CampaignList.findCampaign after (lit "c1")
       = Some (Campaign.withStatus RosterSamples.q1Active Finalizada)
    /\ Forall2 (fun x x' => Keeps.sameButStatus x x'
                            /\ Reconciler.advanced x x')
               campaigns after
    /\ CampaignList.toasts w' = CampanaFinalizada :: CampaignList.toasts w.
Proof.
  intros campaigns w.
  apply (proj1 (handleFinish_finishes_active_campaign_only campaigns
                  (lit "c1") w) RosterSamples.q1Active).
  - reflexivity.
  - reflexivity.
Defined.

(* ------------------------------------------------------------------ *)
(** ** From the form to the reconciler *)

Module ComposeFacts.

(** The two dates a successful submit prints. *)
Lemma handleSubmit_dates (tz checkedAt now : Z) (newId : jsstring)
  (campaign : option Campaign.t) (st : CampaignForm.State)
  (store store' : Utils.Store) (nc : Campaign.t) (toast : Toast) :
  CampaignForm.handleSubmit tz checkedAt now newId campaign st store
  = CampaignForm.Submitted nc store' toast ->
  Utils.formatDate tz
    (match CampaignForm.status st with
     | Activa => Some now
     | _ => CampaignForm.orNow (CampaignForm.startDate st) now
     end) = Some (Campaign.startDate nc)
  /\ Utils.formatDate tz
       (match CampaignForm.endDate st with Some e => e | None => Some 0 end)
     = Some (Campaign.endDate nc)
  /\ Campaign.status nc = CampaignForm.status st.
Proof.
  unfold CampaignForm.handleSubmit.
  destruct (CampaignForm.isFormValid checkedAt st); cbn [negb];
    [|discriminate].
  destruct (match match campaign with
                  | Some c => Campaign.createdAt c
                  | None => []
                  end with
            | [] => _
            | _ => _
            end) as [created|]; [|discriminate].
  destruct (Utils.formatDate tz _) as [start|]; [|discriminate].
  destruct (Utils.formatDate tz _) as [fin|]; [|discriminate].
  intro H. inversion H; subst. repeat split; reflexivity.
Qed.

End ComposeFacts.

(** On a host whose zone keeps one fixed offset [tz] from UTC, a campaign
    submitted as waiting with the start date [s] is promoted by a
    reconciliation pass exactly from the beginning of the minute of [s]: the
    stored start date is [s] printed to the minute, so a pass at a clock
    value promotes the campaign when the clock has reached [s] cut down to
    the minute, up to a minute before [s] itself. *)
Theorem submitted_waiting_campaign_starts_on_the_minute
  (tz checkedAt now clock s : Z) (newId : jsstring)
  (campaign : option Campaign.t)
  (st : CampaignForm.State) (store store' : Utils.Store)
  (nc : Campaign.t) (toast : Toast) :
  CampaignForm.handleSubmit tz checkedAt now newId campaign st store
  = CampaignForm.Submitted nc store' toast ->
  CampaignForm.status st = EnEspera ->
  CampaignForm.startDate st = Some (Some s) ->
  - Time.maxTime <= s <= Time.maxTime ->
  1 <= Time.getFullYear tz s <= 9999 ->
  Utils.statusStep tz clock nc
  = if Time.msPerMinute * (s / Time.msPerMinute) <=? clock
    then (Campaign.withStatus nc Activa, true)
    else (nc, false).
Proof.
  intros H Hst Hs Hrange Hyear.
  apply ComposeFacts.handleSubmit_dates in H as (Hstart & _ & Hstatus).
  rewrite Hst, Hs in Hstart. cbn [CampaignForm.orNow] in Hstart.
  destruct (DateFnsFacts.parse_format tz s Hrange Hyear)
    as (printed & Hf & Hp).
  unfold Utils.formatDate in Hstart. rewrite Hf in Hstart.
  inversion Hstart as [Hprinted].
  rewrite ReconcilerFacts.statusStep_spec, Hstatus, Hst.
  unfold Utils.parseDate. rewrite <- Hprinted, Hp. reflexivity.
Qed.

(** The create form of [MoreSamples], submitted at 09:30 and looked at by a
    pass at 10:00 sharp. *)
Lemma submitted_waiting_campaign_starts_on_the_minute_witness :
  Utils.statusStep 0 1704103200000 Samples.q1
  = if Time.msPerMinute * (1704103200000 / Time.msPerMinute) <=? 1704103200000
    then (Campaign.withStatus Samples.q1 Activa, true)
    else (Samples.q1, false).
Proof.
  apply (submitted_waiting_campaign_starts_on_the_minute 0
           RosterSamples.morning RosterSamples.morning
           1704103200000 1704103200000 (lit "c1")
           (Some (Campaign.withPeople Samples.q1 []))
           MoreSamples.formFilled None (Some []) Samples.q1
           CampanaActualizada).
  - vm_compute. reflexivity.
  - reflexivity.
  - reflexivity.
  - vm_compute. split; congruence.
  - vm_compute. split; congruence.
Defined.

(** The roster the form shows is the roster a submit stores; and the form
    just opened on an existing campaign shows, and would store, every person
    of that campaign twice. *)
Theorem shown_roster_is_the_roster_saved
  (tz checkedAt now : Z) (newId : jsstring) (campaign : option Campaign.t)
  (st : CampaignForm.State) (store store' : Utils.Store)
  (nc : Campaign.t) (toast : Toast) :
  (CampaignForm.handleSubmit tz checkedAt now newId campaign st store
   = CampaignForm.Submitted nc store' toast ->
   Campaign.people nc = CampaignForm.allPeople campaign st)
  /\ (forall c,
        CampaignForm.allPeople (Some c)
          (CampaignForm.runEffects now (CampaignForm.initialState tz (Some c)))
        = Campaign.people c ++ Campaign.people c).
Proof.
  split.
  - intro H. apply LifecycleFacts.handleSubmit_people in H as [H _]. exact H.
  - intro c. unfold CampaignForm.allPeople, CampaignForm.runEffects.
    destruct (CampaignForm.validateDates _ _ _ _). reflexivity.
Qed.

(** The create form of [MoreSamples] submitted at 09:30. *)
Lemma shown_roster_is_the_roster_saved_witness :
  let nc := Campaign.mk (lit "c1") (lit "Q1 Outreach")
              (lit "01/01/2024 09:30") (lit "01/01/2024 10:00")
              (lit "01/01/2024 11:00") false EnEspera [Samples.ana] in
  Campaign.people nc = CampaignForm.allPeople None MoreSamples.formFilled.
Proof.
  intro nc.
  apply (proj1 (shown_roster_is_the_roster_saved 0 RosterSamples.morning
                  RosterSamples.morning (lit "c1") None MoreSamples.formFilled None
                  (Some [nc]) nc CampanaCreada)).
  vm_compute. reflexivity.
Defined.

(** [isDateInFuture] and [isDateInPast] never hold together, and neither
    holds exactly for an Invalid Date and for the current instant itself. *)
Theorem date_is_future_past_or_neither (now : Z) (date : option Z) :
  Utils.isDateInFuture now date && Utils.isDateInPast now date = false
  /\ (Utils.isDateInFuture now date || Utils.isDateInPast now date = false
      <-> date = None \/ date = Some now).
Proof.
  destruct date as [t|]; cbn [Utils.isDateInFuture Utils.isDateInPast].
  - destruct (now <? t) eqn:E1, (t <? now) eqn:E2; cbn [andb orb];
      try apply Z.ltb_lt in E1; try apply Z.ltb_lt in E2;
      try apply Z.ltb_ge in E1; try apply Z.ltb_ge in E2;
      (split; [try reflexivity; lia|]);
      (split; [try discriminate; intros _; right; f_equal; lia
              | intros [H | H]; [discriminate | inversion H; lia]]).
  - split; [reflexivity|]. split; [intros _; left; reflexivity | reflexivity].
Qed.
